(** * Task-Manager-Clone-Linux: the telemetry pipeline

    A shallow embedding of the data pipeline of the task manager:
    - [Decoder]  : the reader loop `TaskManagerApp._read_backend`
                   (src/ui/main_window.py),
    - [View]     : `ProcessesView._classify_process`, `update_data` and
                   `_update_rows` (src/ui/views/processes_view.py),
    - [Resolver] : `ProcessesView.update_window_pids`.

    Conventions.  A Python `str` is a [string]; every [ascii] stands for the
    code point of the same number, so the model covers text whose code points
    are below 256.  A Python `int` is a [Z], a Python `float` is a primitive
    binary64 [float].  A `dict` used as a finite map is a [gmap], a `set` is a
    [gset]; the one `dict` whose iteration order matters (the per-pid details
    of a group) is an insertion-ordered association list. *)

From Stdlib Require Import ZArith String Ascii List Bool PrimFloat FloatOps SpecFloat.
From Stdlib Require Import FloatAxioms.
From stdpp Require Import gmap strings list fin_maps.

Set Warnings "-inexact-float,-clear-no-such-hyp".

Local Open Scope string_scope.
Local Open Scope Z_scope.
Local Open Scope list_scope.

(** ** The `str` methods the pipeline calls *)

Module Py.

(** `c.isspace()` for a code point below 256. *)
Definition isspace (c : ascii) : bool :=
  let n := N_of_ascii c in
  ((9 <=? n) && (n <=? 13) || (28 <=? n) && (n <=? 32)
   || (n =? 133) || (n =? 160))%N.

(** `s.lstrip()`, `s.rstrip()` and `s.strip()`. *)
Fixpoint lstrip (s : string) : string :=
  match s with
  | EmptyString => EmptyString
  | String c s' => if isspace c then lstrip s' else s
  end.

Fixpoint rstrip (s : string) : string :=
  match s with
  | EmptyString => EmptyString
  | String c s' =>
      match rstrip s' with
      | EmptyString => if isspace c then EmptyString else String c EmptyString
      | r => String c r
      end
  end.

Definition strip (s : string) : string := rstrip (lstrip s).

(** `s.split(sep)` for a one-character separator: one field more than
    there are separators, empty fields kept. *)
Fixpoint split (sep : ascii) (s : string) : list string :=
  match s with
  | EmptyString => [EmptyString]
  | String c s' =>
      if Ascii.eqb c sep then EmptyString :: split sep s'
      else match split sep s' with
           | f :: fs => String c f :: fs
           | [] => [String c EmptyString]
           end
  end.

(** `s.split()`: the maximal runs of characters that are not
    whitespace.  [fields_from] returns the run that starts at the head of
    the string, if one does, and the runs after it. *)
Fixpoint fields_from (s : string) : option string * list string :=
  match s with
  | EmptyString => (None, [])
  | String c s' =>
      let '(cur, rest) := fields_from s' in
      if isspace c
      then (None, match cur with Some t => t :: rest | None => rest end)
      else (Some (String c (default EmptyString cur)), rest)
  end.

Definition split_ws (s : string) : list string :=
  let '(cur, rest) := fields_from s in
  match cur with Some t => t :: rest | None => rest end.

(** `s.startswith(p)`. *)
Definition startswith (s p : string) : bool := String.prefix p s.

(** `p in s` for strings. *)
Fixpoint contains (s p : string) : bool :=
  String.prefix p s ||
  match s with
  | EmptyString => false
  | String _ s' => contains s' p
  end.

(** `s.lower()`: below 256 the upper-case letters are A-Z and
    U+00C0-U+00DE without the multiplication sign U+00D7, each 32 below
    its lower-case form. *)
Definition lower_char (c : ascii) : ascii :=
  let n := N_of_ascii c in
  if ((65 <=? n) && (n <=? 90)
      || (192 <=? n) && (n <=? 222) && negb (n =? 215))%N
  then ascii_of_N (n + 32) else c.

Fixpoint lower (s : string) : string :=
  match s with
  | EmptyString => EmptyString
  | String c s' => String (lower_char c) (lower s')
  end.

End Py.

(** ** The stream decoder: `TaskManagerApp._read_backend` *)

Module Decoder.

(** The three locals of `_read_backend`. *)
Record decoder := Dec {
  frame : list (list string);
  gpu_frame : list (list string);
  in_gpu_block : bool
}.

(** What the loop hands to the Tk main loop with `root.after(0, ...)`;
    callbacks scheduled with the same delay run in scheduling order. *)
Inductive callback :=
| UpdateProcesses (data : list (list string))
| UpdateGpu (gpu_data : list (list string)).

Definition init : decoder := Dec [] [] false.

Definition bar : ascii := "|"%char.

(** One iteration of `for line in self.proc.stdout` with `self.running`
    set: the new locals and the callbacks scheduled. *)
Definition loop_body (st : decoder) (raw : string) : decoder * list callback :=
  let line := Py.strip raw in
  if (line =? "")%string then (st, [])
  else if (line =? "GPU_START")%string then
    (Dec (frame st) [] true, [])
  else if (line =? "GPU_END")%string then
    (Dec (frame st) (gpu_frame st) false,
     match gpu_frame st with
     | [] => []
     | _ :: _ => [UpdateGpu (gpu_frame st)]
     end)
  else if in_gpu_block st then
    if Py.startswith line "GPU|" then
      let parts := Py.split bar line in
      if (length parts =? 9)%nat
      then (Dec (frame st) (gpu_frame st ++ [tail parts]) (in_gpu_block st), [])
      else (st, [])
    else (st, [])
  else if (line =? "END")%string then
    match frame st with
    | [] => (st, [])
    | _ :: _ =>
        (Dec [] (gpu_frame st) (in_gpu_block st), [UpdateProcesses (frame st)])
    end
  else
    let parts := Py.split bar line in
    if (length parts =? 6)%nat
    then (Dec (frame st ++ [parts]) (gpu_frame st) (in_gpu_block st), [])
    else (st, []).

(** The loop over the lines read while `self.running` holds. *)
Fixpoint read_lines (st : decoder) (lines : list string) : list callback :=
  match lines with
  | [] => []
  | raw :: rest =>
      let '(st', out) := loop_body st raw in
      out ++ read_lines st' rest
  end.

(** The locals after those lines. *)
Definition final_state (st : decoder) (lines : list string) : decoder :=
  fold_left (fun s raw => fst (loop_body s raw)) lines st.

(** `_read_backend`.  [stdout] is everything the backend writes before it
    exits; [cancel_at = Some n] says that the iteration reading line [n]
    is the first to see `self.running` false and breaks out of the loop.
    Leaving the loop, by `break`, by exhaustion or through the `except`
    clause, schedules nothing. *)
Definition _read_backend (cancel_at : option nat) (stdout : list string)
  : list callback :=
  read_lines init
    (match cancel_at with Some n => take n stdout | None => stdout end).

End Decoder.


(** ** What the view calls but the repository does not define *)

(** `int(s)` and `float(s)` on a `str`: [None] stands for the `ValueError`
    of a string that is no numeral. *)
Class Builtins := {
  py_int : string -> option Z;
  py_float : string -> option float
}.

(** ** Aggregation, classification and reconciliation: `ProcessesView` *)

Module View.

Definition APP_PATTERNS : list string := [
  "chrome"; "firefox"; "brave"; "edge"; "opera"; "vivaldi"; "chromium";
  "code"; "visual studio"; "pycharm"; "intellij"; "eclipse"; "sublime";
  "atom"; "cursor"; "gedit"; "kate"; "neovim"; "vim";
  "slack"; "discord"; "teams"; "zoom"; "skype"; "telegram"; "signal";
  "spotify"; "vlc"; "mpv"; "rhythmbox"; "clementine"; "audacity";
  "gimp"; "inkscape"; "blender"; "krita"; "darktable";
  "libreoffice"; "writer"; "calc"; "impress";
  "dolphin"; "nautilus"; "thunar"; "nemo"; "pcmanfm";
  "konsole"; "gnome-terminal"; "tilix"; "alacritty"; "kitty"; "wezterm";
  "thunderbird"; "evolution"; "geary";
  "docker"; "postman"; "insomnia"; "dbeaver";
  "obs"; "kdenlive"; "handbrake"; "shotcut"
].

Definition BLACKLIST : gset string := list_to_set [
  "systemd"; "dbus-daemon"; "systemd-resolved"; "systemd-timesyncd";
  "systemd-logind"; "systemd-journald"; "systemd-udevd";
  "xorg"; "xwayland"; "kwin_x11"; "kwin_wayland";
  "mutter"; "gnome-shell"; "plasmashell";
  "pulseaudio"; "pipewire"; "pipewire-pulse"; "wireplumber";
  "kded5"; "kded6"; "ksmserver"; "kglobalaccel5";
  "gvfsd"; "gvfsd-fuse"; "gvfsd-metadata";
  "at-spi-bus-launcher"; "at-spi2-registryd";
  "ibus-daemon"; "ibus-portal"; "fcitx5";
  "xdg-desktop-portal"; "xdg-desktop-portal-gtk"; "xdg-desktop-portal-kde";
  "polkit-kde-authentication-agent-1"; "polkitd";
  "chrome_crashpad_handler"; "crashpad_handler"
].

Definition PARENT_BLACKLIST : gset string := list_to_set [
  "bash"; "zsh"; "sh"; "fish"; "dash"; "ksh";
  "bwrap"; "snap-confine"; "firejail";
  "python"; "python3"; "python2"; "perl"; "ruby"; "node";
  "systemd"; "init"
].

(** The tokens of the partial-match test of `_classify_process`. *)
Definition HELPER_TOKENS : list string :=
  ["crashpad"; "helper"; "zygote"; "nacl_helper"].

(** `{'cpu': cpu_val, 'mem': mem_mb}`. *)
Record detail := Detail { d_cpu : float; d_mem : float }.

(** A `dict` with `int` keys in insertion order: `d[k] = v` replaces the
    value of a key already there in place, and otherwise appends. *)
Fixpoint dict_set {V} (k : Z) (v : V) (d : list (Z * V)) : list (Z * V) :=
  match d with
  | [] => [(k, v)]
  | (k', v') :: d' =>
      if k =? k' then (k, v) :: d' else (k', v') :: dict_set k v d'
  end.

(** `{'pids': [...], 'cpu': ..., 'mem': ..., 'state': ..., 'details': {...}}` *)
Record group := Group {
  pids : list Z;
  cpu : float;
  mem : float;
  state : string;
  details : list (Z * detail)
}.

(** The row widget, as far as `_update_rows` deals with it:
    `ProcessRow(...)` as it constructs one for a section, a name and a
    group, and `ProcessRow.update_data` as it calls it with the values of a
    group: the row after the call (when the call raises, the row as the
    raise leaves it) and whether the call raised.  The one statement of
    `ProcessRow.update_data` that can raise is `str(pids[0])`, and it raises
    on an empty pid list only. *)
Class Widgets := {
  Row : Type;
  ProcessRow : string -> string -> group -> Row;
  row_update_data : group -> Row -> Row;
  row_update_raises : group -> Row -> bool;
  row_update_returns :
    forall info row, pids info <> [] -> row_update_raises info row = false
}.

(** `n / 1024` for an `int`: the quotient rounded to the nearest binary64
    (ties to even); [None] is the `OverflowError` of a quotient too large
    for a float. *)
Definition div_1024 (n : Z) : option float :=
  let q := SF2Prim (binary_normalize prec emax n (-10) false) in
  if PrimFloat.is_infinity q then None else Some q.

(** The target dictionary after lines 841-848 for one sample. *)
Definition add_to_group (target : gmap string group) (name state' : string)
    (int_pid : Z) (cpu_val mem_mb : float) : gmap string group :=
  let target :=
    match target !! name with
    | None => <[name := Group [] 0%float 0%float state' []]> target
    | Some _ => target
    end in
  alter (fun g =>
           Group (pids g ++ [int_pid])
                 (cpu g + cpu_val)%float
                 (mem g + mem_mb)%float
                 (state g)
                 (dict_set int_pid (Detail cpu_val mem_mb) (details g)))
        name target.

(** The section tags of the row keys. *)
Definition APP : string := "app".
Definition BG : string := "bg".

(** `current_keys` of `_update_rows`. *)
Definition current_keys (apps background : gmap string group)
  : gset (string * string) :=
  set_map (pair APP) (dom apps) ∪ set_map (pair BG) (dom background).

(** The three local sets of `_update_rows`. *)
Record delta := Delta {
  to_add : gset (string * string);
  to_remove : gset (string * string);
  to_update : gset (string * string)
}.

Section Methods.
Context `{!Builtins} `{!Widgets}.

(** `psutil.Process(pid).uids().real != os.getuid()`; [None] when the
    lookup raises (the process is gone, access is denied). *)
Variable real_uid_differs : Z -> option bool.

(** The attributes of `ProcessesView` the pipeline uses. *)
Record view := MkView {
  process_data : list (list string);
  process_groups : gmap string group;
  window_pids : gset Z;
  classification_cache : gmap Z bool;
  rows : gmap (string * string) Row;
  cache_cleanup_counter : Z;
  window_pid_thread_running : bool
}.

(** `ProcessesView.__init__`. *)
Definition new_view : view := MkView [] ∅ ∅ ∅ ∅ 0 false.

Definition set_cache (self : view) (c : gmap Z bool) : view :=
  MkView (process_data self) (process_groups self) (window_pids self) c
         (rows self) (cache_cleanup_counter self)
         (window_pid_thread_running self).

Definition set_window_pids (self : view) (w : gset Z) : view :=
  MkView (process_data self) (process_groups self) w
         (classification_cache self) (rows self)
         (cache_cleanup_counter self) (window_pid_thread_running self).

Definition set_counter (self : view) (n : Z) : view :=
  MkView (process_data self) (process_groups self) (window_pids self)
         (classification_cache self) (rows self) n
         (window_pid_thread_running self).

Definition set_process_data (self : view) (d : list (list string)) : view :=
  MkView d (process_groups self) (window_pids self)
         (classification_cache self) (rows self)
         (cache_cleanup_counter self) (window_pid_thread_running self).

Definition set_rows (self : view) (r : gmap (string * string) Row) : view :=
  MkView (process_data self) (process_groups self) (window_pids self)
         (classification_cache self) r (cache_cleanup_counter self)
         (window_pid_thread_running self).

Definition set_process_groups (self : view) (g : gmap string group) : view :=
  MkView (process_data self) g (window_pids self)
         (classification_cache self) (rows self)
         (cache_cleanup_counter self) (window_pid_thread_running self).

(** `self.classification_cache[pid] = b; return b`. *)
Definition remember (self : view) (pid : Z) (b : bool) : bool * view :=
  (b, set_cache self (<[pid := b]> (classification_cache self))).

(** `_classify_process(self, pid, name)`: the value returned and the
    view after the call. *)
Definition _classify_process (self : view) (pid : Z) (name : string)
  : bool * view :=
  match classification_cache self !! pid with
  | Some cached =>
      if negb cached && bool_decide (pid ∈ window_pids self)
      then remember self pid true
      else (cached, self)
  | None =>
      let name_lower := Py.lower name in
      if bool_decide (name_lower ∈ BLACKLIST)
         || bool_decide (name_lower ∈ PARENT_BLACKLIST)
      then remember self pid false
      else if existsb (fun bl => Py.contains name_lower bl) HELPER_TOKENS
      then remember self pid false
      else if bool_decide (pid ∈ window_pids self)
      then remember self pid true
      else if existsb (fun pat => Py.contains name_lower pat) APP_PATTERNS
      then remember self pid true
      else match real_uid_differs pid with
           | Some true => remember self pid false
           | None => remember self pid false
           | Some false => remember self pid false
           end
  end.

(** What lines 834-836 read off one row of the frame; [None] when
    the row does not unpack into six fields or a conversion raises. *)
Record sample := Sample {
  s_pid : Z;
  s_name : string;
  s_state : string;
  s_cpu : float;
  s_mem_mb : float
}.

Definition parse_row (row : list string) : option sample :=
  match row with
  | [pid; name; state'; cpu'; mem'; threads] =>
      int_pid ← py_int pid;
      cpu_val ← py_float cpu';
      mem_kb ← py_int mem';
      mem_mb ← div_1024 mem_kb;
      Some (Sample int_pid name state' cpu_val mem_mb)
  | _ => None
  end.

(** The body of `for pid, name, state, cpu, mem, threads in data` for a
    row that parsed. *)
Definition add_sample (self : view) (apps background : gmap string group)
    (s : sample) : view * gmap string group * gmap string group :=
  let '(is_app, self') := _classify_process self (s_pid s) (s_name s) in
  if is_app
  then (self',
        add_to_group apps (s_name s) (s_state s) (s_pid s) (s_cpu s) (s_mem_mb s),
        background)
  else (self',
        apps,
        add_to_group background (s_name s) (s_state s) (s_pid s) (s_cpu s)
                     (s_mem_mb s)).

(** The loop of lines 833-848.  A row that raises ends the call with
    the cache as the rows before it left it. *)
Fixpoint aggregate (self : view) (apps background : gmap string group)
    (data : list (list string))
  : view * option (gmap string group * gmap string group) :=
  match data with
  | [] => (self, Some (apps, background))
  | row :: rest =>
      match parse_row row with
      | None => (self, None)
      | Some s =>
          let '(self', apps', background') :=
            add_sample self apps background s in
          aggregate self' apps' background' rest
      end
  end.

(** `{int(d[0]) for d in data}`; [None] when a `d[0]` or an `int`
    raises. *)
Fixpoint frame_pids (data : list (list string)) : option (list Z) :=
  match data with
  | [] => Some []
  | d :: rest =>
      p ← (match d with [] => None | d0 :: _ => py_int d0 end);
      ps ← frame_pids rest;
      Some (p :: ps)
  end.

Definition current_pids (data : list (list string)) : option (gset Z) :=
  list_to_set <$> frame_pids data.

(** Lines 817-828: the view after them, and whether they returned
    ([false]: the set comprehension raised). *)
Definition cache_cleanup (self : view) (data : list (list string))
  : view * bool :=
  let self := set_process_data self data in
  let self := set_counter self (cache_cleanup_counter self + 1) in
  if 30 <=? cache_cleanup_counter self then
    let self := set_counter self 0 in
    match current_pids data with
    | None => (self, false)
    | Some cur =>
        (set_cache self
           (filter (fun kv => kv.1 ∈ cur) (classification_cache self)),
         true)
    end
  else (self, true).

(** `apps[name] if section == 'app' else background[name]`; [None] is
    the `KeyError`. *)
Definition info_for (apps background : gmap string group)
    (key : string * string) : option group :=
  if (key.1 =? APP)%string then apps !! key.2 else background !! key.2.

(** `for key in to_remove: self.rows[key].destroy(); del self.rows[key]` *)
Definition remove_dead (keys : list (string * string))
    (rs : gmap (string * string) Row) : gmap (string * string) Row :=
  foldl (fun r key => delete key r) rs keys.

(** `for key in to_update: ... self.rows[key].update_data(...)`; [None]
    when a lookup raises `KeyError` or an `update_data` raises
    `IndexError`. *)
Fixpoint update_existing (apps background : gmap string group)
    (keys : list (string * string)) (rs : gmap (string * string) Row)
  : option (gmap (string * string) Row) :=
  match keys with
  | [] => Some rs
  | key :: rest =>
      info ← info_for apps background key;
      row ← rs !! key;
      if row_update_raises info row then None
      else update_existing apps background rest
             (<[key := row_update_data info row]> rs)
  end.

(** `for key in to_add: ... self.rows[key] = row` *)
Fixpoint add_new (apps background : gmap string group)
    (keys : list (string * string)) (rs : gmap (string * string) Row)
  : option (gmap (string * string) Row) :=
  match keys with
  | [] => Some rs
  | key :: rest =>
      info ← info_for apps background key;
      add_new apps background rest (<[key := ProcessRow key.1 key.2 info]> rs)
  end.

(** `_update_rows(self, apps, background)`: the view after the call and
    the three key sets it computed; [None] if the call raised, with the
    `KeyError` of a lookup or the `IndexError` of a row's `update_data`.
    A Python `set` is iterated in no particular order; the loops here take
    the keys in the order of [elements]. *)
Definition _update_rows (self : view) (apps background : gmap string group)
  : option (view * delta) :=
  let current := current_keys apps background in
  let existing_keys := dom (rows self) in
  let d := Delta (current ∖ existing_keys) (existing_keys ∖ current)
                 (current ∩ existing_keys) in
  let rs := remove_dead (elements (to_remove d)) (rows self) in
  rs ← update_existing apps background (elements (to_update d)) rs;
  rs ← add_new apps background (elements (to_add d)) rs;
  Some (set_rows self rs, d).

(** `update_data(self, data)`: the view after the call and, when it
    returned, the two dictionaries `apps` and `background` it built.  On
    the dictionaries built here `_update_rows` does not raise: the keys it
    looks up are there and every group lists a pid (lemmas
    [update_rows_returns] and [aggregate_lists_pids] below), so the view
    given for that branch is immaterial. *)
Definition update_data (self : view) (data : list (list string))
  : view * option (gmap string group * gmap string group) :=
  let '(self, returned) := cache_cleanup self data in
  if negb returned then (self, None) else
  match aggregate self ∅ ∅ data with
  | (self, None) => (self, None)
  | (self, Some (apps, background)) =>
      match _update_rows self apps background with
      | None => (self, None)
      | Some (self, _) =>
          (set_process_groups self (background ∪ apps),
           Some (apps, background))
      end
  end.

(** What happens to a view between two classifications: a call of
    `_classify_process`, the resolver publishing a new `window_pids`,
    or a whole `update_data` cycle. *)
Inductive event :=
| Classify (pid : Z) (name : string)
| Publish (pids : gset Z)
| Cycle (data : list (list string)).

Definition exec (self : view) (e : event) : view :=
  match e with
  | Classify pid name => (_classify_process self pid name).2
  | Publish w => set_window_pids self w
  | Cycle data => (update_data self data).1
  end.

Definition run (self : view) (es : list event) : view := foldl exec self es.

End Methods.

(** *** Reference definitions for the statements below *)

Section Reference.
Context `{!Builtins} `{!Widgets}.
Variable real_uid_differs : Z -> option bool.

(** The value of a finite float, counted in units of 2^-1074, the
    smallest positive binary64: every finite binary64 is a whole number of
    them.  [None] for an infinity or a NaN. *)
Definition units (x : float) : option Z :=
  match Prim2SF x with
  | S754_zero _ => Some 0
  | S754_finite s m e =>
      Some ((if s then Z.neg m else Z.pos m) * 2 ^ (e + 1074))
  | _ => None
  end.

(** `0.0 + x1 + ... + xn`, added from the left as `+=` does. *)
Definition fsum (xs : list float) : float := foldl PrimFloat.add 0%float xs.

(** All rows of a frame parsed; [None] if one of them raises. *)
Fixpoint parse_all (data : list (list string)) : option (list sample) :=
  match data with
  | [] => Some []
  | row :: rest =>
      s ← parse_row row; ss ← parse_all rest; Some (s :: ss)
  end.

(** The samples of a frame, each with the answer `_classify_process`
    gives when the loop reaches it. *)
Fixpoint labelled (self : view) (ss : list sample) : list (bool * sample) :=
  match ss with
  | [] => []
  | s :: rest =>
      let '(is_app, self') :=
        _classify_process real_uid_differs self (s_pid s) (s_name s) in
      (is_app, s) :: labelled self' rest
  end.

(** The samples that received the key (category, name), in frame order. *)
Definition members (is_app : bool) (name : string)
    (l : list (bool * sample)) : list sample :=
  map snd (List.filter
             (fun bs => Bool.eqb bs.1 is_app && (s_name bs.2 =? name)%string)
             l).

(** The group a non-empty list of samples of one key adds up to. *)
Definition group_of (ms : list sample) : option group :=
  match ms with
  | [] => None
  | s0 :: _ =>
      Some (Group (map s_pid ms)
                  (fsum (map s_cpu ms))
                  (fsum (map s_mem_mb ms))
                  (s_state s0)
                  (foldl (fun d s =>
                            dict_set (s_pid s) (Detail (s_cpu s) (s_mem_mb s)) d)
                         [] ms))
  end.

(** A group, or none yet, after one more sample of its key. *)
Definition absorb (og : option group) (s : sample) : option group :=
  let g := default (Group [] 0%float 0%float (s_state s) []) og in
  Some (Group (pids g ++ [s_pid s])
              (cpu g + s_cpu s)%float
              (mem g + s_mem_mb s)%float
              (state g)
              (dict_set (s_pid s) (Detail (s_cpu s) (s_mem_mb s)) (details g))).

(** The dictionary `apps` or `background`. *)
Definition target_of (is_app : bool)
    (groups : gmap string group * gmap string group) : gmap string group :=
  if is_app then groups.1 else groups.2.

(** The new state of the reconciler's contract: one map keyed by
    (category, name), given as the group it holds for a key, if any.  Its
    key set is where it holds one. *)
Definition new_state (groups : gmap string group * gmap string group)
    (key : string * string) : option group :=
  if decide (key.1 = APP) then groups.1 !! key.2
  else if decide (key.1 = BG) then groups.2 !! key.2
  else None.

(** Every group of a dictionary lists at least one pid. *)
Definition lists_pids (m : gmap string group) : Prop :=
  map_Forall (fun _ g => pids g <> []) m.

(** [purges self data pid]: the cycle `update_data(data)` started in
    [self] runs the cache cleanup and [pid] is in no row of [data]. *)
Definition purges (self : view) (data : list (list string)) (pid : Z)
  : bool :=
  (30 <=? cache_cleanup_counter self + 1)
  && match current_pids data with
     | Some cur => bool_decide (pid ∉ cur)
     | None => false
     end.

(** No cycle of [es], run from [self], purges [pid]. *)
Fixpoint kept (pid : Z) (self : view) (es : list event) : Prop :=
  match es with
  | [] => True
  | e :: rest =>
      match e with
      | Cycle data => purges self data pid = false
      | _ => True
      end
      /\ kept pid (exec real_uid_differs self e) rest
  end.

End Reference.
End View.

(** ** The window-ownership resolver: `ProcessesView.update_window_pids` *)

Module Resolver.
Import View.

Inductive exn := FileNotFoundError | TimeoutExpired | OtherError.

(** What a call either returns or raises. *)
Inductive result (A : Type) :=
| Ok (a : A)
| Raise (e : exn).
Arguments Ok {A} a.
Arguments Raise {A} e.

(** `subprocess.CompletedProcess`, the attributes read. *)
Record CompletedProcess := Completed { returncode : Z; stdout : string }.

(** `re.findall(pattern, s)` and, for `re.search(pattern, s)`, group 1 of
    the match if there is one. *)
Class Regex := {
  re_findall : string -> string -> list string;
  re_search_group1 : string -> string -> option string
}.

Definition newline : ascii := ascii_of_N 10.

Section Refresh.
Context `{!Builtins} `{!Widgets} `{!Regex}.

(** `subprocess.run(cmd, capture_output=True, text=True, timeout=t)`. *)
Variable subprocess_run : list string -> float -> result CompletedProcess.

Definition set_thread_running (self : view) (b : bool) : view :=
  MkView (process_data self) (process_groups self) (window_pids self)
         (classification_cache self) (rows self)
         (cache_cleanup_counter self) b.

(** The loop over the lines of `wmctrl -lp`. *)
Definition wmctrl_line (pids : gset Z) (line : string) : gset Z :=
  let parts := Py.split_ws line in
  if (3 <=? length parts)%nat then
    match py_int (nth 2 parts "") with
    | Some pid => if 0 <? pid then pids ∪ {[pid]} else pids
    | None => pids
    end
  else pids.

(** The body of the loop over the window ids of the fallback. *)
Definition xprop_window (pids : gset Z) (wid : string) : gset Z :=
  match subprocess_run ["xprop"; "-id"; wid; "_NET_WM_PID"] 0.2%float with
  | Raise _ => pids
  | Ok pid_result =>
      if Py.contains (stdout pid_result) "_NET_WM_PID" then
        match re_search_group1 "=\s*(\d+)" (stdout pid_result) with
        | Some digits =>
            match py_int digits with
            | Some pid => pids ∪ {[pid]}
            | None => pids
            end
        | None => pids
        end
      else pids
  end.

(** The first `try`: [Some pids] when it reaches `self.window_pids = pids;
    return`, [None] when control goes on to the fallback. *)
Definition try_wmctrl (pids : gset Z) : option (gset Z) :=
  match subprocess_run ["wmctrl"; "-lp"] 2%float with
  | Ok r =>
      if returncode r =? 0
      then Some (foldl wmctrl_line pids
                       (Py.split newline (Py.strip (stdout r))))
      else None
  | Raise FileNotFoundError => None
  | Raise _ => None
  end.

(** The second `try`. *)
Definition try_xprop (pids : gset Z) : gset Z :=
  match subprocess_run ["xprop"; "-root"; "_NET_CLIENT_LIST"] 2%float with
  | Ok r =>
      if returncode r =? 0
      then foldl xprop_window pids
                 (take 50 (re_findall "0x[0-9a-fA-F]+" (stdout r)))
      else pids
  | Raise _ => pids
  end.

(** `_fetch_pids()`, the body of the thread: the view after it and the
    exception that leaves it, if any.  Each call that can raise sits in a
    `try` whose handlers catch every exception; the `finally` clause clears
    the flag. *)
Definition _fetch_pids (self : view) : view * option exn :=
  let pids := ∅ in
  let self :=
    match try_wmctrl pids with
    | Some pids => set_window_pids self pids
    | None => set_window_pids self (try_xprop pids)
    end in
  (set_thread_running self false, None).

(** `update_window_pids(self)`, with the thread it starts run to its
    end. *)
Definition update_window_pids (self : view) : view * option exn :=
  if window_pid_thread_running self then (self, None)
  else _fetch_pids (set_thread_running self true).

(** A strategy fails when its command raises (the tool is missing, the
    timeout expires) or exits with a status other than 0. *)
Definition failed (r : result CompletedProcess) : bool :=
  match r with
  | Raise _ => true
  | Ok c => negb (returncode c =? 0)
  end.

End Refresh.
End Resolver.

(** ** The wire protocol, as the statements about the decoder read it *)

Module Wire.
Import Decoder.

(** The fields of a line. *)
Definition fields (raw : string) : list string :=
  Py.split bar (Py.strip raw).

(** A well-formed process record: exactly 6 fields. *)
Definition process_record (raw : string) : bool :=
  (length (fields raw) =? 6)%nat.

(** A well-formed GPU record: the `GPU|` prefix and exactly 9 fields. *)
Definition gpu_record (raw : string) : bool :=
  Py.startswith (Py.strip raw) "GPU|" && (length (fields raw) =? 9)%nat.

Definition is_END (raw : string) : bool := (Py.strip raw =? "END")%string.
Definition is_GPU_START (raw : string) : bool :=
  (Py.strip raw =? "GPU_START")%string.
Definition is_GPU_END (raw : string) : bool :=
  (Py.strip raw =? "GPU_END")%string.

Definition sentinel (raw : string) : bool :=
  is_END raw || is_GPU_START raw || is_GPU_END raw.

(** A line that is malformed for the decoder state, a blank line
    included.  Outside a GPU block it is a line that is no sentinel and has
    not exactly six fields, so a GPU record is malformed there.  Inside a
    GPU block it is a line that is neither `GPU_START` nor `GPU_END` nor a
    well-formed GPU record, so an `END` line and a six-field line are
    malformed there. *)
Definition malformed (in_block : bool) (raw : string) : bool :=
  if in_block
  then negb (is_GPU_START raw) && negb (is_GPU_END raw)
       && negb (gpu_record raw)
  else negb (sentinel raw) && negb (process_record raw).

(** A framed stream: process records, `END` lines, and GPU blocks (a
    `GPU_START` line, GPU records, a `GPU_END` line), in any order. *)
Inductive chunk :=
| Process (raw : string)
| Flush (raw : string)
| GpuBlock (start : string) (records : list string) (stop : string).

Definition well_formed (c : chunk) : bool :=
  match c with
  | Process raw => process_record raw
  | Flush raw => is_END raw
  | GpuBlock start records stop =>
      is_GPU_START start && forallb gpu_record records && is_GPU_END stop
  end.

Definition lines_of (c : chunk) : list string :=
  match c with
  | Process raw => [raw]
  | Flush raw => [raw]
  | GpuBlock start records stop => start :: records ++ [stop]
  end.

Definition stream_of (cs : list chunk) : list string :=
  flat_map lines_of cs.

(** The frames a framed stream stands for; [pending] holds the process
    samples read since the last frame. *)
Fixpoint frames_of (pending : list (list string)) (cs : list chunk)
  : list callback :=
  match cs with
  | [] => []
  | Process raw :: rest => frames_of (pending ++ [fields raw]) rest
  | Flush _ :: rest =>
      match pending with
      | [] => frames_of [] rest
      | _ :: _ => UpdateProcesses pending :: frames_of [] rest
      end
  | GpuBlock _ records _ :: rest =>
      match records with
      | [] => frames_of pending rest
      | _ :: _ =>
          UpdateGpu (map (fun raw => tail (fields raw)) records)
          :: frames_of pending rest
      end
  end.

(** A line of a GPU block: a GPU record, or a line inserted among the
    records. *)
Inductive block_line :=
| Kept (raw : string)
| Dropped (raw : string).

(** A framed stream with lines inserted anywhere: outside the GPU blocks,
    and inside them, in front of a record or of the closing `GPU_END`. *)
Inductive piece :=
| Inserted (raw : string)
| PProcess (raw : string)
| PFlush (raw : string)
| PGpuBlock (start : string) (body : list block_line) (stop : string).

Definition block_line_ok (l : block_line) : bool :=
  match l with
  | Kept raw => gpu_record raw
  | Dropped raw => malformed true raw
  end.

(** The chunks are well formed and every inserted line is malformed for
    the state the decoder is in where it stands. *)
Definition piece_ok (p : piece) : bool :=
  match p with
  | Inserted raw => malformed false raw
  | PProcess raw => process_record raw
  | PFlush raw => is_END raw
  | PGpuBlock start body stop =>
      is_GPU_START start && forallb block_line_ok body && is_GPU_END stop
  end.

Definition raw_of (l : block_line) : string :=
  match l with Kept raw => raw | Dropped raw => raw end.

Definition piece_lines (p : piece) : list string :=
  match p with
  | Inserted raw => [raw]
  | PProcess raw => [raw]
  | PFlush raw => [raw]
  | PGpuBlock start body stop => start :: map raw_of body ++ [stop]
  end.

(** The lines the reader gets. *)
Definition lines_with_insertions (ps : list piece) : list string :=
  flat_map piece_lines ps.

Definition records_of (body : list block_line) : list string :=
  flat_map (fun l => match l with Kept raw => [raw] | Dropped _ => [] end)
           body.

(** The framed stream the insertions were made in. *)
Definition chunks_of (ps : list piece) : list chunk :=
  flat_map (fun p =>
              match p with
              | Inserted _ => []
              | PProcess raw => [Process raw]
              | PFlush raw => [Flush raw]
              | PGpuBlock start body stop =>
                  [GpuBlock start (records_of body) stop]
              end)
           ps.

(** The process samples among the callbacks scheduled, in order. *)
Definition process_samples (cs : list callback) : list (list string) :=
  flat_map (fun c =>
              match c with
              | UpdateProcesses data => data
              | UpdateGpu _ => []
              end)
           cs.

(** The well-formed process records of a stream, parsed, in line order. *)
Definition process_records (stdout : list string) : list (list string) :=
  map fields (List.filter process_record stdout).

(** A line that makes the decoder hand a frame over. *)
Definition flushes (raw : string) : bool := is_END raw || is_GPU_END raw.

(** The payload of a callback. *)
Definition payload (c : callback) : list (list string) :=
  match c with
  | UpdateProcesses data => data
  | UpdateGpu gpu_data => gpu_data
  end.

End Wire.

(** ** A runtime for closed examples

    `int` and `float` restricted to plain decimal numerals (an optional
    minus sign and digits for `int`; digits, optionally a point and more
    digits, at most 15 digits in all, for `float`), where they agree with
    CPython's; rows that record the group they show. *)

Module Demo.
Import View.

Definition digit (c : ascii) : option Z :=
  let n := N_of_ascii c in
  if ((48 <=? n) && (n <=? 57))%N then Some (Z.of_N n - 48) else None.

Fixpoint digits_from (acc : Z) (s : string) : option Z :=
  match s with
  | EmptyString => Some acc
  | String c s' => d ← digit c; digits_from (10 * acc + d) s'
  end.

Definition dec_nat (s : string) : option Z :=
  match s with
  | EmptyString => None
  | _ => digits_from 0 s
  end.

Definition dec_int (s : string) : option Z :=
  match s with
  | String "-" s' => Z.opp <$> dec_nat s'
  | _ => dec_nat s
  end.

Definition Z_to_float (n : Z) : float :=
  SF2Prim (binary_normalize prec emax n 0 false).

(** One division of two integers that are floats exactly is the numeral
    correctly rounded. *)
Definition dec_float (s : string) : option float :=
  match Py.split "."%char s with
  | [i] =>
      if (String.length i <=? 15)%nat then Z_to_float <$> dec_nat i else None
  | [i; f] =>
      if (String.length i + String.length f <=? 15)%nat then
        _ ← dec_nat i;
        _ ← dec_nat f;
        n ← dec_nat (i ++ f)%string;
        Some (Z_to_float n / Z_to_float (10 ^ Z.of_nat (String.length f)))%float
      else None
  | _ => None
  end.

Definition builtins : Builtins :=
  {| py_int := dec_int; py_float := dec_float |}.

(** Rows that record the group they show and refuse an empty pid
    list. *)
Definition widgets : Widgets :=
  {| Row := group;
     ProcessRow := fun _ _ info => info;
     row_update_data := fun info _ => info;
     row_update_raises := fun info _ =>
       match pids info with [] => true | _ :: _ => false end;
     row_update_returns := fun info _ =>
       match pids info as l
             return l <> [] ->
                    match l with [] => true | _ :: _ => false end = false
       with
       | [] => fun H => False_rect _ (H eq_refl)
       | _ :: _ => fun _ => eq_refl
       end |}.

(** The processes of the examples all belong to the session's user. *)
Definition same_user : Z -> option bool := fun _ => Some false.

Definition classify := @_classify_process widgets same_user.
Definition update := @update_data builtins widgets same_user.
Definition started : @view widgets := @new_view widgets.

(** A view whose resolver has found a window of pid 10. *)
Definition windowed : @view widgets := set_window_pids started {[10]}.

(** A desktop where `wmctrl` exits with status 1 and every `xprop` call
    times out; no command output reaches a pattern there. *)
Definition broken_tools (cmd : list string) (timeout : float)
  : Resolver.result Resolver.CompletedProcess :=
  match cmd with
  | "wmctrl" :: _ => Resolver.Ok (Resolver.Completed 1 "")
  | _ => Resolver.Raise Resolver.TimeoutExpired
  end.

Definition no_match : Resolver.Regex :=
  {| Resolver.re_findall := fun _ _ => [];
     Resolver.re_search_group1 := fun _ _ => None |}.

(** The window is gone, and thirty frames without pid 10 go by. *)
Definition thirty_cycles : list event :=
  Publish ∅ :: replicate 30 (Cycle [["1"; "init"; "S"; "0.0"; "0"; "1"]]).

(** The backend's line for a process. *)
Definition row (pid name cpu' mem' : string) : list string :=
  [pid; name; "S"; cpu'; mem'; "1"].

(** The window is gone, and thirty frames go by that all list pid 10; the
    thirtieth runs the cache cleanup. *)
Definition thirty_cycles_alive : list event :=
  Publish ∅ :: replicate 30 (Cycle [row "10" "xterm" "0.5" "2048"]).

(** Two samples of one name, the first of a pid that owns a window. *)
Definition pair_frame : list (list string) :=
  [row "10" "xterm" "0.5" "2048"; row "11" "xterm" "1.5" "1024"].

(** A frame with a window owner and three more samples of its name, and
    the background group these three add up to. *)
Definition trio_frame : list (list string) :=
  [row "10" "xterm" "0.5" "2048"; row "11" "xterm" "0.1" "1024";
   row "12" "xterm" "0.2" "2048"; row "13" "xterm" "0.3" "512"].

Definition trio : group :=
  Group [11; 12; 13] 0.6000000000000001%float 3.5%float "S"
        [(11, Detail 0.1%float 1%float); (12, Detail 0.2%float 2%float);
         (13, Detail 0.3%float 0.5%float)].

Definition sample_10 : sample := Sample 10 "xterm" "S" 0.5%float 2%float.
Definition sample_11 : sample := Sample 11 "xterm" "S" 1.5%float 1%float.

(** A frame that lists pid 11 twice, and the group it aggregates to. *)
Definition twice : list (list string) :=
  [row "11" "xterm" "0.5" "2048"; row "11" "xterm" "1.5" "1024"].

Definition doubled : group :=
  Group [11; 11] 2%float 3%float "S" [(11, Detail 1.5%float 1%float)].

(** A line as the reader gets it, with its newline. *)
Definition line (s : string) : string :=
  (s ++ String (ascii_of_N 10) EmptyString)%string.

(** A framed stream: a process record, a GPU block inside the process
    frame, a second process record and the `END` of the frame. *)
Definition framed : list Wire.chunk := [
  Wire.Process (line "123|bash|S|0.5|2048|1");
  Wire.GpuBlock (line "GPU_START")
                [line "GPU|0|NVIDIA RTX|45|2048|8192|65|120|250"]
                (line "GPU_END");
  Wire.Process (line "124|x|S|1.0|100|1");
  Wire.Flush (line "END")
].

(** The same stream with a malformed line in front, a blank line and a
    five-field line inside the GPU block, and a blank line before `END`. *)
(** A stream of well-formed records and sentinels with a process record
    inside the GPU block. *)
Definition interleaved : list string := [
  line "GPU_START";
  line "GPU|0|NVIDIA RTX|45|2048|8192|65|120|250";
  line "123|bash|S|0.5|2048|1";
  line "GPU_END";
  line "END"
].

(** The stream [framed] with lines inserted that are malformed where they
    stand: outside the block a line of one field, a GPU record and a line
    of blanks; inside the block a blank line, a five-field line, a six-field
    line and an `END` line. *)
Definition disturbed : list Wire.piece := [
  Wire.Inserted (line "abc");
  Wire.Inserted (line "GPU|1|stray|45|2048|8192|65|120|250");
  Wire.PProcess (line "123|bash|S|0.5|2048|1");
  Wire.PGpuBlock (line "GPU_START")
                 [Wire.Dropped (line "");
                  Wire.Kept (line "GPU|0|NVIDIA RTX|45|2048|8192|65|120|250");
                  Wire.Dropped (line "9|short|S|0.0|1");
                  Wire.Dropped (line "125|y|S|2.0|300|1");
                  Wire.Dropped (line "END")]
                 (line "GPU_END");
  Wire.PProcess (line "124|x|S|1.0|100|1");
  Wire.Inserted (line "   ");
  Wire.PFlush (line "END")
].

Definition noisy : list string := [
  line "abc";
  line "123|bash|S|0.5|2048|1";
  line "GPU_START";
  line "";
  line "GPU|0|NVIDIA RTX|45|2048|8192|65|120|250";
  line "9|short|S|0.0|1";
  line "GPU_END";
  line "124|x|S|1.0|100|1";
  line "   ";
  line "END"
].

End Demo.


(** ** The GPU consumer: `PerformanceView.update_gpu_data` and
    `PerformanceView._update_gpu_display` *)

Module Gpu.

(** The attributes of `PerformanceView` the GPU path uses. *)
Record gpu_view := GpuView {
  gpu_data : list (list string);
  has_gpu : bool;
  gpu_history : list Z
}.

(** `PerformanceView.__init__`. *)
Definition new_gpu_view : gpu_view := GpuView [] false [].

(** `d.append(x)` on a `deque(maxlen=60)`: when the deque is full the
    leftmost item goes. *)
Definition deque_append {A : Type} (x : A) (d : list A) : list A :=
  drop (length (d ++ [x]) - 60) (d ++ [x]).

Section Methods.
Context `{!Builtins}.

(** `update_gpu_data(self, gpu_data)`. *)
Definition update_gpu_data (self : gpu_view) (data : list (list string))
  : gpu_view :=
  GpuView data
          (match data with
           | [] => has_gpu self
           | _ :: _ => if negb (has_gpu self) then true else has_gpu self
           end)
          (gpu_history self).

(** The `try` block of `_update_gpu_display`: the eight values read off
    `gpu`; [None] when an index is out of range (`IndexError`) or an `int`
    raises (`ValueError`). *)
Definition read_gpu (gpu : list string)
  : option (Z * string * Z * Z * Z * Z * Z * Z) :=
  gpu_index ← gpu !! 0%nat ≫= py_int;
  gpu_name ← gpu !! 1%nat;
  gpu_util ← gpu !! 2%nat ≫= py_int;
  gpu_mem_used ← gpu !! 3%nat ≫= py_int;
  gpu_mem_total ← gpu !! 4%nat ≫= py_int;
  gpu_temp ← gpu !! 5%nat ≫= py_int;
  gpu_power ← gpu !! 6%nat ≫= py_int;
  gpu_power_limit ← gpu !! 7%nat ≫= py_int;
  Some (gpu_index, gpu_name, gpu_util, gpu_mem_used, gpu_mem_total, gpu_temp,
        gpu_power, gpu_power_limit).

(** The utilisation among the values read. *)
Definition util_of (v : Z * string * Z * Z * Z * Z * Z * Z) : Z :=
  let '(_, _, gpu_util, _, _, _, _, _) := v in gpu_util.

(** `_update_gpu_display(self)`. *)
Definition _update_gpu_display (self : gpu_view) : gpu_view :=
  match gpu_data self with
  | [] => self
  | gpu :: _ =>
      match read_gpu gpu with
      | None => self
      | Some v =>
          GpuView (gpu_data self) (has_gpu self)
                  (deque_append (util_of v) (gpu_history self))
      end
  end.

(** What reaches the GPU path: a GPU frame handed over by the reader
    (`_update_gpu`), or the once-a-second `update`, whose last statement is
    `if self.gpu_data: self._update_gpu_display()`. *)
Inductive gpu_event :=
| GpuFrame (data : list (list string))
| Tick.

Definition gpu_exec (self : gpu_view) (e : gpu_event) : gpu_view :=
  match e with
  | GpuFrame data => update_gpu_data self data
  | Tick =>
      match gpu_data self with
      | [] => self
      | _ :: _ => _update_gpu_display self
      end
  end.

Definition gpu_run (self : gpu_view) (es : list gpu_event) : gpu_view :=
  foldl gpu_exec self es.

(** The utilisation a `Tick` appends in [self], if it appends one. *)
Definition shown (self : gpu_view) : option Z :=
  match gpu_data self with
  | [] => None
  | gpu :: _ => util_of <$> read_gpu gpu
  end.

(** The utilisations the ticks of [es] append, run from [self], in order. *)
Fixpoint shown_by (self : gpu_view) (es : list gpu_event) : list Z :=
  match es with
  | [] => []
  | e :: rest =>
      match e with
      | Tick => match shown self with Some u => [u] | None => [] end
      | GpuFrame _ => []
      end ++ shown_by (gpu_exec self e) rest
  end.

End Methods.
End Gpu.

(** ** The row widgets: `ProcessRow` and `SubProcessRow`

    The attributes the rows keep; the labels they configure are Tk state. *)

Module Widget.
Import View.

(** `d.get(k)` on an insertion-ordered `dict`. *)
Fixpoint dict_get {V : Type} (k : Z) (d : list (Z * V)) : option V :=
  match d with
  | [] => None
  | (k', v) :: d' => if k =? k' then Some v else dict_get k d'
  end.

(** `process_details.get(pid, {'cpu': 0, 'mem': 0})`. *)
Definition details_of (pid : Z) (d : list (Z * detail)) : detail :=
  default (Detail 0%float 0%float) (dict_get pid d).

(** `x == prev` for a float `x` and a `prev` that is a float or `None`. *)
Definition same_as (x : float) (prev : option float) : bool :=
  match prev with
  | None => false
  | Some p => PrimFloat.eqb x p
  end.

Record SubProcessRow := SubRow {
  sp_pid : Z;
  sp_name : string;
  sp_cpu : float;
  sp_mem : float;
  sp_prev_cpu : option float;
  sp_prev_mem : option float
}.

(** `SubProcessRow.__init__`. *)
Definition new_sub_row (pid : Z) (name : string) (cpu' mem' : float)
  : SubProcessRow :=
  SubRow pid name cpu' mem' None None.

Record process_row := PRow {
  r_name : string;
  r_pids : list Z;
  r_cpu : float;
  r_mem : float;
  r_state : string;
  r_is_app : bool;
  r_expanded : bool;
  r_process_details : list (Z * detail);
  r_sub_rows : gmap Z SubProcessRow;
  r_prev_cpu : option float;
  r_prev_mem : option float;
  r_prev_pids_count : option nat
}.

(** `ProcessRow.__init__`. *)
Definition new_row (name : string) (pids' : list Z) (cpu' mem' : float)
    (state' : string) (is_app : bool) (process_details : list (Z * detail))
  : process_row :=
  PRow name pids' cpu' mem' state' is_app false process_details ∅
       None None None.

Section Rows.

(** `round(x, 1)`. *)
Variable round1 : float -> float.

(** `SubProcessRow.update_data(self, cpu, mem)`. *)
Definition sub_update_data (self : SubProcessRow) (cpu' mem' : float)
  : SubProcessRow :=
  let cpu_rounded := round1 cpu' in
  let mem_rounded := round1 mem' in
  if same_as cpu_rounded (sp_prev_cpu self)
     && same_as mem_rounded (sp_prev_mem self)
  then self
  else SubRow (sp_pid self) (sp_name self) cpu' mem'
              (Some cpu_rounded) (Some mem_rounded).

(** The loop `for pid in self.pids: if pid not in self.sub_rows: ...` of
    `_show_sub_processes`. *)
Definition show_sub_row (name : string) (process_details : list (Z * detail))
    (subs : gmap Z SubProcessRow) (pid : Z) : gmap Z SubProcessRow :=
  match subs !! pid with
  | Some _ => subs
  | None =>
      let details' := details_of pid process_details in
      <[pid := new_sub_row pid name (d_cpu details') (d_mem details')]> subs
  end.

(** `_toggle_expand(self)`. *)
Definition _toggle_expand (self : process_row) : process_row :=
  let expanded := negb (r_expanded self) in
  PRow (r_name self) (r_pids self) (r_cpu self) (r_mem self) (r_state self)
       (r_is_app self) expanded (r_process_details self)
       (if expanded
        then foldl (show_sub_row (r_name self) (r_process_details self))
                   (r_sub_rows self) (r_pids self)
        else r_sub_rows self)
       (r_prev_cpu self) (r_prev_mem self) (r_prev_pids_count self).

(** `_on_arrow_click(self, event)`. *)
Definition _on_arrow_click (self : process_row) : process_row :=
  if (1 <? length (r_pids self))%nat then _toggle_expand self else self.

(** The body of the loop `for pid in pids:` that ends `update_data`. *)
Definition sync_sub_row (name : string) (process_details : list (Z * detail))
    (subs : gmap Z SubProcessRow) (pid : Z) : gmap Z SubProcessRow :=
  let details' := details_of pid process_details in
  match subs !! pid with
  | Some sub_row =>
      <[pid := sub_update_data sub_row (d_cpu details') (d_mem details')]> subs
  | None =>
      <[pid := new_sub_row pid name (d_cpu details') (d_mem details')]> subs
  end.

(** `ProcessRow.update_data(self, cpu, mem, state, pids, process_details)`:
    the row after the call, and whether the call raised; it does when
    `pids` is empty and its length differs from the count remembered, at
    `str(pids[0])`, with the attributes set before that line kept. *)
Definition row_update (self : process_row) (cpu' mem' : float)
    (state' : string) (pids' : list Z) (process_details : list (Z * detail))
  : process_row * bool :=
  let cpu_rounded := round1 cpu' in
  let mem_rounded := round1 mem' in
  let pids_count := length pids' in
  let details' :=
    match process_details with
    | [] => r_process_details self
    | _ :: _ => process_details
    end in
  let cpu_changed := negb (same_as cpu_rounded (r_prev_cpu self)) in
  let mem_changed := negb (same_as mem_rounded (r_prev_mem self)) in
  let count_changed :=
    negb (bool_decide (r_prev_pids_count self = Some pids_count)) in
  let raised := count_changed && (pids_count =? 0)%nat in
  let subs :=
    if negb raised && r_expanded self
       && match process_details with [] => false | _ :: _ => true end
    then foldl (sync_sub_row (r_name self) process_details)
               (filter (fun kv => kv.1 ∈ pids') (r_sub_rows self))
               pids'
    else r_sub_rows self in
  (PRow (r_name self) pids'
        (if cpu_changed then cpu' else r_cpu self)
        (if mem_changed then mem' else r_mem self)
        state' (r_is_app self) (r_expanded self) details' subs
        (if cpu_changed then Some cpu_rounded else r_prev_cpu self)
        (if mem_changed then Some mem_rounded else r_prev_mem self)
        (if count_changed then Some pids_count else r_prev_pids_count self),
   raised).

(** `len(l) == 0` is false of a list that is not empty. *)
Definition length_nonempty {A : Type} (l : list A)
  : l <> [] -> (length l =? 0)%nat = false :=
  match l with
  | [] => fun H => False_rect _ (H eq_refl)
  | _ :: _ => fun _ => eq_refl
  end.

(** The rows as `_update_rows` makes and updates them: `ProcessRow` with
    the values of a group. *)
Definition widgets : Widgets :=
  {| Row := process_row;
     ProcessRow := fun section name info =>
       new_row name (pids info) (cpu info) (mem info) (state info)
               (section =? APP)%string (details info);
     row_update_data := fun info row =>
       (row_update row (cpu info) (mem info) (state info) (pids info)
                   (details info)).1;
     row_update_raises := fun info row =>
       (row_update row (cpu info) (mem info) (state info) (pids info)
                   (details info)).2;
     row_update_returns := fun info row H =>
       eq_trans (f_equal (andb _) (length_nonempty (pids info) H))
                (andb_false_r _) |}.

End Rows.
End Widget.

(** ** Reference definitions for the statements on the whole pipeline *)

Module Pipeline.
Import View.

Section Reference.
Context `{!Builtins}.

(** The numeric fields of a six-field row convert: `int(pid)`,
    `float(cpu)` and `int(mem) / 1024` all return. *)
Definition numeric (row : list string) : Prop :=
  is_Some (py_int (nth 0 row ""))
  /\ is_Some (py_float (nth 3 row ""))
  /\ is_Some (py_int (nth 4 row "") ≫= div_1024).

(** The rows of a callback have the arity of their kind: six fields for a
    process sample, eight for a GPU sample. *)
Definition arity_ok (c : Decoder.callback) : Prop :=
  match c with
  | Decoder.UpdateProcesses data => Forall (fun r => length r = 6%nat) data
  | Decoder.UpdateGpu gpu_data => Forall (fun r => length r = 8%nat) gpu_data
  end.

End Reference.
End Pipeline.

(** ** More of the runtime for closed examples

    The two patterns of `_fetch_pids` matched by hand, two desktops, and
    `round(x, 1)` on values with at most one decimal, where it is the
    identity. *)

Module DemoTools.
Import View Resolver.

Definition is_hex (c : ascii) : bool :=
  let n := N_of_ascii c in
  ((48 <=? n) && (n <=? 57) || (65 <=? n) && (n <=? 70)
   || (97 <=? n) && (n <=? 102))%N.

Definition is_digit (c : ascii) : bool :=
  let n := N_of_ascii c in ((48 <=? n) && (n <=? 57))%N.

(** Where a left-to-right scan for `0x[0-9a-fA-F]+` stands. *)
Inductive scan :=
| Idle
| Zero
| ZeroX
| Hex (acc : string).

(** `re.findall(r'0x[0-9a-fA-F]+', s)`. *)
Fixpoint findall_hex (st : scan) (s : string) : list string :=
  match s with
  | EmptyString => match st with Hex acc => [acc] | _ => [] end
  | String c s' =>
      match st with
      | Hex acc =>
          if is_hex c
          then findall_hex (Hex (acc ++ String c EmptyString)%string) s'
          else acc :: findall_hex Idle s'
      | ZeroX =>
          if is_hex c
          then findall_hex (Hex (String "0" (String "x" (String c EmptyString))))
                           s'
          else findall_hex Idle s'
      | Zero =>
          if Ascii.eqb c "x" then findall_hex ZeroX s'
          else if Ascii.eqb c "0" then findall_hex Zero s'
          else findall_hex Idle s'
      | Idle =>
          if Ascii.eqb c "0" then findall_hex Zero s' else findall_hex Idle s'
      end
  end.

Fixpoint take_digits (s : string) : string :=
  match s with
  | EmptyString => EmptyString
  | String c s' => if is_digit c then String c (take_digits s') else EmptyString
  end.

(** Group 1 of `re.search(r'=\s*(\d+)', s)`. *)
Fixpoint search_pid (s : string) : option string :=
  match s with
  | EmptyString => None
  | String c s' =>
      if Ascii.eqb c "=" then
        match take_digits (Py.lstrip s') with
        | EmptyString => search_pid s'
        | digits => Some digits
        end
      else search_pid s'
  end.

Definition regex : Regex :=
  {| re_findall := fun pattern s =>
       if (pattern =? "0x[0-9a-fA-F]+")%string then findall_hex Idle s else [];
     re_search_group1 := fun pattern s =>
       if (pattern =? "=\s*(\d+)")%string then search_pid s else None |}.

(** A desktop with `wmctrl`: a terminal of pid 1234, a desktop window that
    reports pid 0, a line of two columns and a line whose third column is
    no number. *)
Definition with_wmctrl (cmd : list string) (timeout : float)
  : result CompletedProcess :=
  match cmd with
  | "wmctrl" :: _ =>
      Ok (Completed 0
            (Demo.line "0x03a00003  0 1234   host Terminal"
             ++ Demo.line "0x03c00007 -1 0      host Desktop"
             ++ Demo.line "broken line"
             ++ Demo.line "0x04000001  0 abc host x")%string)
  | _ => Raise TimeoutExpired
  end.

(** A desktop without `wmctrl`: `xprop` lists two windows, answers for the
    first and times out on the second. *)
Definition with_xprop (cmd : list string) (timeout : float)
  : result CompletedProcess :=
  match cmd with
  | ["xprop"; "-root"; "_NET_CLIENT_LIST"] =>
      Ok (Completed 0
            "_NET_CLIENT_LIST(WINDOW): window id # 0x3a00003, 0x3c00007")
  | ["xprop"; "-id"; "0x3a00003"; "_NET_WM_PID"] =>
      Ok (Completed 0 "_NET_WM_PID(CARDINAL) = 1234")
  | ["xprop"; "-id"; _; "_NET_WM_PID"] => Raise TimeoutExpired
  | _ => Raise FileNotFoundError
  end.

(** `round(x, 1)` for an `x` with at most one decimal. *)
Definition tenths (x : float) : float := x.

(** An expanded row of `xterm` for pids 10 and 11, as two updates leave
    it. *)
Definition two_pids : list (Z * detail) :=
  [(10, Detail 0.5%float 2%float); (11, Detail 1.5%float 1%float)].

Definition collapsed_row : Widget.process_row :=
  Widget.new_row "xterm" [10; 11] 2%float 3%float "S" true two_pids.

Definition expanded_row : Widget.process_row :=
  Widget._toggle_expand collapsed_row.

(** The view of the examples with the rows of Tk, once the resolver has
    found a window of pid 10, and its `update_data`. *)
Definition tk_windowed : @view (Widget.widgets tenths) :=
  set_window_pids (@new_view (Widget.widgets tenths)) {[10]}.

Definition tk_update :=
  @update_data Demo.builtins (Widget.widgets tenths) Demo.same_user.

(** A view that shows the application `foo` and the background group
    `old`, and a new state with the applications `foo` and `new` and no
    background group. *)
Definition old_rows : @view (Widget.widgets tenths) :=
  set_rows (@new_view (Widget.widgets tenths))
    (<[(APP, "foo") := collapsed_row]>
       (<[(BG, "old") :=
            Widget.new_row "old" [20] 0.5%float 1%float "S" false
                           [(20, Detail 0.5%float 1%float)]]> ∅)).

Definition next_apps : gmap string group :=
  <["foo" := Group [10] 0.5%float 2%float "S"
                   [(10, Detail 0.5%float 2%float)]]>
    (<["new" := Group [30; 31] 1.5%float 3%float "R"
                      [(30, Detail 0.5%float 1%float);
                       (31, Detail 1%float 2%float)]]> ∅).

End DemoTools.

(** * Properties of the decoder *)

Module DecoderFacts.
Import Decoder Wire.

Lemma strip_eqb (raw lit : string) :
  (Py.strip raw =? lit)%string = true -> Py.strip raw = lit.
Proof. apply String.eqb_eq. Qed.

Ltac literal H :=
  apply strip_eqb in H; unfold loop_body; rewrite H; simpl.

Lemma loop_body_GPU_START (st : decoder) (raw : string) :
  is_GPU_START raw = true ->
  loop_body st raw = (Dec (frame st) [] true, []).
Proof. intros H. literal H. reflexivity. Qed.

Lemma loop_body_GPU_END (st : decoder) (raw : string) :
  is_GPU_END raw = true ->
  loop_body st raw =
    (Dec (frame st) (gpu_frame st) false,
     match gpu_frame st with [] => [] | _ :: _ => [UpdateGpu (gpu_frame st)] end).
Proof. intros H. literal H. reflexivity. Qed.

Lemma loop_body_END_block (st : decoder) (raw : string) :
  is_END raw = true -> in_gpu_block st = true -> loop_body st raw = (st, []).
Proof. intros H Hb. literal H. rewrite Hb. reflexivity. Qed.

Lemma loop_body_END (st : decoder) (raw : string) :
  is_END raw = true -> in_gpu_block st = false ->
  loop_body st raw =
    match frame st with
    | [] => (st, [])
    | _ :: _ => (Dec [] (gpu_frame st) false, [UpdateProcesses (frame st)])
    end.
Proof. intros H Hb. literal H. rewrite Hb. reflexivity. Qed.

(** No record is blank or a sentinel: those have a single field. *)
Lemma fields_not_literal (raw lit : string) (n : nat) :
  length (fields raw) = n -> length (Py.split bar lit) <> n ->
  (Py.strip raw =? lit)%string = false.
Proof.
  unfold fields. intros Hn Hlit. apply String.eqb_neq. intros E.
  rewrite E in Hn. contradiction.
Qed.

Lemma loop_body_process (st : decoder) (raw : string) :
  process_record raw = true -> in_gpu_block st = false ->
  loop_body st raw = (Dec (frame st ++ [fields raw]) (gpu_frame st) false, []).
Proof.
  unfold process_record. intros H Hb. apply Nat.eqb_eq in H.
  unfold loop_body.
  rewrite (fields_not_literal raw "" 6 H) by (simpl; lia).
  rewrite (fields_not_literal raw "GPU_START" 6 H) by (simpl; lia).
  rewrite (fields_not_literal raw "GPU_END" 6 H) by (simpl; lia).
  rewrite (fields_not_literal raw "END" 6 H) by (simpl; lia).
  rewrite Hb. unfold fields in H. rewrite H. reflexivity.
Qed.

Lemma loop_body_gpu_record (st : decoder) (raw : string) :
  gpu_record raw = true -> in_gpu_block st = true ->
  loop_body st raw =
    (Dec (frame st) (gpu_frame st ++ [tail (fields raw)]) true, []).
Proof.
  unfold gpu_record. intros H Hb. apply andb_true_iff in H as [Hp H].
  apply Nat.eqb_eq in H. unfold loop_body.
  rewrite (fields_not_literal raw "" 9 H) by (simpl; lia).
  rewrite (fields_not_literal raw "GPU_START" 9 H) by (simpl; lia).
  rewrite (fields_not_literal raw "GPU_END" 9 H) by (simpl; lia).
  rewrite Hb, Hp. unfold fields in H. rewrite H. reflexivity.
Qed.

(** A line malformed for the state of the decoder is dropped. *)
Lemma loop_body_malformed (st : decoder) (raw : string) :
  malformed (in_gpu_block st) raw = true -> loop_body st raw = (st, []).
Proof.
  unfold malformed, sentinel, is_END, is_GPU_START, is_GPU_END,
    process_record, gpu_record, fields, loop_body.
  intros H.
  destruct (Py.strip raw =? "")%string; [reflexivity|].
  destruct (in_gpu_block st).
  - destruct (Py.strip raw =? "GPU_START")%string; [discriminate|].
    destruct (Py.strip raw =? "GPU_END")%string; [discriminate|].
    simpl in H.
    destruct (Py.startswith (Py.strip raw) "GPU|"); [|reflexivity].
    simpl in H. apply negb_true_iff in H. rewrite H. reflexivity.
  - destruct (Py.strip raw =? "GPU_START")%string;
      [rewrite orb_true_r in H; discriminate|].
    destruct (Py.strip raw =? "GPU_END")%string;
      [rewrite orb_true_r in H; discriminate|].
    destruct (Py.strip raw =? "END")%string; [discriminate|].
    simpl in H. apply negb_true_iff in H. rewrite H. reflexivity.
Qed.

(** Inside a GPU block a line that is not `GPU_END` schedules nothing and
    leaves the process buffer and the block alone. *)
Lemma loop_body_in_block (f g : list (list string)) (raw : string) :
  is_GPU_END raw = false ->
  exists g', loop_body (Dec f g true) raw = (Dec f g' true, []).
Proof.
  unfold is_GPU_END, loop_body. intros H. rewrite H. simpl.
  destruct (Py.strip raw =? "")%string; [eauto|].
  destruct (Py.strip raw =? "GPU_START")%string; [eauto|].
  destruct (Py.startswith (Py.strip raw) "GPU|"); [|eauto].
  destruct (length (Py.split bar (Py.strip raw)) =? 9)%nat; eauto.
Qed.

(** A line that does not flush schedules nothing. *)
Lemma loop_body_quiet (st : decoder) (raw : string) :
  flushes raw = false -> (loop_body st raw).2 = [].
Proof.
  unfold flushes, is_END, is_GPU_END, loop_body. intros H.
  apply orb_false_iff in H as [HE HG]. rewrite HE, HG.
  repeat match goal with
         | |- context [if ?b then _ else _] => destruct b
         end; reflexivity.
Qed.

Lemma loop_body_nonempty (st : decoder) (raw : string) :
  Forall (fun c => payload c <> []) (loop_body st raw).2.
Proof.
  unfold loop_body.
  repeat match goal with
         | |- context [if ?b then _ else _] => destruct b eqn:?
         end; simpl; repeat constructor; simpl; congruence.
Qed.

Lemma read_lines_app (st : decoder) (l1 l2 : list string) :
  read_lines st (l1 ++ l2) =
    read_lines st l1 ++ read_lines (final_state st l1) l2.
Proof.
  revert st. induction l1 as [|raw l1 IH]; intros st; simpl; [reflexivity|].
  destruct (loop_body st raw) as [st' out] eqn:E. simpl.
  rewrite IH, app_assoc. reflexivity.
Qed.

Lemma final_state_app (st : decoder) (l1 l2 : list string) :
  final_state st (l1 ++ l2) = final_state (final_state st l1) l2.
Proof. apply fold_left_app. Qed.

Lemma read_lines_cons (st : decoder) (raw : string) (rest : list string) :
  read_lines st (raw :: rest) =
    (loop_body st raw).2 ++ read_lines (loop_body st raw).1 rest.
Proof. simpl. destruct (loop_body st raw). reflexivity. Qed.

Lemma read_lines_gpu_records (records rest : list string)
    (f g : list (list string)) :
  forallb gpu_record records = true ->
  read_lines (Dec f g true) (records ++ rest) =
    read_lines (Dec f (g ++ map (fun raw => tail (fields raw)) records) true)
               rest.
Proof.
  revert g. induction records as [|raw records IH]; intros g H.
  - simpl. rewrite app_nil_r. reflexivity.
  - cbn [forallb] in H. apply andb_true_iff in H as [Hr H].
    rewrite <- app_comm_cons, read_lines_cons.
    rewrite loop_body_gpu_record by (assumption || reflexivity).
    cbn [fst snd frame gpu_frame app]. rewrite IH by assumption.
    cbn [map]. rewrite <- app_assoc. reflexivity.
Qed.

(** Decoding a framed stream gives back its frames. *)
Lemma read_lines_stream (cs : list chunk) (f g : list (list string)) :
  forallb well_formed cs = true ->
  read_lines (Dec f g false) (stream_of cs) = frames_of f cs.
Proof.
  revert f g. induction cs as [|c cs IH]; intros f g H; [reflexivity|].
  cbn [forallb] in H. apply andb_true_iff in H as [Hc H].
  unfold stream_of in *. cbn [flat_map].
  destruct c as [raw|raw|start records stop]; cbn [well_formed lines_of] in *.
  - cbn [app]. rewrite read_lines_cons.
    rewrite loop_body_process by (assumption || reflexivity).
    cbn [fst snd frame gpu_frame app frames_of]. apply IH, H.
  - cbn [app]. rewrite read_lines_cons.
    rewrite loop_body_END by (assumption || reflexivity).
    cbn [frame gpu_frame frames_of]. destruct f as [|r f].
    + cbn [fst snd app]. apply IH, H.
    + cbn [fst snd app]. rewrite IH by apply H. reflexivity.
  - apply andb_true_iff in Hc as [Hc Hstop].
    apply andb_true_iff in Hc as [Hstart Hrecords].
    rewrite <- app_comm_cons, read_lines_cons.
    rewrite loop_body_GPU_START by assumption.
    cbn [fst snd frame app]. rewrite <- app_assoc.
    rewrite read_lines_gpu_records by assumption.
    cbn [app]. rewrite read_lines_cons.
    rewrite loop_body_GPU_END by assumption.
    cbn [fst snd frame gpu_frame frames_of].
    destruct records as [|r records]; cbn [map app].
    + apply IH, H.
    + rewrite IH by apply H. reflexivity.
Qed.

Lemma read_lines_quiet (st : decoder) (ls : list string) :
  forallb (fun l => negb (flushes l)) ls = true -> read_lines st ls = [].
Proof.
  revert st. induction ls as [|raw ls IH]; intros st H; [reflexivity|].
  cbn [forallb] in H. apply andb_true_iff in H as [Hr H].
  apply negb_true_iff in Hr.
  rewrite read_lines_cons, loop_body_quiet by assumption. apply IH, H.
Qed.

Lemma read_lines_nonempty (st : decoder) (ls : list string) :
  Forall (fun c => payload c <> []) (read_lines st ls).
Proof.
  revert st. induction ls as [|raw ls IH]; intros st; [constructor|].
  rewrite read_lines_cons. apply Forall_app. split.
  - apply loop_body_nonempty.
  - apply IH.
Qed.

(** Lines inside a GPU block, none of them `GPU_END`: nothing is
    scheduled, and the decoder is still inside the block with the same
    process buffer. *)
Lemma read_lines_in_block (ls : list string) (f g : list (list string)) :
  forallb (fun l => negb (is_GPU_END l)) ls = true ->
  read_lines (Dec f g true) ls = []
  /\ exists g', final_state (Dec f g true) ls = Dec f g' true.
Proof.
  revert g. induction ls as [|raw ls IH]; intros g H; [simpl; eauto|].
  cbn [forallb] in H. apply andb_true_iff in H as [Hr H].
  apply negb_true_iff in Hr.
  destruct (loop_body_in_block f g raw Hr) as [g' E].
  rewrite read_lines_cons. unfold final_state. cbn [fold_left].
  rewrite E. cbn [fst snd app]. apply IH, H.
Qed.

(** The body of a GPU block: the records are buffered and the lines
    inserted among them are dropped. *)
Lemma read_lines_block_body (body : list block_line) (rest : list string)
    (f g : list (list string)) :
  forallb block_line_ok body = true ->
  read_lines (Dec f g true) (map raw_of body ++ rest) =
    read_lines
      (Dec f (g ++ map (fun raw => tail (fields raw)) (records_of body)) true)
      rest.
Proof.
  revert g. induction body as [|l body IH]; intros g H.
  - simpl. rewrite app_nil_r. reflexivity.
  - cbn [forallb] in H. apply andb_true_iff in H as [Hl H].
    cbn [map]. rewrite <- app_comm_cons, read_lines_cons.
    destruct l as [raw|raw]; cbn [block_line_ok raw_of] in *.
    + rewrite loop_body_gpu_record by (assumption || reflexivity).
      cbn [fst snd frame gpu_frame app]. rewrite IH by assumption.
      unfold records_of. cbn [flat_map app map].
      rewrite <- app_assoc. reflexivity.
    + rewrite loop_body_malformed by exact Hl.
      cbn [fst snd app]. rewrite IH by assumption. reflexivity.
Qed.

Lemma records_of_ok (body : list block_line) :
  forallb block_line_ok body = true ->
  forallb gpu_record (records_of body) = true.
Proof.
  induction body as [|l body IH]; intros H; [reflexivity|].
  cbn [forallb] in H. apply andb_true_iff in H as [Hl H].
  destruct l as [raw|raw]; unfold records_of; cbn [flat_map app forallb].
  - cbn [block_line_ok] in Hl. rewrite Hl. apply IH, H.
  - apply IH, H.
Qed.

Lemma chunks_of_ok (ps : list piece) :
  forallb piece_ok ps = true -> forallb well_formed (chunks_of ps) = true.
Proof.
  induction ps as [|p ps IH]; intros H; [reflexivity|].
  cbn [forallb] in H. apply andb_true_iff in H as [Hp H].
  unfold chunks_of. cbn [flat_map].
  destruct p as [raw|raw|raw|start body stop];
    cbn [app forallb well_formed piece_ok] in *.
  - apply IH, H.
  - rewrite Hp. apply IH, H.
  - rewrite Hp. apply IH, H.
  - apply andb_true_iff in Hp as [Hp Hstop].
    apply andb_true_iff in Hp as [Hstart Hbody].
    rewrite Hstart, Hstop, (records_of_ok body Hbody). apply IH, H.
Qed.

(** Decoding a framed stream with insertions gives the frames of the
    framed stream. *)
Lemma read_lines_insertions (ps : list piece) (f g : list (list string)) :
  forallb piece_ok ps = true ->
  read_lines (Dec f g false) (lines_with_insertions ps)
  = frames_of f (chunks_of ps).
Proof.
  revert f g. induction ps as [|p ps IH]; intros f g H; [reflexivity|].
  cbn [forallb] in H. apply andb_true_iff in H as [Hp H].
  unfold lines_with_insertions, chunks_of in *. cbn [flat_map].
  destruct p as [raw|raw|raw|start body stop];
    cbn [piece_ok piece_lines] in *.
  - cbn [app]. rewrite read_lines_cons.
    rewrite loop_body_malformed by exact Hp.
    cbn [fst snd app]. apply IH, H.
  - cbn [app]. rewrite read_lines_cons.
    rewrite loop_body_process by (assumption || reflexivity).
    cbn [fst snd frame gpu_frame app frames_of]. apply IH, H.
  - cbn [app]. rewrite read_lines_cons.
    rewrite loop_body_END by (assumption || reflexivity).
    cbn [frame gpu_frame frames_of]. destruct f as [|r f].
    + cbn [fst snd app]. apply IH, H.
    + cbn [fst snd app]. rewrite IH by apply H. reflexivity.
  - apply andb_true_iff in Hp as [Hp Hstop].
    apply andb_true_iff in Hp as [Hstart Hbody].
    rewrite <- app_comm_cons, read_lines_cons.
    rewrite loop_body_GPU_START by assumption.
    cbn [fst snd frame app]. rewrite <- app_assoc.
    rewrite read_lines_block_body by assumption.
    cbn [app]. rewrite read_lines_cons.
    rewrite loop_body_GPU_END by assumption.
    cbn [fst snd frame gpu_frame frames_of].
    destruct (records_of body) as [|r records]; cbn [map app].
    + apply IH, H.
    + rewrite IH by apply H. reflexivity.
Qed.

(** C1 -- Decoder round-trip, as the code has it.  Take a framed stream of
    well-formed process records, `END` lines and GPU blocks (a `GPU_START`
    line, well-formed GPU records, a `GPU_END` line), the process records
    outside the blocks, and insert anywhere lines that are malformed for
    the state the decoder is in at that place, blank lines included.  The
    decoder schedules exactly the frames of the framed stream, whose samples
    are the fields of the records in line order: the same as without the
    insertions. *)
Theorem decoder_round_trip (ps : list piece) :
  forallb piece_ok ps = true ->
  forallb well_formed (chunks_of ps) = true
  /\ _read_backend None (lines_with_insertions ps)
     = frames_of [] (chunks_of ps)
  /\ _read_backend None (lines_with_insertions ps)
     = _read_backend None (stream_of (chunks_of ps)).
Proof.
  intros Hok. pose proof (chunks_of_ok ps Hok) as Hwf.
  assert (E : _read_backend None (lines_with_insertions ps)
              = frames_of [] (chunks_of ps))
    by (unfold _read_backend, init; apply read_lines_insertions, Hok).
  split; [exact Hwf|]. split; [exact E|].
  rewrite E. unfold _read_backend, init. symmetry.
  apply read_lines_stream, Hwf.
Qed.

(** C8 -- No empty or partial frames.  An `END` line met with an empty
    process buffer, or a `GPU_END` line met with an empty GPU buffer,
    schedules nothing; the lines after the last `END` or `GPU_END` of a
    stream schedule nothing, whether the stream ends there or the loop is
    cancelled; and no callback ever carries an empty frame. *)
Theorem no_empty_or_partial_frames (st : decoder) (raw : string)
    (consumed tail unread stdout : list string) (cancel_at : option nat) :
  (is_END raw = true /\ frame st = [])
  \/ (is_GPU_END raw = true /\ gpu_frame st = []) ->
  forallb (fun l => negb (flushes l)) tail = true ->
  (loop_body st raw).2 = []
  /\ _read_backend None (consumed ++ tail) = _read_backend None consumed
  /\ _read_backend (Some (length (consumed ++ tail)))
                   (consumed ++ tail ++ unread)
     = _read_backend None consumed
  /\ Forall (fun c => payload c <> []) (_read_backend cancel_at stdout).
Proof.
  intros Hempty Htail.
  assert (Hquiet : _read_backend None (consumed ++ tail)
                   = _read_backend None consumed).
  { unfold _read_backend. rewrite read_lines_app.
    rewrite (read_lines_quiet _ tail) by assumption. apply app_nil_r. }
  split; [|split; [exact Hquiet|split]].
  - destruct Hempty as [[H E]|[H E]].
    + destruct (in_gpu_block st) eqn:Hb.
      * rewrite loop_body_END_block by assumption. reflexivity.
      * rewrite loop_body_END by assumption. rewrite E. reflexivity.
    + rewrite loop_body_GPU_END by assumption. rewrite E. reflexivity.
  - rewrite <- Hquiet. unfold _read_backend.
    rewrite app_assoc, take_app_length. reflexivity.
  - unfold _read_backend. apply read_lines_nonempty.
Qed.

(** C10 -- A `GPU_START` line inside a GPU block empties the GPU buffer
    and stays inside the block; so the lines between two `GPU_START` lines
    with no `GPU_END` among them leave no trace in what is scheduled. *)
Theorem gpu_start_inside_block (f g : list (list string))
    (start start' : string) (before between after : list string) :
  is_GPU_START start = true ->
  is_GPU_START start' = true ->
  forallb (fun l => negb (is_GPU_END l)) between = true ->
  loop_body (Dec f g true) start' = (Dec f [] true, [])
  /\ _read_backend None (before ++ start :: between ++ start' :: after)
     = _read_backend None (before ++ start' :: after).
Proof.
  intros Hs Hs' Hb. split; [apply loop_body_GPU_START, Hs'|].
  unfold _read_backend. rewrite !read_lines_app. f_equal.
  set (st := final_state init before).
  rewrite !read_lines_cons, !loop_body_GPU_START by assumption.
  cbn [fst snd app]. rewrite read_lines_app.
  destruct (read_lines_in_block between (frame st) [] Hb) as [Hq [g' Hg]].
  rewrite Hq, Hg. cbn [app].
  rewrite read_lines_cons, loop_body_GPU_START by assumption.
  reflexivity.
Qed.

(** C1 as stated fails: in a stream of well-formed records and sentinels
    only, a process record between `GPU_START` and `GPU_END` is dropped, so
    the process samples scheduled are not the process records of the
    stream; and a `GPU_END` line after a block, which the state outside a
    block does not expect, is not dropped: it schedules the frame of the
    block again. *)
Lemma decoder_round_trip_counterexample :
  forallb (fun raw => sentinel raw || process_record raw || gpu_record raw)
          Demo.interleaved = true
  /\ process_records Demo.interleaved
     = [["123"; "bash"; "S"; "0.5"; "2048"; "1"]]
  /\ _read_backend None Demo.interleaved
     = [UpdateGpu [["0"; "NVIDIA RTX"; "45"; "2048"; "8192"; "65"; "120";
                    "250"]]]
  /\ process_samples (_read_backend None Demo.interleaved)
     <> process_records Demo.interleaved
  /\ _read_backend None
       [Demo.line "GPU_START";
        Demo.line "GPU|0|NVIDIA RTX|45|2048|8192|65|120|250";
        Demo.line "GPU_END"; Demo.line "GPU_END"]
     <> _read_backend None
          [Demo.line "GPU_START";
           Demo.line "GPU|0|NVIDIA RTX|45|2048|8192|65|120|250";
           Demo.line "GPU_END"].
Proof.
  split; [reflexivity|]. split; [reflexivity|]. split; [reflexivity|].
  split; intros E; vm_compute in E; discriminate E.
Qed.

Lemma decoder_round_trip_witness :
  forallb piece_ok Demo.disturbed = true
  /\ chunks_of Demo.disturbed = Demo.framed
  /\ _read_backend None (lines_with_insertions Demo.disturbed)
     = [UpdateGpu [["0"; "NVIDIA RTX"; "45"; "2048"; "8192"; "65"; "120";
                    "250"]];
        UpdateProcesses [["123"; "bash"; "S"; "0.5"; "2048"; "1"];
                         ["124"; "x"; "S"; "1.0"; "100"; "1"]]]
  /\ (forallb well_formed (chunks_of Demo.disturbed) = true
      /\ _read_backend None (lines_with_insertions Demo.disturbed)
         = frames_of [] (chunks_of Demo.disturbed)
      /\ _read_backend None (lines_with_insertions Demo.disturbed)
         = _read_backend None (stream_of (chunks_of Demo.disturbed))).
Proof.
  split; [reflexivity|]. split; [reflexivity|]. split; [reflexivity|].
  apply (decoder_round_trip Demo.disturbed). reflexivity.
Defined.

Lemma no_empty_or_partial_frames_witness :
  ((is_END (Demo.line "END") = true /\ frame init = [])
   \/ (is_GPU_END (Demo.line "END") = true /\ gpu_frame init = []))
  /\ forallb (fun l => negb (flushes l))
             [Demo.line "124|x|S|1.0|100|1"] = true
  /\ ((loop_body init (Demo.line "END")).2 = []
      /\ _read_backend None (Demo.noisy ++ [Demo.line "124|x|S|1.0|100|1"])
         = _read_backend None Demo.noisy
      /\ _read_backend
           (Some (length (Demo.noisy ++ [Demo.line "124|x|S|1.0|100|1"])))
           (Demo.noisy ++ [Demo.line "124|x|S|1.0|100|1"]
                       ++ [Demo.line "END"])
         = _read_backend None Demo.noisy
      /\ Forall (fun c => payload c <> []) (_read_backend None Demo.noisy)).
Proof.
  split; [left; split; reflexivity|]. split; [reflexivity|].
  apply (no_empty_or_partial_frames init (Demo.line "END") Demo.noisy
           [Demo.line "124|x|S|1.0|100|1"] [Demo.line "END"] Demo.noisy None).
  - left. split; reflexivity.
  - reflexivity.
Defined.

Lemma gpu_start_inside_block_witness :
  is_GPU_START (Demo.line "GPU_START") = true
  /\ is_GPU_START "GPU_START" = true
  /\ forallb (fun l => negb (is_GPU_END l))
             [Demo.line "GPU|0|NVIDIA RTX|45|2048|8192|65|120|250"] = true
  /\ (loop_body (Dec [] [["0"]] true) "GPU_START" = (Dec [] [] true, [])
      /\ _read_backend None
           ([] ++ Demo.line "GPU_START"
               :: [Demo.line "GPU|0|NVIDIA RTX|45|2048|8192|65|120|250"]
               ++ "GPU_START" :: [Demo.line "GPU_END"])
         = _read_backend None ([] ++ "GPU_START" :: [Demo.line "GPU_END"])).
Proof.
  split; [reflexivity|]. split; [reflexivity|]. split; [reflexivity|].
  apply (gpu_start_inside_block [] [["0"]] (Demo.line "GPU_START") "GPU_START"
           [] [Demo.line "GPU|0|NVIDIA RTX|45|2048|8192|65|120|250"]
           [Demo.line "GPU_END"]); reflexivity.
Defined.

End DecoderFacts.


(** * Properties of the classifier *)

Module ClassifierFacts.
Import View.

Section Facts.
Context `{!Builtins} `{!Widgets}.
Variable real_uid_differs : Z -> option bool.

Abbreviation classify := (_classify_process real_uid_differs).

Lemma remember_cache (self : view) (pid : Z) (b : bool) (q : Z) :
  classification_cache (remember self pid b).2 !! q =
    if decide (pid = q) then Some b else classification_cache self !! q.
Proof. unfold remember. simpl. apply lookup_insert. Qed.

Lemma remember_window_pids (self : view) (pid : Z) (b : bool) :
  window_pids (remember self pid b).2 = window_pids self.
Proof. reflexivity. Qed.

Ltac classify_cases :=
  unfold _classify_process;
  repeat match goal with
         | |- context [match ?x with _ => _ end] => destruct x eqn:?
         end.

(** The value returned is the value the cache holds afterwards. *)
Lemma classify_caches (self : view) (pid : Z) (name : string) :
  classification_cache (classify self pid name).2 !! pid
  = Some (classify self pid name).1.
Proof.
  classify_cases; rewrite ?remember_cache, ?decide_True by reflexivity;
    try reflexivity; assumption.
Qed.

(** A call changes the cache at most at its own pid, and never takes a
    cached `True` back. *)
Lemma classify_keeps_true (self : view) (pid : Z) (name : string) (q : Z) :
  classification_cache self !! q = Some true ->
  classification_cache (classify self pid name).2 !! q = Some true.
Proof.
  intros Hq. destruct (decide (pid = q)) as [->|Hne].
  - unfold _classify_process. rewrite Hq. simpl. exact Hq.
  - classify_cases; rewrite ?remember_cache, ?decide_False by assumption;
      assumption.
Qed.

Lemma classify_cached_true (self : view) (pid : Z) (name : string) :
  classification_cache self !! pid = Some true ->
  (classify self pid name).1 = true.
Proof. intros Hq. unfold _classify_process. rewrite Hq. reflexivity. Qed.

Lemma classify_window_pids (self : view) (pid : Z) (name : string) :
  window_pids (classify self pid name).2 = window_pids self.
Proof. classify_cases; reflexivity. Qed.

(** The owner lookup has no say in the answer. *)
Lemma classify_any_owner (other : Z -> option bool) (self : view) (pid : Z)
    (name : string) :
  classify self pid name = _classify_process other self pid name.
Proof.
  unfold _classify_process.
  repeat match goal with
         | |- context [match ?x with _ => _ end] => destruct x eqn:?
         end; reflexivity.
Qed.

(** C6 -- Classifier precedence.  For a pid the cache does not hold and a
    name whose lower-cased form is in the background blacklist,
    `_classify_process` returns `False` and caches `False`, whatever
    `window_pids` holds: the blacklist test comes before the window test. *)
Theorem blacklist_precedes_window (self : view) (pid : Z) (name : string) :
  classification_cache self !! pid = None ->
  Py.lower name ∈ BLACKLIST ∪ PARENT_BLACKLIST ->
  (classify self pid name).1 = false
  /\ classification_cache (classify self pid name).2 !! pid = Some false.
Proof.
  intros Hnone Hin.
  assert (E : classify self pid name = remember self pid false).
  { unfold _classify_process. rewrite Hnone.
    apply elem_of_union in Hin as [Hin|Hin].
    - rewrite (bool_decide_eq_true_2 _ Hin). reflexivity.
    - rewrite (bool_decide_eq_true_2 _ Hin), orb_true_r. reflexivity. }
  rewrite E. split; [reflexivity|].
  rewrite remember_cache, decide_True by reflexivity. reflexivity.
Qed.

Abbreviation update := (update_data real_uid_differs).

Lemma add_sample_keeps_true (self : view) (apps background : gmap string group)
    (s : sample) (q : Z) :
  classification_cache self !! q = Some true ->
  classification_cache (add_sample real_uid_differs self apps background s).1.1
    !! q = Some true.
Proof.
  intros Hq. unfold add_sample.
  pose proof (classify_keeps_true self (s_pid s) (s_name s) q Hq) as Hk.
  destruct (classify self (s_pid s) (s_name s)) as [[|] self']; exact Hk.
Qed.

Lemma aggregate_keeps_true (data : list (list string)) (self : view)
    (apps background : gmap string group) (q : Z) :
  classification_cache self !! q = Some true ->
  classification_cache (aggregate real_uid_differs self apps background data).1
    !! q = Some true.
Proof.
  revert self apps background.
  induction data as [|row data IH]; intros self apps background Hq; [exact Hq|].
  cbn [aggregate]. destruct (parse_row row) as [s|]; [|exact Hq].
  pose proof (add_sample_keeps_true self apps background s q Hq) as Hk.
  destruct (add_sample real_uid_differs self apps background s)
    as [[self' apps'] background'].
  apply IH, Hk.
Qed.

Lemma cleanup_keeps_true (self : view) (data : list (list string)) (q : Z) :
  classification_cache self !! q = Some true ->
  purges self data q = false ->
  classification_cache (cache_cleanup self data).1 !! q = Some true.
Proof.
  intros Hq Hkept. unfold purges in Hkept. unfold cache_cleanup. cbn.
  destruct (30 <=? cache_cleanup_counter self + 1); [|exact Hq].
  destruct (current_pids data) as [cur|]; [|exact Hq].
  cbn. apply map_lookup_filter_Some. split; [exact Hq|].
  cbn in *. apply bool_decide_eq_false in Hkept.
  destruct (decide (q ∈ cur)); [assumption|contradiction].
Qed.

Lemma update_rows_cache (self self' : view) (apps background : gmap string group)
    (d : delta) :
  _update_rows self apps background = Some (self', d) ->
  classification_cache self' = classification_cache self.
Proof.
  unfold _update_rows. intros Hret.
  destruct (update_existing _ _ _ _) as [rs|]; [|discriminate].
  cbn in Hret. destruct (add_new _ _ _ _) as [rs'|]; [|discriminate].
  cbn in Hret. injection Hret as <- _. reflexivity.
Qed.

Lemma cycle_keeps_true (self : view) (data : list (list string)) (q : Z) :
  classification_cache self !! q = Some true ->
  purges self data q = false ->
  classification_cache (update self data).1 !! q = Some true.
Proof.
  intros Hq Hkept. unfold update_data.
  pose proof (cleanup_keeps_true self data q Hq Hkept) as H1.
  destruct (cache_cleanup self data) as [self1 returned]. cbn in H1.
  destruct returned; [|exact H1]. cbn [negb].
  pose proof (aggregate_keeps_true data self1 ∅ ∅ q H1) as H2.
  destruct (aggregate real_uid_differs self1 ∅ ∅ data) as [self2 [[apps bg]|]];
    [|exact H2].
  cbn in H2.
  destruct (_update_rows self2 apps bg) as [[self3 d]|] eqn:E; [|exact H2].
  cbn. rewrite (update_rows_cache _ _ _ _ _ E). exact H2.
Qed.

Lemma run_keeps_true (es : list event) (self : view) (q : Z) :
  classification_cache self !! q = Some true ->
  kept real_uid_differs q self es ->
  classification_cache (run real_uid_differs self es) !! q = Some true.
Proof.
  revert self. induction es as [|e es IH]; intros self Hq Hk; [exact Hq|].
  cbn [kept] in Hk. destruct Hk as [He Hk]. unfold run. cbn [foldl].
  apply IH; [|exact Hk].
  destruct e as [pid name|w|data]; cbn [exec].
  - apply classify_keeps_true, Hq.
  - exact Hq.
  - apply cycle_keeps_true; assumption.
Qed.

(** C4, as amended -- Classification monotonicity.  Once
    `_classify_process` has returned `True` for a pid, every later call for
    that pid returns `True`, whatever the resolver publishes in between and
    through any `update_data` cycles, as long as the pid is in the frame of
    every cycle that runs the periodic cache cleanup. *)
Theorem classification_monotone_while_cached (self : view) (pid : Z)
    (name name' : string) (es : list event) :
  (classify self pid name).1 = true ->
  kept real_uid_differs pid (classify self pid name).2 es ->
  (classify (run real_uid_differs (classify self pid name).2 es) pid name').1
  = true.
Proof.
  intros Htrue Hkept. apply classify_cached_true, run_keeps_true.
  - rewrite classify_caches, Htrue. reflexivity.
  - exact Hkept.
Qed.

End Facts.

#[local] Existing Instance Demo.builtins.
#[local] Existing Instance Demo.widgets.

(** C6 at a pid that owns a window. *)
Lemma blacklist_precedes_window_witness :
  classification_cache Demo.windowed !! 10 = None
  /\ Py.lower "Bash" ∈ BLACKLIST ∪ PARENT_BLACKLIST
  /\ 10 ∈ window_pids Demo.windowed
  /\ (Demo.classify Demo.windowed 10 "Bash").1 = false
  /\ classification_cache (Demo.classify Demo.windowed 10 "Bash").2 !! 10
     = Some false.
Proof.
  split; [reflexivity|].
  assert (Hin : Py.lower "Bash" ∈ BLACKLIST ∪ PARENT_BLACKLIST).
  { compute_done. }
  split; [exact Hin|]. split; [compute_done|].
  apply (blacklist_precedes_window Demo.same_user Demo.windowed 10 "Bash");
    [reflexivity|exact Hin].
Defined.

(** C4 as stated fails: pid 10 is classified as an application while it
    owns a window; the window goes, thirty frames without pid 10 purge its
    cache entry, and the next call for pid 10 returns `False`. *)
Lemma classification_monotone_counterexample :
  (Demo.classify Demo.windowed 10 "xterm").1 = true
  /\ (Demo.classify
        (run Demo.same_user (Demo.classify Demo.windowed 10 "xterm").2
             Demo.thirty_cycles)
        10 "xterm").1 = false.
Proof. split; vm_compute; reflexivity. Qed.

Lemma classification_monotone_while_cached_witness :
  (Demo.classify Demo.windowed 10 "xterm").1 = true
  /\ kept Demo.same_user 10 (Demo.classify Demo.windowed 10 "xterm").2
          Demo.thirty_cycles_alive
  /\ purges (run Demo.same_user (Demo.classify Demo.windowed 10 "xterm").2
                 (take 30 Demo.thirty_cycles_alive))
            [["1"; "init"; "S"; "0.0"; "0"; "1"]] 10 = true
  /\ (Demo.classify
        (run Demo.same_user (Demo.classify Demo.windowed 10 "xterm").2
             Demo.thirty_cycles_alive)
        10 "other").1 = true.
Proof.
  assert (Ht : (Demo.classify Demo.windowed 10 "xterm").1 = true)
    by (vm_compute; reflexivity).
  assert (Hk : kept Demo.same_user 10 (Demo.classify Demo.windowed 10 "xterm").2
                 Demo.thirty_cycles_alive)
    by (vm_compute; repeat split).
  split; [exact Ht|]. split; [exact Hk|]. split; [vm_compute; reflexivity|].
  apply (classification_monotone_while_cached Demo.same_user Demo.windowed 10
           "xterm" "other" _ Ht Hk).
Defined.

End ClassifierFacts.

(** * Properties of the reconciler *)

Module ReconcilerFacts.
Import View.

Section Facts.
Context `{!Widgets}.

Lemma difference_twice (K P : gset (string * string)) :
  P ∖ (P ∖ K) ∪ K ∖ P = K.
Proof.
  apply set_eq. intros key.
  destruct (decide (key ∈ P)); destruct (decide (key ∈ K)); set_solver.
Qed.

Lemma remove_dead_dom (keys : list (string * string))
    (rs : gmap (string * string) Row) :
  dom (remove_dead keys rs) = dom rs ∖ list_to_set keys.
Proof.
  unfold remove_dead. revert rs.
  induction keys as [|key keys IH]; intros rs; cbn [foldl list_to_set].
  - set_solver.
  - rewrite IH, dom_delete_L. set_solver.
Qed.

(** The lookups of the two row loops find their group. *)
Lemma info_for_current (apps background : gmap string group)
    (key : string * string) :
  key ∈ current_keys apps background ->
  is_Some (info_for apps background key).
Proof.
  unfold current_keys, info_for. intros Hin.
  apply elem_of_union in Hin as [Hin|Hin];
    apply elem_of_map in Hin as (name & -> & Hname);
    apply elem_of_dom in Hname; exact Hname.
Qed.

Lemma lists_pids_empty : lists_pids ∅.
Proof. apply map_Forall_empty. Defined.

Lemma info_for_new_state (apps background : gmap string group)
    (key : string * string) :
  key ∈ current_keys apps background ->
  info_for apps background key = new_state (apps, background) key.
Proof.
  unfold current_keys, info_for, new_state. intros Hin.
  apply elem_of_union in Hin as [Hin|Hin];
    apply elem_of_map in Hin as (name & -> & _); reflexivity.
Qed.

(** The key set of the new state is the `current_keys` of the code. *)
Lemma current_keys_new_state (apps background : gmap string group)
    (key : string * string) :
  key ∈ current_keys apps background
  <-> is_Some (new_state (apps, background) key).
Proof.
  split.
  - intros Hin. rewrite <- info_for_new_state by exact Hin.
    apply info_for_current. exact Hin.
  - unfold new_state, current_keys. destruct key as [section name]. cbn.
    intros Hsome. apply elem_of_union.
    destruct (decide (section = APP)) as [->|_].
    + left. apply elem_of_map. exists name. split; [reflexivity|].
      apply elem_of_dom. exact Hsome.
    + destruct (decide (section = BG)) as [->|_].
      * right. apply elem_of_map. exists name. split; [reflexivity|].
        apply elem_of_dom. exact Hsome.
      * destruct Hsome as [g Hg]. discriminate Hg.
Qed.

Lemma info_for_lists_pids (apps background : gmap string group)
    (key : string * string) (info : group) :
  lists_pids apps ->
  lists_pids background ->
  info_for apps background key = Some info ->
  pids info <> [].
Proof.
  unfold info_for. intros Ha Hb Hinfo.
  destruct (key.1 =? APP)%string.
  - exact (Ha _ _ Hinfo).
  - exact (Hb _ _ Hinfo).
Qed.

Lemma update_existing_dom (apps background : gmap string group)
    (keys : list (string * string)) (rs : gmap (string * string) Row) :
  lists_pids apps ->
  lists_pids background ->
  (forall key, key ∈ keys ->
               key ∈ current_keys apps background /\ key ∈ dom rs) ->
  exists rs', update_existing apps background keys rs = Some rs'
              /\ dom rs' = dom rs.
Proof.
  intros Ha Hb. revert rs. induction keys as [|key keys IH]; intros rs Hkeys.
  - exists rs. split; reflexivity.
  - destruct (Hkeys key) as [Hcur Hdom]; [left|].
    destruct (info_for_current _ _ _ Hcur) as [info Hinfo].
    apply elem_of_dom in Hdom as Hrow. destruct Hrow as [row Hrow].
    cbn [update_existing]. rewrite Hinfo, Hrow. cbn.
    rewrite (row_update_returns info row
               (info_for_lists_pids _ _ _ _ Ha Hb Hinfo)).
    assert (Hsame : dom (<[key := row_update_data info row]> rs) = dom rs).
    { rewrite dom_insert_L. set_solver. }
    destruct (IH (<[key := row_update_data info row]> rs)) as (rs' & E & Hd).
    + intros key' Hin. rewrite Hsame. apply Hkeys. right. exact Hin.
    + exists rs'. split; [exact E|]. rewrite Hd. exact Hsame.
Qed.

Lemma add_new_dom (apps background : gmap string group)
    (keys : list (string * string)) (rs : gmap (string * string) Row) :
  (forall key, key ∈ keys -> key ∈ current_keys apps background) ->
  exists rs', add_new apps background keys rs = Some rs'
              /\ dom rs' = dom rs ∪ list_to_set keys.
Proof.
  revert rs. induction keys as [|key keys IH]; intros rs Hkeys.
  - exists rs. split; [reflexivity|]. cbn. set_solver.
  - destruct (info_for_current apps background key) as [info Hinfo];
    [apply Hkeys; left|].
    cbn [add_new]. rewrite Hinfo. cbn.
    destruct (IH (<[key := ProcessRow key.1 key.2 info]> rs)) as (rs' & E & Hd).
    + intros key' Hin. apply Hkeys. right. exact Hin.
    + exists rs'. split; [exact E|]. rewrite Hd, dom_insert_L. cbn.
      set_solver.
Qed.

(** When every group lists a pid, `_update_rows` returns, with the three
    differences as its key sets, and leaves exactly the current keys in
    `self.rows`. *)
Lemma update_rows_returns (self : view) (apps background : gmap string group) :
  lists_pids apps ->
  lists_pids background ->
  exists self',
    _update_rows self apps background
    = Some (self',
            Delta (current_keys apps background ∖ dom (rows self))
                  (dom (rows self) ∖ current_keys apps background)
                  (current_keys apps background ∩ dom (rows self)))
    /\ dom (rows self') = current_keys apps background.
Proof.
  intros Ha Hb. unfold _update_rows. cbn [to_add to_remove to_update].
  set (K := current_keys apps background). set (P := dom (rows self)).
  set (rs0 := remove_dead (elements (P ∖ K)) (rows self)).
  assert (H0 : dom rs0 = P ∖ (P ∖ K)).
  { unfold rs0. rewrite remove_dead_dom, list_to_set_elements_L. reflexivity. }
  destruct (update_existing_dom apps background (elements (K ∩ P)) rs0 Ha Hb)
    as (rs1 & E1 & H1).
  { intros key Hin. apply elem_of_elements in Hin. rewrite H0.
    fold K. set_solver. }
  destruct (add_new_dom apps background (elements (K ∖ P)) rs1)
    as (rs2 & E2 & H2).
  { intros key Hin. apply elem_of_elements in Hin. fold K. set_solver. }
  rewrite E1. cbn [mbind option_bind]. rewrite E2. cbn [mbind option_bind].
  eexists. split; [reflexivity|]. cbn [rows set_rows].
  rewrite H2, H1, H0, list_to_set_elements_L. apply difference_twice.
Qed.

(** C2 -- Reconciliation is set difference.  Let `M` be a new state whose
    groups each list a pid, as the groups of the aggregator do, `K` its key
    set and `P` the keys of `self.rows`.  Then `_update_rows` returns, a key
    is added exactly when it is in `K` and not in `P`, removed exactly when
    it is in `P` and not in `K`, updated exactly when it is in both, and
    the keys remembered afterwards are those of `K`; called again with the
    same new state it returns with nothing to add, nothing to remove and
    exactly the keys of `K` to update. *)
Theorem reconcile_is_set_difference (self : view)
    (apps background : gmap string group) :
  lists_pids apps ->
  lists_pids background ->
  exists self1 d1 self2 d2,
    _update_rows self apps background = Some (self1, d1)
    /\ (forall key,
          key ∈ to_add d1
          <-> is_Some (new_state (apps, background) key)
              /\ key ∉ dom (rows self))
    /\ (forall key,
          key ∈ to_remove d1
          <-> key ∈ dom (rows self)
              /\ new_state (apps, background) key = None)
    /\ (forall key,
          key ∈ to_update d1
          <-> is_Some (new_state (apps, background) key)
              /\ key ∈ dom (rows self))
    /\ (forall key,
          key ∈ dom (rows self1)
          <-> is_Some (new_state (apps, background) key))
    /\ _update_rows self1 apps background = Some (self2, d2)
    /\ to_add d2 = ∅
    /\ to_remove d2 = ∅
    /\ (forall key,
          key ∈ to_update d2
          <-> is_Some (new_state (apps, background) key)).
Proof.
  intros Ha Hb.
  destruct (update_rows_returns self apps background Ha Hb)
    as (self1 & E1 & D1).
  destruct (update_rows_returns self1 apps background Ha Hb)
    as (self2 & E2 & _).
  rewrite D1 in E2.
  pose proof (current_keys_new_state apps background) as HK.
  eexists self1, _, self2, _. split; [exact E1|].
  cbn [to_add to_remove to_update]. rewrite D1.
  split; [|split; [|split; [|split; [|split; [exact E2|]]]]].
  - intros key. rewrite elem_of_difference, HK. reflexivity.
  - intros key. rewrite elem_of_difference, HK, <- eq_None_not_Some.
    reflexivity.
  - intros key. rewrite elem_of_intersection, HK. reflexivity.
  - exact HK.
  - cbn [to_add to_remove to_update]. split; [|split].
    + set_solver.
    + set_solver.
    + intros key. rewrite <- HK. set_solver.
Qed.

End Facts.

Lemma next_apps_lists_pids : lists_pids DemoTools.next_apps.
Proof.
  intros name g Hg. unfold DemoTools.next_apps in Hg.
  apply lookup_insert_Some in Hg as [[_ <-]|[_ Hg]]; [discriminate|].
  apply lookup_insert_Some in Hg as [[_ <-]|[_ Hg]]; [discriminate|].
  rewrite lookup_empty in Hg. discriminate Hg.
Defined.

Lemma reconcile_is_set_difference_witness :
  lists_pids DemoTools.next_apps
  /\ lists_pids ∅
  /\ snd <$> _update_rows DemoTools.old_rows DemoTools.next_apps ∅
     = Some (Delta {[(APP, "new")]} {[(BG, "old")]} {[(APP, "foo")]})
  /\ exists self1 d1 self2 d2,
      _update_rows DemoTools.old_rows DemoTools.next_apps ∅
      = Some (self1, d1)
      /\ (forall key,
            key ∈ to_add d1
            <-> is_Some (new_state (DemoTools.next_apps, ∅) key)
                /\ key ∉ dom (rows DemoTools.old_rows))
      /\ (forall key,
            key ∈ to_remove d1
            <-> key ∈ dom (rows DemoTools.old_rows)
                /\ new_state (DemoTools.next_apps, ∅) key = None)
      /\ (forall key,
            key ∈ to_update d1
            <-> is_Some (new_state (DemoTools.next_apps, ∅) key)
                /\ key ∈ dom (rows DemoTools.old_rows))
      /\ (forall key,
            key ∈ dom (rows self1)
            <-> is_Some (new_state (DemoTools.next_apps, ∅) key))
      /\ _update_rows self1 DemoTools.next_apps ∅ = Some (self2, d2)
      /\ to_add d2 = ∅
      /\ to_remove d2 = ∅
      /\ (forall key,
            key ∈ to_update d2
            <-> is_Some (new_state (DemoTools.next_apps, ∅) key)).
Proof.
  split; [exact next_apps_lists_pids|].
  split; [exact lists_pids_empty|].
  split; [vm_compute; reflexivity|].
  exact (reconcile_is_set_difference DemoTools.old_rows DemoTools.next_apps ∅
           next_apps_lists_pids lists_pids_empty).
Defined.

End ReconcilerFacts.

(** * Properties of the aggregator *)

Module AggregatorFacts.
Import View.

Section Facts.
Context `{!Builtins} `{!Widgets}.
Variable real_uid_differs : Z -> option bool.

Abbreviation classify := (_classify_process real_uid_differs).
Abbreviation update := (update_data real_uid_differs).
Abbreviation labels := (labelled real_uid_differs).

Lemma fsum_snoc (xs : list float) (x : float) :
  fsum (xs ++ [x]) = (fsum xs + x)%float.
Proof. unfold fsum. rewrite foldl_app. reflexivity. Qed.

(** What lines 841-848 do to the dictionary they pick. *)
Lemma add_to_group_lookup (target : gmap string group) (s : sample)
    (name : string) :
  add_to_group target (s_name s) (s_state s) (s_pid s) (s_cpu s) (s_mem_mb s)
    !! name
  = if decide (s_name s = name) then absorb (target !! name) s
    else target !! name.
Proof.
  unfold add_to_group, absorb. rewrite lookup_alter.
  destruct (decide (s_name s = name)) as [<-|Hne].
  - destruct (target !! s_name s) as [g|] eqn:E.
    + rewrite E. reflexivity.
    + rewrite lookup_insert, decide_True by reflexivity. reflexivity.
  - destruct (target !! s_name s) as [g|] eqn:E; [reflexivity|].
    rewrite lookup_insert, decide_False by assumption. reflexivity.
Qed.

Lemma members_cons (is_app : bool) (name : string) (b : bool) (s : sample)
    (l : list (bool * sample)) :
  members is_app name ((b, s) :: l)
  = if Bool.eqb b is_app && (s_name s =? name)%string
    then s :: members is_app name l
    else members is_app name l.
Proof.
  unfold members. cbn [List.filter fst snd].
  destruct (Bool.eqb b is_app && (s_name s =? name)%string); reflexivity.
Qed.

Lemma elem_of_members (is_app : bool) (name : string) (s : sample)
    (l : list (bool * sample)) :
  s ∈ members is_app name l <-> (is_app, s) ∈ l /\ s_name s = name.
Proof.
  induction l as [|[b s'] l IH].
  - unfold members. cbn. split; [intros Hin|intros [Hin _]]; inversion Hin.
  - rewrite members_cons, elem_of_cons.
    destruct (Bool.eqb b is_app) eqn:Eb; cbn [andb].
    + apply Bool.eqb_prop in Eb. subst b.
      destruct (String.eqb_spec (s_name s') name) as [En|En].
      * rewrite elem_of_cons, IH. split.
        -- intros [->|[Hin Hn]]; [split; [left; reflexivity|exact En]|].
           split; [right; exact Hin|exact Hn].
        -- intros [[E|Hin] Hn]; [left; congruence|right; split; assumption].
      * rewrite IH. split.
        -- intros [Hin Hn]. split; [right; exact Hin|exact Hn].
        -- intros [[E|Hin] Hn]; [|split; assumption].
           injection E as ->. contradiction.
    + rewrite IH. split.
      * intros [Hin Hn]. split; [right; exact Hin|exact Hn].
      * intros [[E|Hin] Hn]; [|split; assumption].
        injection E as -> _. rewrite Bool.eqb_reflx in Eb. discriminate.
Qed.

(** The loop, one key at a time: the group of a key absorbs the samples
    that receive the key, in frame order. *)
Lemma aggregate_lookup (data : list (list string)) (self self' : view)
    (apps background : gmap string group)
    (groups : gmap string group * gmap string group) :
  aggregate real_uid_differs self apps background data = (self', Some groups) ->
  exists ss,
    parse_all data = Some ss
    /\ forall is_app name,
        target_of is_app groups !! name
        = foldl absorb (target_of is_app (apps, background) !! name)
                (members is_app name (labels self ss)).
Proof.
  revert self apps background.
  induction data as [|row data IH]; intros self apps background Hagg.
  - cbn in Hagg. injection Hagg as _ <-. exists []. split; [reflexivity|].
    intros is_app name. reflexivity.
  - cbn [aggregate] in Hagg. cbn [parse_all].
    destruct (parse_row row) as [s|]; [|discriminate]. unfold add_sample in Hagg.
    destruct (classify self (s_pid s) (s_name s)) as [b self1] eqn:Ec.
    assert (Hstep : exists apps1 background1,
               aggregate real_uid_differs self1 apps1 background1 data
               = (self', Some groups)
               /\ forall is_app name,
                   target_of is_app (apps1, background1) !! name
                   = if Bool.eqb b is_app && (s_name s =? name)%string
                     then absorb (target_of is_app (apps, background) !! name) s
                     else target_of is_app (apps, background) !! name).
    { destruct b; eexists _, _; (split; [exact Hagg|]);
        intros [|] name; cbn [target_of fst snd Bool.eqb andb];
        try reflexivity; rewrite add_to_group_lookup;
        destruct (String.eqb_spec (s_name s) name);
        [rewrite decide_True by assumption|rewrite decide_False by assumption
        |rewrite decide_True by assumption|rewrite decide_False by assumption];
        reflexivity. }
    destruct Hstep as (apps1 & background1 & Hrest & Hlook).
    destruct (IH _ _ _ Hrest) as (ss & Hparse & Hgroups).
    exists (s :: ss). rewrite Hparse. split; [reflexivity|].
    intros is_app name. rewrite Hgroups, Hlook.
    cbn [labelled]. rewrite Ec, members_cons.
    destruct (Bool.eqb b is_app && (s_name s =? name)%string); reflexivity.
Qed.

Lemma absorb_group_of (ms : list sample) (s : sample) :
  absorb (group_of ms) s = group_of (ms ++ [s]).
Proof.
  destruct ms as [|s0 ms]; [reflexivity|].
  cbn [app]. unfold absorb, group_of. cbn [default].
  change (s0 :: ms ++ [s]) with ((s0 :: ms) ++ [s]).
  rewrite !map_app. cbn [map]. rewrite !fsum_snoc, foldl_app. reflexivity.
Qed.

Lemma foldl_absorb_group_of (ms ms0 : list sample) :
  foldl absorb (group_of ms0) ms = group_of (ms0 ++ ms).
Proof.
  revert ms0. induction ms as [|s ms IH]; intros ms0.
  - rewrite app_nil_r. reflexivity.
  - cbn [foldl]. rewrite absorb_group_of, IH, <- app_assoc. reflexivity.
Qed.

(** Lines 841-848 leave no group without a pid. *)
Lemma add_sample_lists_pids (self : view) (apps background : gmap string group)
    (s : sample) :
  lists_pids apps ->
  lists_pids background ->
  lists_pids (add_sample real_uid_differs self apps background s).1.2
  /\ lists_pids (add_sample real_uid_differs self apps background s).2.
Proof.
  assert (Hadd : forall target,
             lists_pids target ->
             lists_pids (add_to_group target (s_name s) (s_state s) (s_pid s)
                                      (s_cpu s) (s_mem_mb s))).
  { intros target Ht name g. rewrite add_to_group_lookup.
    destruct (decide (s_name s = name)) as [_|_]; [|apply Ht].
    unfold absorb. intros Hg. injection Hg as <-. cbn [pids].
    intros E. apply app_eq_nil in E as [_ E]. discriminate E. }
  intros Ha Hb. unfold add_sample.
  destruct (_classify_process real_uid_differs self (s_pid s) (s_name s))
    as [[|] self1]; cbn [fst snd]; split; auto.
Qed.

Lemma aggregate_lists_pids (data : list (list string)) (self self' : view)
    (apps background : gmap string group)
    (groups : gmap string group * gmap string group) :
  aggregate real_uid_differs self apps background data = (self', Some groups) ->
  lists_pids apps ->
  lists_pids background ->
  lists_pids groups.1 /\ lists_pids groups.2.
Proof.
  revert self apps background.
  induction data as [|row data IH]; intros self apps background Hagg Ha Hb.
  - cbn [aggregate] in Hagg. injection Hagg as _ <-. split; assumption.
  - cbn [aggregate] in Hagg.
    destruct (parse_row row) as [s|]; [|discriminate].
    pose proof (add_sample_lists_pids self apps background s Ha Hb)
      as [Ha' Hb'].
    destruct (add_sample real_uid_differs self apps background s)
      as [[self1 apps1] background1].
    exact (IH _ _ _ Hagg Ha' Hb').
Qed.

(** A cycle that returns has run the cleanup and the loop to their ends, and
    leaves a row for each key of the new state. *)
Lemma update_returns (self self' : view) (data : list (list string))
    (groups : gmap string group * gmap string group) :
  update self data = (self', Some groups) ->
  (exists self2,
     aggregate real_uid_differs (cache_cleanup self data).1 ∅ ∅ data
     = (self2, Some groups))
  /\ dom (rows self') = current_keys groups.1 groups.2.
Proof.
  unfold update_data. intros Hup.
  destruct (cache_cleanup self data) as [self1 returned].
  destruct returned; [|discriminate]. cbn [negb fst] in *.
  destruct (aggregate real_uid_differs self1 ∅ ∅ data)
    as [self2 [[apps background]|]] eqn:Hagg; [|discriminate].
  destruct (aggregate_lists_pids _ _ _ _ _ _ Hagg
              ReconcilerFacts.lists_pids_empty
              ReconcilerFacts.lists_pids_empty) as [Ha Hb].
  destruct (ReconcilerFacts.update_rows_returns self2 apps background Ha Hb)
    as (self3 & E & Hdom).
  rewrite E in Hup. injection Hup as <- <-.
  split; [exists self2; reflexivity|]. exact Hdom.
Qed.

(** The groups of a cycle that returns, key by key. *)
Lemma update_groups (self self' : view) (data : list (list string))
    (groups : gmap string group * gmap string group) :
  update self data = (self', Some groups) ->
  exists ss,
    parse_all data = Some ss
    /\ forall is_app name,
        target_of is_app groups !! name
        = group_of (members is_app name
                            (labels (cache_cleanup self data).1 ss)).
Proof.
  intros Hup. destruct (update_returns _ _ _ _ Hup) as [[self2 Hagg] _].
  destruct (aggregate_lookup _ _ _ _ _ _ Hagg) as (ss & Hparse & Hgroups).
  exists ss. split; [exact Hparse|]. intros is_app name.
  rewrite Hgroups.
  replace (target_of is_app (∅, ∅) !! name) with (group_of [])
    by (destruct is_app; cbn; rewrite lookup_empty; reflexivity).
  apply foldl_absorb_group_of.
Qed.

Lemma digits2_pos_size (m : positive) : digits2_pos m = Pos.size m.
Proof. induction m; cbn; congruence. Qed.

Lemma digits2_pos_bound (m : positive) :
  Z.pos m < 2 ^ 53 -> Z.pos (digits2_pos m) <= 53.
Proof.
  intros Hm. rewrite digits2_pos_size.
  pose proof (Pos.size_le m) as Hle.
  apply Pos2Z.pos_le_pos in Hle. rewrite Pos2Z.inj_pow in Hle.
  rewrite (Pos2Z.inj_xO m) in Hle.
  destruct (Z.le_gt_cases (Z.pos (Pos.size m)) 53) as [Hs|Hs]; [exact Hs|].
  exfalso.
  assert (H54 : 2 ^ 54 <= 2 ^ Z.pos (Pos.size m))
    by (apply Z.pow_le_mono_r; lia).
  assert (H53 : 2 ^ 54 = 2 * 2 ^ 53) by reflexivity.
  lia.
Qed.

Lemma iter_xO_digits (d m : positive) :
  digits2_pos (Pos.iter xO m d) = (digits2_pos m + d)%positive.
Proof.
  induction d as [|d IHd] using Pos.peano_ind.
  - cbn. lia.
  - rewrite Pos.iter_succ. cbn [digits2_pos]. rewrite IHd. lia.
Qed.

Lemma iter_xO_value (d m : positive) :
  Z.pos (Pos.iter xO m d) = Z.pos m * 2 ^ Z.pos d.
Proof.
  induction d as [|d IHd] using Pos.peano_ind.
  - cbn. lia.
  - rewrite Pos.iter_succ, Pos2Z.inj_xO, IHd, Pos2Z.inj_succ.
    rewrite Z.pow_succ_r by lia. lia.
Qed.

(** Rounding `m * 2^-10` to binary64 changes nothing when `m` has at most
    53 bits: the mantissa is shifted left to 53 bits and kept. *)
Lemma binary_round_small (sx : bool) (m : positive) :
  Z.pos m < 2 ^ 53 ->
  exists mz ez,
    binary_round prec emax sx m (-10) = S754_finite sx mz ez
    /\ valid_binary (S754_finite sx mz ez) = true
    /\ Z.pos mz * 2 ^ (ez + 1074) = Z.pos m * 2 ^ 1064.
Proof.
  intros Hm. pose proof (digits2_pos_bound m Hm) as Hd.
  set (d := digits2_pos m) in *.
  assert (Hfexp : forall e, -1011 <= e -> fexp prec emax (53 + e) = e).
  { intros e He. unfold fexp, SpecFloat.emin, prec, emax. lia. }
  assert (Hal : exists mz,
             shl_align m (-10) (fexp prec emax (Z.pos d + -10))
             = (mz, Z.pos d - 63)
             /\ Z.pos (digits2_pos mz) = 53
             /\ Z.pos mz * 2 ^ (Z.pos d - 63 + 1074) = Z.pos m * 2 ^ 1064).
  { assert (E : fexp prec emax (Z.pos d + -10) = Z.pos d - 63)
      by (unfold fexp, SpecFloat.emin, prec, emax; lia).
    rewrite E. unfold shl_align.
    destruct (Z.pos d - 63 - -10) as [|k|k] eqn:Ek; [|lia|].
    - exists m. assert (E53 : Z.pos d = 53) by lia.
      split; [f_equal; lia|]. split; [exact E53|].
      rewrite E53. reflexivity.
    - exists (Pos.iter xO m k). split; [reflexivity|].
      rewrite iter_xO_digits, iter_xO_value. fold d. split; [lia|].
      rewrite <- Z.mul_assoc, <- Z.pow_add_r by lia.
      f_equal. f_equal. lia. }
  destruct Hal as (mz & Hal & Hdz & Hv).
  exists mz, (Z.pos d - 63). unfold binary_round. fold d. rewrite Hal.
  unfold binary_round_aux, shr_fexp. cbn [Zdigits2 shr_record_of_loc].
  rewrite Hdz, Hfexp by lia. rewrite Z.sub_diag.
  cbn [shr shr_m loc_of_shr_record round_nearest_even Zdigits2
       shr_record_of_loc].
  rewrite Hdz, Hfexp by lia. rewrite Z.sub_diag. cbn [shr shr_m].
  assert (Hle : (Z.pos d - 63 <=? emax - prec) = true)
    by (apply Z.leb_le; unfold emax, prec; lia).
  rewrite Hle. split; [reflexivity|]. split; [|exact Hv].
  cbn [SpecFloat.valid_binary]. unfold bounded, canonical_mantissa.
  rewrite Hdz, Hfexp by lia. rewrite Z.eqb_refl, Hle. reflexivity.
Qed.

(** `n / 1024` is exact for an `int` below 2^53 in absolute value. *)
Lemma div_1024_units (n : Z) (x : float) :
  div_1024 n = Some x ->
  Z.abs n < 2 ^ 53 ->
  units x = Some (n * 2 ^ 1064).
Proof.
  unfold div_1024. intros Hdiv Hn.
  destruct (is_infinity _); [discriminate|]. injection Hdiv as <-.
  unfold units. destruct n as [|m|m]; cbn [binary_normalize].
  - rewrite Prim2SF_SF2Prim by reflexivity. reflexivity.
  - destruct (binary_round_small false m) as (mz & ez & -> & Hv & Hx);
      [exact Hn|].
    rewrite Prim2SF_SF2Prim by exact Hv. f_equal. exact Hx.
  - destruct (binary_round_small true m) as (mz & ez & -> & Hv & Hx);
      [exact Hn|].
    rewrite Prim2SF_SF2Prim by exact Hv. f_equal.
    change (Z.neg mz) with (- Z.pos mz). change (Z.neg m) with (- Z.pos m).
    lia.
Qed.

(** What a sample holds of the row it was parsed from. *)
Lemma parse_row_fields (row : list string) (s : sample) :
  parse_row row = Some s ->
  py_float (nth 3 row "") = Some (s_cpu s)
  /\ exists mem_kb,
      py_int (nth 4 row "") = Some mem_kb
      /\ (Z.abs mem_kb < 2 ^ 53 ->
          units (s_mem_mb s) = Some (mem_kb * 2 ^ 1064)).
Proof.
  destruct row as [|pid [|name [|st [|c [|m [|th [|x row]]]]]]];
    try discriminate.
  unfold parse_row. cbn [nth]. intros Hp.
  destruct (py_int pid) as [p|]; [|discriminate]. cbn in Hp.
  destruct (py_float c) as [f|]; [|discriminate]. cbn in Hp.
  destruct (py_int m) as [kb|]; [|discriminate]. cbn in Hp.
  destruct (div_1024 kb) as [mb|] eqn:Ed; [|discriminate]. cbn in Hp.
  injection Hp as <-. cbn [s_cpu s_mem_mb]. split; [reflexivity|].
  exists kb. split; [reflexivity|]. apply div_1024_units. exact Ed.
Qed.

Lemma parse_all_fields (data : list (list string)) (ss : list sample) :
  parse_all data = Some ss ->
  Forall2 (fun row s =>
             py_float (nth 3 row "") = Some (s_cpu s)
             /\ exists mem_kb,
                 py_int (nth 4 row "") = Some mem_kb
                 /\ (Z.abs mem_kb < 2 ^ 53 ->
                     units (s_mem_mb s) = Some (mem_kb * 2 ^ 1064)))
          data ss.
Proof.
  revert ss. induction data as [|row data IH]; intros ss Hp.
  - cbn in Hp. injection Hp as <-. constructor.
  - cbn [parse_all] in Hp.
    destruct (parse_row row) as [s|] eqn:Er; [|discriminate]. cbn in Hp.
    destruct (parse_all data) as [ss'|]; [|discriminate]. cbn in Hp.
    injection Hp as <-. constructor.
    + exact (parse_row_fields row s Er).
    + apply IH. reflexivity.
Qed.

(** C3 -- Aggregation sum law, as the code has it.  In a cycle that
    returns, each sample holds the `float(cpu)` of its row and the
    `int(mem) / 1024` of its row, which is exactly a 1024th of the KiB count
    when that count is below 2^53.  The group of a key exists exactly when
    some sample received the key, and then its `cpu` is the binary64 sum of
    those samples' cpu values and its `mem` the binary64 sum of their mem
    values, both added from `0.0` in frame order, each addition rounded. *)
Theorem aggregation_sum_law (self self' : view) (data : list (list string))
    (groups : gmap string group * gmap string group) :
  update self data = (self', Some groups) ->
  exists ss,
    parse_all data = Some ss
    /\ Forall2 (fun row s =>
                  py_float (nth 3 row "") = Some (s_cpu s)
                  /\ exists mem_kb,
                      py_int (nth 4 row "") = Some mem_kb
                      /\ (Z.abs mem_kb < 2 ^ 53 ->
                          units (s_mem_mb s) = Some (mem_kb * 2 ^ 1064)))
               data ss
    /\ forall is_app name,
        let ms := members is_app name (labels (cache_cleanup self data).1 ss) in
        match target_of is_app groups !! name with
        | Some g =>
            ms <> []
            /\ cpu g = fsum (map s_cpu ms)
            /\ mem g = fsum (map s_mem_mb ms)
        | None => ms = []
        end.
Proof.
  intros Hup. destruct (update_groups _ _ _ _ Hup) as (ss & Hparse & Hgroups).
  exists ss. split; [exact Hparse|].
  split; [exact (parse_all_fields data ss Hparse)|].
  intros is_app name. cbn zeta. rewrite Hgroups.
  destruct (members is_app name (labels (cache_cleanup self data).1 ss))
    as [|s0 ms]; cbn [group_of]; [reflexivity|].
  split; [discriminate|]. split; reflexivity.
Qed.

Lemma dict_set_fresh {V : Type} (k : Z) (v : V) (d : list (Z * V)) :
  k ∉ map fst d -> dict_set k v d = d ++ [(k, v)].
Proof.
  induction d as [|[k' v'] d IH]; intros Hk; [reflexivity|].
  cbn [map fst] in Hk. apply not_elem_of_cons in Hk as [Hne Hk].
  cbn [dict_set app]. destruct (Z.eqb_spec k k'); [contradiction|].
  rewrite IH by assumption. reflexivity.
Qed.

(** With no pid twice, the details of a group are its samples in order. *)
Lemma details_distinct (ms : list sample) (d0 : list (Z * detail)) :
  NoDup (map fst d0 ++ map s_pid ms) ->
  foldl (fun d s => dict_set (s_pid s) (Detail (s_cpu s) (s_mem_mb s)) d) d0 ms
  = d0 ++ map (fun s => (s_pid s, Detail (s_cpu s) (s_mem_mb s))) ms.
Proof.
  revert d0. induction ms as [|s ms IH]; intros d0 Hnd.
  - cbn. rewrite app_nil_r. reflexivity.
  - cbn [foldl map]. cbn [map] in Hnd.
    assert (Hfresh : s_pid s ∉ map fst d0).
    { apply NoDup_app in Hnd as (_ & Hdisj & _). intros Hin.
      apply (Hdisj _ Hin). left. }
    rewrite dict_set_fresh by assumption.
    rewrite IH.
    + rewrite <- app_assoc. reflexivity.
    + rewrite map_app. cbn [map fst]. rewrite <- app_assoc. exact Hnd.
Qed.

(** C5, as amended -- Detail-sum invariant.  In a cycle that returns,
    every group whose pid list names no pid twice has `cpu` equal to the sum
    of the cpu values of its detail map and `mem` equal to the sum of the
    mem values of its detail map, added from `0.0` in the order of the
    map. *)
Theorem detail_sum_for_distinct_pids (self self' : view)
    (data : list (list string))
    (groups : gmap string group * gmap string group) (is_app : bool)
    (name : string) (g : group) :
  update self data = (self', Some groups) ->
  target_of is_app groups !! name = Some g ->
  NoDup (pids g) ->
  cpu g = fsum (map (fun kv => d_cpu kv.2) (details g))
  /\ mem g = fsum (map (fun kv => d_mem kv.2) (details g)).
Proof.
  intros Hup Hg Hnd.
  destruct (update_groups _ _ _ _ Hup) as (ss & _ & Hgroups).
  rewrite Hgroups in Hg.
  destruct (members is_app name (labels (cache_cleanup self data).1 ss))
    as [|s0 ms]; [discriminate|].
  cbn [group_of] in Hg. injection Hg as <-. cbn [pids cpu mem details] in *.
  rewrite details_distinct by exact Hnd.
  cbn [app map]. rewrite !List.map_map. cbn [snd d_cpu d_mem].
  split; reflexivity.
Qed.

Lemma labelled_samples (self : view) (ss : list sample) :
  map snd (labels self ss) = ss.
Proof.
  revert self. induction ss as [|s ss IH]; intros self; [reflexivity|].
  cbn [labelled]. destruct (classify self (s_pid s) (s_name s)) as [b self1].
  cbn [map snd]. rewrite IH. reflexivity.
Qed.

Lemma NoDup_map_inj {A B : Type} (f : A -> B) (l : list A) (x y : A) :
  NoDup (map f l) -> x ∈ l -> y ∈ l -> f x = f y -> x = y.
Proof.
  induction l as [|a l IH]; intros Hnd Hx Hy Hxy; [inversion Hx|].
  cbn [map] in Hnd. apply NoDup_cons in Hnd as [Ha Hnd].
  assert (Hin : forall z, z ∈ l -> f z ∈ map f l).
  { intros z Hz. apply list_elem_of_In, in_map, list_elem_of_In, Hz. }
  apply elem_of_cons in Hx as [->|Hx]; apply elem_of_cons in Hy as [->|Hy].
  - reflexivity.
  - exfalso. apply Ha. rewrite Hxy. apply Hin, Hy.
  - exfalso. apply Ha. rewrite <- Hxy. apply Hin, Hx.
  - apply IH; assumption.
Qed.

(** C7 -- Same-name category split.  In a cycle that returns on a frame
    that names no pid twice, take two samples of one name, the first
    classified as an application and the second as background: the name has
    a group in `apps` and a group in `background`, the first pid is in the
    pid list of the former only and the second in that of the latter only,
    and `self.rows` holds both keys. *)
Theorem same_name_split (self self' : view) (data : list (list string))
    (groups : gmap string group * gmap string group) (ss : list sample)
    (s1 s2 : sample) (name : string) :
  update self data = (self', Some groups) ->
  parse_all data = Some ss ->
  NoDup (map s_pid ss) ->
  (true, s1) ∈ labels (cache_cleanup self data).1 ss ->
  (false, s2) ∈ labels (cache_cleanup self data).1 ss ->
  s_name s1 = name ->
  s_name s2 = name ->
  exists ga gb,
    groups.1 !! name = Some ga
    /\ groups.2 !! name = Some gb
    /\ (s_pid s1 ∈ pids ga) /\ (s_pid s1 ∉ pids gb)
    /\ (s_pid s2 ∈ pids gb) /\ (s_pid s2 ∉ pids ga)
    /\ ((APP, name) ∈ dom (rows self'))
    /\ ((BG, name) ∈ dom (rows self')).
Proof.
  intros Hup Hparse Hnd H1 H2 Hn1 Hn2.
  destruct (update_groups _ _ _ _ Hup) as (ss' & Hparse' & Hgroups).
  rewrite Hparse in Hparse'. injection Hparse' as <-.
  destruct (update_returns _ _ _ _ Hup) as [_ Hrows].
  set (L := labels (cache_cleanup self data).1 ss) in *.
  assert (Hinj : forall b b' s s',
             (b, s) ∈ L -> (b', s') ∈ L -> s_pid s = s_pid s' -> b = b').
  { intros b b' s s' Hs Hs' Hpid.
    assert (E : (b, s) = (b', s')); [|congruence].
    apply (NoDup_map_inj (fun bs => s_pid bs.2) L); [|assumption..].
    rewrite <- (List.map_map snd s_pid). unfold L. rewrite labelled_samples.
    exact Hnd. }
  assert (Hpids : forall b s, (b, s) ∈ L -> s_name s = name ->
             exists g, target_of b groups !! name = Some g
                       /\ s_pid s ∈ pids g
                       /\ forall s', (negb b, s') ∈ L -> s_pid s' ∉ pids g).
  { intros b s Hs Hn.
    assert (Hm : s ∈ members b name L) by (apply elem_of_members; auto).
    specialize (Hgroups b name). fold L in Hgroups.
    destruct (members b name L) as [|s0 ms] eqn:Em; [inversion Hm|].
    cbn [group_of] in Hgroups. eexists. split; [exact Hgroups|].
    cbn [pids]. rewrite <- Em in *. split.
    - apply list_elem_of_In, in_map, list_elem_of_In, Hm.
    - intros s' Hs' Hin. apply list_elem_of_In, in_map_iff in Hin.
      destruct Hin as (s'' & Hpid & Hin''). apply list_elem_of_In in Hin''.
      apply elem_of_members in Hin'' as [Hin'' _].
      pose proof (Hinj _ _ _ _ Hin'' Hs' Hpid) as Hb. destruct b; discriminate. }
  destruct (Hpids true s1 H1 Hn1) as (ga & Hga & Hin1 & Hout1).
  destruct (Hpids false s2 H2 Hn2) as (gb & Hgb & Hin2 & Hout2).
  cbn [target_of negb] in *.
  exists ga, gb. split; [exact Hga|]. split; [exact Hgb|].
  split; [exact Hin1|]. split; [apply Hout2, H1|].
  split; [exact Hin2|]. split; [apply Hout1, H2|].
  rewrite Hrows. unfold current_keys. split.
  - apply elem_of_union_l, elem_of_map. exists name.
    split; [reflexivity|]. apply elem_of_dom. eauto.
  - apply elem_of_union_r, elem_of_map. exists name.
    split; [reflexivity|]. apply elem_of_dom. eauto.
Qed.

End Facts.

#[local] Existing Instance Demo.builtins.
#[local] Existing Instance Demo.widgets.

Lemma pair_frame_returns :
  Demo.update Demo.windowed Demo.pair_frame
  = ((Demo.update Demo.windowed Demo.pair_frame).1,
     Some (default (∅, ∅) (Demo.update Demo.windowed Demo.pair_frame).2)).
Proof. vm_compute. reflexivity. Defined.

Lemma pair_frame_labels :
  labelled Demo.same_user (cache_cleanup Demo.windowed Demo.pair_frame).1
           [Demo.sample_10; Demo.sample_11]
  = [(true, Demo.sample_10); (false, Demo.sample_11)].
Proof. vm_compute. reflexivity. Defined.

Lemma trio_frame_returns :
  Demo.update Demo.windowed Demo.trio_frame
  = ((Demo.update Demo.windowed Demo.trio_frame).1,
     Some (default (∅, ∅) (Demo.update Demo.windowed Demo.trio_frame).2)).
Proof. vm_compute. reflexivity. Defined.

Lemma trio_frame_background :
  target_of false
    (default (∅, ∅) (Demo.update Demo.windowed Demo.trio_frame).2)
    !! "xterm"
  = Some Demo.trio.
Proof. vm_compute. reflexivity. Defined.

(** C3 as stated fails: the three samples of cpu 0.1, 0.2 and 0.3 that
    receive the key (background, xterm) add up to the float
    0.6000000000000001, which is not the exact sum of the three floats. *)
Lemma aggregation_exact_sum_counterexample :
  target_of false
    (default (∅, ∅) (Demo.update Demo.windowed Demo.trio_frame).2)
    !! "xterm"
  = Some Demo.trio
  /\ (exists ss,
        parse_all Demo.trio_frame = Some ss
        /\ map s_cpu
             (members false "xterm"
                (labelled Demo.same_user
                   (cache_cleanup Demo.windowed Demo.trio_frame).1 ss))
           = [0.1%float; 0.2%float; 0.3%float])
  /\ cpu Demo.trio = 0.6000000000000001%float
  /\ units (cpu Demo.trio)
     <> (a ← units 0.1%float; b ← units 0.2%float; c ← units 0.3%float;
         Some (a + b + c)).
Proof.
  split; [exact trio_frame_background|].
  split; [eexists; split; vm_compute; reflexivity|].
  split; [reflexivity|].
  intros E. vm_compute in E. discriminate E.
Qed.

Lemma aggregation_sum_law_witness :
  Demo.update Demo.windowed Demo.trio_frame
  = ((Demo.update Demo.windowed Demo.trio_frame).1,
     Some (default (∅, ∅) (Demo.update Demo.windowed Demo.trio_frame).2))
  /\ target_of false
       (default (∅, ∅) (Demo.update Demo.windowed Demo.trio_frame).2)
       !! "xterm"
     = Some Demo.trio
  /\ cpu Demo.trio = fsum [0.1%float; 0.2%float; 0.3%float]
  /\ mem Demo.trio = fsum [1%float; 2%float; 0.5%float]
  /\ units 0.5%float = Some (512 * 2 ^ 1064)
  /\ exists ss,
      parse_all Demo.trio_frame = Some ss
      /\ Forall2 (fun row s =>
                    py_float (nth 3 row "") = Some (s_cpu s)
                    /\ exists mem_kb,
                        py_int (nth 4 row "") = Some mem_kb
                        /\ (Z.abs mem_kb < 2 ^ 53 ->
                            units (s_mem_mb s) = Some (mem_kb * 2 ^ 1064)))
                 Demo.trio_frame ss
      /\ forall is_app name,
          let ms :=
            members is_app name
              (labelled Demo.same_user
                 (cache_cleanup Demo.windowed Demo.trio_frame).1 ss) in
          match
            target_of is_app
              (default (∅, ∅) (Demo.update Demo.windowed Demo.trio_frame).2)
              !! name
          with
          | Some g =>
              ms <> []
              /\ cpu g = fsum (map s_cpu ms)
              /\ mem g = fsum (map s_mem_mb ms)
          | None => ms = []
          end.
Proof.
  split; [exact trio_frame_returns|].
  split; [exact trio_frame_background|].
  split; [vm_compute; reflexivity|]. split; [vm_compute; reflexivity|].
  split; [vm_compute; reflexivity|].
  apply (aggregation_sum_law Demo.same_user Demo.windowed _ Demo.trio_frame _
           trio_frame_returns).
Defined.

(** C5 as stated fails: a frame that lists pid 11 twice under one name adds
    both cpu values into the group, 0.5 + 1.5, while the detail map keeps
    the later one only. *)
Lemma detail_sum_counterexample :
  (Demo.update Demo.started Demo.twice).2
    ≫= (fun groups => groups.2 !! "xterm") = Some Demo.doubled
  /\ cpu Demo.doubled = 2%float
  /\ fsum (map (fun kv => d_cpu kv.2) (details Demo.doubled)) = 1.5%float
  /\ cpu Demo.doubled
     <> fsum (map (fun kv => d_cpu kv.2) (details Demo.doubled)).
Proof.
  split; [vm_compute; reflexivity|]. split; [reflexivity|].
  split; [reflexivity|].
  intros E. apply (f_equal (PrimFloat.eqb 2)) in E. vm_compute in E.
  discriminate.
Qed.

Lemma detail_sum_for_distinct_pids_witness :
  Demo.update Demo.windowed Demo.trio_frame
  = ((Demo.update Demo.windowed Demo.trio_frame).1,
     Some (default (∅, ∅) (Demo.update Demo.windowed Demo.trio_frame).2))
  /\ target_of false
       (default (∅, ∅) (Demo.update Demo.windowed Demo.trio_frame).2)
       !! "xterm"
     = Some Demo.trio
  /\ NoDup [11; 12; 13]
  /\ 0.6000000000000001%float = fsum [0.1%float; 0.2%float; 0.3%float]
  /\ 3.5%float = fsum [1%float; 2%float; 0.5%float].
Proof.
  assert (Hnd : NoDup (pids Demo.trio)).
  { cbn. repeat (apply NoDup_cons; split; [set_solver|]). apply NoDup_nil_2. }
  split; [exact trio_frame_returns|]. split; [exact trio_frame_background|].
  split; [exact Hnd|].
  apply (detail_sum_for_distinct_pids Demo.same_user Demo.windowed _
           Demo.trio_frame _ false "xterm" Demo.trio trio_frame_returns
           trio_frame_background Hnd).
Defined.

Lemma same_name_split_witness :
  Demo.update Demo.windowed Demo.pair_frame
  = ((Demo.update Demo.windowed Demo.pair_frame).1,
     Some (default (∅, ∅) (Demo.update Demo.windowed Demo.pair_frame).2))
  /\ parse_all Demo.pair_frame = Some [Demo.sample_10; Demo.sample_11]
  /\ NoDup [10; 11]
  /\ labelled Demo.same_user (cache_cleanup Demo.windowed Demo.pair_frame).1
              [Demo.sample_10; Demo.sample_11]
     = [(true, Demo.sample_10); (false, Demo.sample_11)]
  /\ exists ga gb,
      (default (∅, ∅) (Demo.update Demo.windowed Demo.pair_frame).2).1
        !! "xterm" = Some ga
      /\ (default (∅, ∅) (Demo.update Demo.windowed Demo.pair_frame).2).2
           !! "xterm" = Some gb
      /\ (10 ∈ pids ga) /\ (10 ∉ pids gb)
      /\ (11 ∈ pids gb) /\ (11 ∉ pids ga)
      /\ ((APP, "xterm")
          ∈ dom (rows (Demo.update Demo.windowed Demo.pair_frame).1))
      /\ ((BG, "xterm")
          ∈ dom (rows (Demo.update Demo.windowed Demo.pair_frame).1)).
Proof.
  assert (Hparse : parse_all Demo.pair_frame
                   = Some [Demo.sample_10; Demo.sample_11])
    by (vm_compute; reflexivity).
  assert (Hnd : NoDup (map s_pid [Demo.sample_10; Demo.sample_11])).
  { cbn. apply NoDup_cons. split; [|apply NoDup_singleton].
    intros Hin. apply list_elem_of_singleton in Hin. discriminate. }
  split; [exact pair_frame_returns|]. split; [exact Hparse|].
  split; [exact Hnd|]. split; [exact pair_frame_labels|].
  apply (same_name_split Demo.same_user Demo.windowed _ Demo.pair_frame _
           [Demo.sample_10; Demo.sample_11] Demo.sample_10 Demo.sample_11
           "xterm" pair_frame_returns Hparse Hnd).
  - rewrite pair_frame_labels. apply list_elem_of_here.
  - rewrite pair_frame_labels. apply list_elem_of_further, list_elem_of_here.
  - reflexivity.
  - reflexivity.
Defined.

End AggregatorFacts.

(** * Properties of the resolver *)

Module ResolverFacts.
Import View Resolver.

Section Facts.
Context `{!Builtins} `{!Widgets} `{!Regex}.
Variable subprocess_run : list string -> float -> result CompletedProcess.

(** C9 -- Resolver failure behaviour.  A refresh that is not a no-op and
    in which `wmctrl -lp` and `xprop -root _NET_CLIENT_LIST` both fail
    (either raises, or exits with a status other than 0) lets no exception
    out and publishes the empty set as `window_pids`, whatever the set
    published before, and clears the in-flight flag. *)
Theorem failed_refresh_publishes_empty (self : view) :
  window_pid_thread_running self = false ->
  failed (subprocess_run ["wmctrl"; "-lp"] 2%float) = true ->
  failed (subprocess_run ["xprop"; "-root"; "_NET_CLIENT_LIST"] 2%float)
  = true ->
  (update_window_pids subprocess_run self).2 = None
  /\ window_pids (update_window_pids subprocess_run self).1 = ∅
  /\ window_pid_thread_running (update_window_pids subprocess_run self).1
     = false.
Proof.
  intros Hidle Hw Hx. unfold update_window_pids. rewrite Hidle.
  unfold _fetch_pids, try_wmctrl, try_xprop.
  destruct (subprocess_run ["wmctrl"; "-lp"] 2%float) as [r|e].
  - cbn [failed] in Hw. apply negb_true_iff in Hw. rewrite Hw.
    destruct (subprocess_run ["xprop"; "-root"; "_NET_CLIENT_LIST"] 2%float)
      as [r'|e'].
    + cbn [failed] in Hx. apply negb_true_iff in Hx. rewrite Hx.
      repeat split.
    + repeat split.
  - assert (E : match e with
                | FileNotFoundError => @None (gset Z)
                | _ => None
                end = None) by (destruct e; reflexivity).
    rewrite E.
    destruct (subprocess_run ["xprop"; "-root"; "_NET_CLIENT_LIST"] 2%float)
      as [r'|e'].
    + cbn [failed] in Hx. apply negb_true_iff in Hx. rewrite Hx.
      repeat split.
    + repeat split.
Qed.

End Facts.

#[local] Existing Instance Demo.builtins.
#[local] Existing Instance Demo.widgets.
#[local] Existing Instance Demo.no_match.

(** C9 on a view whose last snapshot held pid 10. *)
Lemma failed_refresh_publishes_empty_witness :
  window_pids Demo.windowed = {[10]}
  /\ window_pid_thread_running Demo.windowed = false
  /\ failed (Demo.broken_tools ["wmctrl"; "-lp"] 2%float) = true
  /\ failed (Demo.broken_tools ["xprop"; "-root"; "_NET_CLIENT_LIST"] 2%float)
     = true
  /\ (update_window_pids Demo.broken_tools Demo.windowed).2 = None
  /\ window_pids (update_window_pids Demo.broken_tools Demo.windowed).1 = ∅
  /\ window_pid_thread_running
       (update_window_pids Demo.broken_tools Demo.windowed).1 = false.
Proof.
  split; [reflexivity|]. split; [reflexivity|]. split; [reflexivity|].
  split; [reflexivity|].
  apply (failed_refresh_publishes_empty Demo.broken_tools Demo.windowed);
    reflexivity.
Defined.

End ResolverFacts.


(** * The scenarios of the specification, run *)

Module Scenarios.
Import Decoder View.

#[local] Existing Instance Demo.builtins.
#[local] Existing Instance Demo.widgets.

(** Scenario A: one process line and `END` give one frame of one sample,
    which aggregates into the background group `bash` with cpu 0.5 and
    2048 / 1024 = 2.0 MiB. *)
Example basic_frame :
  _read_backend None [Demo.line "123|bash|S|0.5|2048|1"; Demo.line "END"]
  = [UpdateProcesses [["123"; "bash"; "S"; "0.5"; "2048"; "1"]]]
  /\ (Demo.update Demo.started [["123"; "bash"; "S"; "0.5"; "2048"; "1"]]).2
       ≫= (fun groups => Some (groups.1 !! "bash", groups.2 !! "bash"))
     = Some (None,
             Some (Group [123] 0.5%float 2%float "S"
                         [(123, Detail 0.5%float 2%float)])).
Proof. split; vm_compute; reflexivity. Qed.

(** Scenario B: a GPU block of one record gives one GPU frame, the `GPU`
    tag dropped. *)
Example gpu_block :
  _read_backend None
    [Demo.line "GPU_START";
     Demo.line "GPU|0|NVIDIA RTX|45|2048|8192|65|120|250";
     Demo.line "GPU_END"]
  = [UpdateGpu [["0"; "NVIDIA RTX"; "45"; "2048"; "8192"; "65"; "120"; "250"]]].
Proof. vm_compute. reflexivity. Qed.

(** Scenario C: the malformed first line is dropped. *)
Example malformed_tolerance :
  _read_backend None
    [Demo.line "abc"; Demo.line "123|x|S|1.0|100|1"; Demo.line "END"]
  = [UpdateProcesses [["123"; "x"; "S"; "1.0"; "100"; "1"]]].
Proof. vm_compute. reflexivity. Qed.

(** Scenario D: pids 10 and 11 of `foo` both own a window; after pid 11
    exits, the second frame updates the row of `foo` and its details hold
    pid 10 only. *)
Example group_removal :
  elements
    (dom (rows (Demo.update (set_window_pids Demo.started {[10; 11]})
                  [Demo.row "10" "foo" "0.5" "2048";
                   Demo.row "11" "foo" "1.5" "1024"]).1))
  = [(APP, "foo")]
  /\ (Demo.update
        (Demo.update (set_window_pids Demo.started {[10; 11]})
           [Demo.row "10" "foo" "0.5" "2048";
            Demo.row "11" "foo" "1.5" "1024"]).1
        [Demo.row "10" "foo" "0.5" "2048"]).2
       ≫= (fun groups => groups.1 !! "foo")
     = Some (Group [10] 0.5%float 2%float "S" [(10, Detail 0.5%float 2%float)])
  /\ (_update_rows
        (Demo.update (set_window_pids Demo.started {[10; 11]})
           [Demo.row "10" "foo" "0.5" "2048";
            Demo.row "11" "foo" "1.5" "1024"]).1
        {["foo" := Group [10] 0.5%float 2%float "S"
                         [(10, Detail 0.5%float 2%float)]]}
        ∅)
       ≫= (fun r => Some (elements (to_add r.2), elements (to_remove r.2),
                          elements (to_update r.2)))
     = Some ([], [], [(APP, "foo")]).
Proof. repeat split; vm_compute; reflexivity. Qed.

End Scenarios.

(** * Further properties of the decoder *)

Module DecoderMore.
Import Decoder Wire Pipeline DecoderFacts.

Lemma length_tail {A : Type} (l : list A) (n : nat) :
  length l = S n -> length (tail l) = n.
Proof. destruct l; simpl; congruence. Qed.

(** One iteration keeps six fields in every buffered process row and eight
    in every buffered GPU row, and schedules rows of those arities only. *)
Lemma loop_body_arity (st : decoder) (raw : string) :
  Forall (fun r => length r = 6%nat) (frame st) ->
  Forall (fun r => length r = 8%nat) (gpu_frame st) ->
  Forall (fun r => length r = 6%nat) (frame (loop_body st raw).1)
  /\ Forall (fun r => length r = 8%nat) (gpu_frame (loop_body st raw).1)
  /\ Forall arity_ok (loop_body st raw).2.
Proof.
  intros Hf Hg. unfold loop_body.
  repeat match goal with
         | |- context [if ?b then _ else _] => destruct b eqn:?
         end; cbn [fst snd frame gpu_frame];
    repeat split;
    repeat match goal with
           | |- Forall _ [] => constructor
           | |- Forall _ (_ ++ [_]) => apply Forall_app; split
           | |- Forall _ _ => assumption
           | E : ?x = _ |- Forall _ ?x => rewrite E
           | |- Forall _ (_ :: _) => constructor
           | |- arity_ok _ => cbn [arity_ok]
           | |- length (tail _) = _ =>
               apply length_tail, Nat.eqb_eq; assumption
           | |- length _ = _ => apply Nat.eqb_eq; assumption
           end.
Qed.

Lemma read_lines_arity (ls : list string) (st : decoder) :
  Forall (fun r => length r = 6%nat) (frame st) ->
  Forall (fun r => length r = 8%nat) (gpu_frame st) ->
  Forall arity_ok (read_lines st ls).
Proof.
  revert st. induction ls as [|raw ls IH]; intros st Hf Hg; [constructor|].
  rewrite read_lines_cons.
  destruct (loop_body_arity st raw Hf Hg) as (Hf' & Hg' & Hout).
  apply Forall_app. split; [exact Hout|]. apply IH; assumption.
Qed.

(** X1 -- Whatever the backend writes, every row of a process frame the
    reader hands over has exactly six fields and every row of a GPU frame
    exactly eight. *)
Theorem frames_have_fixed_arity (cancel_at : option nat)
    (stdout : list string) :
  Forall arity_ok (_read_backend cancel_at stdout).
Proof. unfold _read_backend. apply read_lines_arity; constructor. Qed.

Lemma read_lines_snoc (st : decoder) (ls : list string) (raw : string) :
  read_lines st (ls ++ [raw])
  = read_lines st ls ++ (loop_body (final_state st ls) raw).2.
Proof.
  rewrite read_lines_app, read_lines_cons. cbn [read_lines].
  rewrite app_nil_r. reflexivity.
Qed.

(** Outside a GPU block, a line other than `GPU_START` leaves the GPU
    buffer as it is and the decoder outside the block. *)
Lemma loop_body_keeps_gpu_frame (st : decoder) (raw : string) :
  in_gpu_block st = false -> is_GPU_START raw = false ->
  in_gpu_block (loop_body st raw).1 = false
  /\ gpu_frame (loop_body st raw).1 = gpu_frame st.
Proof.
  unfold is_GPU_START, loop_body. intros Hb Hs. rewrite Hs, Hb.
  repeat match goal with
         | |- context [if ?b then _ else _] => destruct b eqn:?
         end; cbn [fst in_gpu_block gpu_frame]; auto.
Qed.

Lemma final_state_keeps_gpu_frame (ls : list string) (st : decoder) :
  in_gpu_block st = false ->
  forallb (fun l => negb (is_GPU_START l)) ls = true ->
  in_gpu_block (final_state st ls) = false
  /\ gpu_frame (final_state st ls) = gpu_frame st.
Proof.
  revert st. induction ls as [|raw ls IH]; intros st Hb Hls; [auto|].
  cbn [forallb] in Hls. apply andb_true_iff in Hls as [Hr Hls].
  apply negb_true_iff in Hr.
  destruct (loop_body_keeps_gpu_frame st raw Hb Hr) as [Hb' Hg'].
  unfold final_state. cbn [fold_left].
  destruct (IH (loop_body st raw).1 Hb' Hls) as [Hb'' Hg''].
  split; [exact Hb''|]. unfold final_state in Hg''. rewrite Hg''. exact Hg'.
Qed.

(** X2 -- `GPU_END` does not empty the GPU buffer: when a `GPU_END` line
    schedules a GPU frame, the next `GPU_END` line schedules the same frame
    again, whatever comes between them, unless a `GPU_START` does. *)
Theorem stale_gpu_frame_rescheduled (st : decoder) (stop stop' : string)
    (between : list string) :
  gpu_frame st <> [] ->
  is_GPU_END stop = true ->
  forallb (fun l => negb (is_GPU_START l)) between = true ->
  is_GPU_END stop' = true ->
  exists out,
    read_lines st (stop :: between ++ [stop'])
    = UpdateGpu (gpu_frame st) :: out ++ [UpdateGpu (gpu_frame st)].
Proof.
  intros Hg Hstop Hbetween Hstop'.
  rewrite read_lines_cons, loop_body_GPU_END by assumption.
  cbn [fst snd]. rewrite read_lines_snoc.
  destruct (final_state_keeps_gpu_frame between
              (Dec (frame st) (gpu_frame st) false) eq_refl Hbetween)
    as [_ Hkeep].
  rewrite loop_body_GPU_END by assumption. rewrite Hkeep. cbn [snd gpu_frame].
  destruct (gpu_frame st) as [|r g]; [contradiction|].
  eexists. reflexivity.
Qed.

(** X3 -- Nothing inside a GPU block touches the process buffer, not even
    an `END` line: the samples pending when the block opens are handed over,
    all of them and no others, by the first `END` after the block. *)
Theorem pending_samples_survive_gpu_block (f g : list (list string))
    (start stop fin : string) (inner : list string) :
  f <> [] ->
  is_GPU_START start = true ->
  forallb (fun l => negb (is_GPU_END l)) inner = true ->
  is_GPU_END stop = true ->
  is_END fin = true ->
  exists g',
    read_lines (Dec f g false) (start :: inner ++ [stop; fin])
    = match g' with [] => [] | _ :: _ => [UpdateGpu g'] end
      ++ [UpdateProcesses f].
Proof.
  intros Hf Hstart Hinner Hstop Hfin.
  rewrite read_lines_cons, loop_body_GPU_START by assumption.
  cbn [fst snd frame app]. rewrite read_lines_app.
  destruct (read_lines_in_block inner f [] Hinner) as [Hq [g' Hg']].
  rewrite Hq, Hg'. cbn [app]. exists g'.
  rewrite read_lines_cons, loop_body_GPU_END by assumption.
  cbn [fst snd frame gpu_frame].
  rewrite read_lines_cons, loop_body_END by (assumption || reflexivity).
  cbn [frame]. destruct f as [|r f]; [contradiction|].
  cbn [fst snd read_lines]. rewrite app_nil_r. reflexivity.
Qed.

(** X4 -- Cancelling the reader only cuts its output short: what it has
    scheduled when it breaks out of the loop is the beginning of what it
    schedules when left to read to the end. *)
Theorem cancelled_output_is_prefix (n : nat) (stdout : list string) :
  _read_backend (Some n) stdout `prefix_of` _read_backend None stdout.
Proof.
  unfold _read_backend.
  rewrite <- (take_drop n stdout) at 2. rewrite read_lines_app.
  eexists. reflexivity.
Qed.

Lemma stale_gpu_frame_rescheduled_witness :
  gpu_frame (Dec [] [["0"]] true) <> []
  /\ is_GPU_END (Demo.line "GPU_END") = true
  /\ forallb (fun l => negb (is_GPU_START l))
             [Demo.line "123|bash|S|0.5|2048|1"; Demo.line "END"] = true
  /\ exists out,
      read_lines (Dec [] [["0"]] true)
        (Demo.line "GPU_END"
         :: [Demo.line "123|bash|S|0.5|2048|1"; Demo.line "END"]
         ++ [Demo.line "GPU_END"])
      = UpdateGpu [["0"]] :: out ++ [UpdateGpu [["0"]]].
Proof.
  split; [discriminate|]. split; [reflexivity|]. split; [reflexivity|].
  apply (stale_gpu_frame_rescheduled (Dec [] [["0"]] true)
           (Demo.line "GPU_END") (Demo.line "GPU_END")
           [Demo.line "123|bash|S|0.5|2048|1"; Demo.line "END"]);
    [discriminate|reflexivity..].
Defined.

Lemma pending_samples_survive_gpu_block_witness :
  [["123"; "bash"; "S"; "0.5"; "2048"; "1"]] <> []
  /\ is_GPU_START (Demo.line "GPU_START") = true
  /\ forallb (fun l => negb (is_GPU_END l))
             [Demo.line "END"; Demo.line "124|x|S|1.0|100|1"] = true
  /\ is_GPU_END (Demo.line "GPU_END") = true
  /\ is_END (Demo.line "END") = true
  /\ exists g',
      read_lines (Dec [["123"; "bash"; "S"; "0.5"; "2048"; "1"]] [] false)
        (Demo.line "GPU_START"
         :: [Demo.line "END"; Demo.line "124|x|S|1.0|100|1"]
         ++ [Demo.line "GPU_END"; Demo.line "END"])
      = match g' with [] => [] | _ :: _ => [UpdateGpu g'] end
        ++ [UpdateProcesses [["123"; "bash"; "S"; "0.5"; "2048"; "1"]]].
Proof.
  split; [discriminate|]. split; [reflexivity|]. split; [reflexivity|].
  split; [reflexivity|]. split; [reflexivity|].
  apply (pending_samples_survive_gpu_block
           [["123"; "bash"; "S"; "0.5"; "2048"; "1"]] []
           (Demo.line "GPU_START") (Demo.line "GPU_END") (Demo.line "END")
           [Demo.line "END"; Demo.line "124|x|S|1.0|100|1"]);
    [discriminate|reflexivity..].
Defined.

End DecoderMore.

(** * Further properties of a cycle of `update_data` *)

Module CycleFacts.
Import View Pipeline.

Section Facts.
Context `{!Builtins} `{!Widgets}.
Variable real_uid_differs : Z -> option bool.

Abbreviation classify := (_classify_process real_uid_differs).
Abbreviation update := (update_data real_uid_differs).
Abbreviation labels := (labelled real_uid_differs).

(** `_classify_process` writes to the cache and to nothing else. *)
Lemma classify_sets_cache (self : view) (pid : Z) (name : string) :
  (classify self pid name).2
  = set_cache self (classification_cache (classify self pid name).2).
Proof.
  unfold _classify_process, remember.
  repeat match goal with
         | |- context [match ?x with _ => _ end] => destruct x eqn:?
         end; cbn [snd]; try reflexivity; destruct self; reflexivity.
Qed.

Lemma aggregate_sets_cache (data : list (list string)) (self : view)
    (apps background : gmap string group) :
  (aggregate real_uid_differs self apps background data).1
  = set_cache self
      (classification_cache
         (aggregate real_uid_differs self apps background data).1).
Proof.
  revert self apps background.
  induction data as [|row data IH]; intros self apps background.
  - destruct self; reflexivity.
  - cbn [aggregate]. destruct (parse_row row) as [s|];
      [|destruct self; reflexivity].
    unfold add_sample.
    pose proof (classify_sets_cache self (s_pid s) (s_name s)) as Hc.
    destruct (classify self (s_pid s) (s_name s)) as [b self1].
    cbn [snd] in Hc.
    destruct b; rewrite IH; rewrite Hc at 1; reflexivity.
Qed.

Lemma parse_row_numeric (row : list string) :
  length row = 6%nat -> (is_Some (parse_row row) <-> numeric row).
Proof.
  intros Hlen.
  destruct row as [|pid [|name [|st [|c [|m [|th [|x row]]]]]]];
    try discriminate.
  unfold parse_row, numeric. cbn [nth].
  destruct (py_int pid) as [p|]; cbn;
    [|split; [intros [? ?]; discriminate|intros ([? ?] & _); discriminate]].
  destruct (py_float c) as [f|]; cbn;
    [|split; [intros [? ?]; discriminate
             |intros (_ & [? ?] & _); discriminate]].
  destruct (py_int m) as [kb|]; cbn;
    [|split; [intros [? ?]; discriminate
             |intros (_ & _ & [? ?]); discriminate]].
  destruct (div_1024 kb) as [mb|]; cbn.
  - split; [intros _; repeat split; eauto|intros _; eauto].
  - split; [intros [? ?]; discriminate|intros (_ & _ & [? ?]); discriminate].
Qed.

Lemma parse_row_pid (row : list string) (s : sample) :
  parse_row row = Some s ->
  exists d0 rest, row = d0 :: rest /\ py_int d0 = Some (s_pid s).
Proof.
  destruct row as [|pid [|name [|st [|c [|m [|th [|x row]]]]]]];
    try discriminate.
  unfold parse_row. intros Hp. exists pid. eexists. split; [reflexivity|].
  destruct (py_int pid) as [p|]; [|discriminate]. cbn in Hp.
  destruct (py_float c) as [f|]; [|discriminate]. cbn in Hp.
  destruct (py_int m) as [kb|]; [|discriminate]. cbn in Hp.
  destruct (div_1024 kb) as [mb|]; [|discriminate]. cbn in Hp.
  injection Hp as <-. reflexivity.
Qed.

Lemma parse_all_Some (data : list (list string)) :
  is_Some (parse_all data) <-> Forall (fun r => is_Some (parse_row r)) data.
Proof.
  induction data as [|row data IH]; cbn [parse_all].
  - split; [constructor|eauto].
  - rewrite Forall_cons. rewrite <- IH.
    destruct (parse_row row) as [s|]; cbn.
    + destruct (parse_all data) as [ss|]; cbn.
      * split; [intros _; split; eauto|eauto].
      * split; [intros [? ?]; discriminate|intros [_ [? ?]]; discriminate].
    + split; [intros [? ?]; discriminate|intros [[? ?] _]; discriminate].
Qed.

(** The pids the cleanup reads are the pids the loop reads. *)
Lemma parse_all_frame_pids (data : list (list string)) (ss : list sample) :
  parse_all data = Some ss -> frame_pids data = Some (map s_pid ss).
Proof.
  revert ss. induction data as [|row data IH]; intros ss Hp; cbn in *.
  - injection Hp as <-. reflexivity.
  - destruct (parse_row row) as [s|] eqn:Er; [|discriminate]. cbn in Hp.
    destruct (parse_all data) as [ss'|]; [|discriminate]. cbn in Hp.
    injection Hp as <-.
    destruct (parse_row_pid _ _ Er) as (d0 & rest & -> & Hd0).
    rewrite Hd0. cbn. rewrite (IH ss') by reflexivity. reflexivity.
Qed.

Lemma aggregate_returns (data : list (list string)) (ss : list sample)
    (self : view) (apps background : gmap string group) :
  parse_all data = Some ss ->
  is_Some (aggregate real_uid_differs self apps background data).2.
Proof.
  revert ss self apps background.
  induction data as [|row data IH]; intros ss self apps background Hp.
  - cbn. eauto.
  - cbn in *. destruct (parse_row row) as [s|]; [|discriminate]. cbn in Hp.
    destruct (parse_all data) as [ss'|]; [|discriminate].
    destruct (add_sample real_uid_differs self apps background s)
      as [[self1 apps1] background1].
    apply (IH ss'). reflexivity.
Qed.

Lemma cleanup_returns (self : view) (data : list (list string))
    (ss : list sample) :
  parse_all data = Some ss -> (cache_cleanup self data).2 = true.
Proof.
  intros Hp. unfold cache_cleanup, current_pids.
  rewrite (parse_all_frame_pids _ _ Hp).
  destruct (30 <=? _); reflexivity.
Qed.

(** A cycle returns exactly when every row of the frame parses. *)
Lemma update_returns_iff (self : view) (data : list (list string)) :
  is_Some (update self data).2 <-> is_Some (parse_all data).
Proof.
  split.
  - intros [groups Hg].
    assert (Hup : update self data = ((update self data).1, Some groups))
      by (rewrite <- Hg; destruct (update self data); reflexivity).
    destruct (AggregatorFacts.update_groups _ _ _ _ _ Hup) as (ss & Hp & _).
    eauto.
  - intros [ss Hp]. unfold update_data.
    pose proof (cleanup_returns self data ss Hp) as Hc.
    destruct (cache_cleanup self data) as [self1 returned]. cbn [snd] in Hc.
    subst returned. cbn [negb].
    destruct (aggregate_returns data ss self1 ∅ ∅ Hp) as [[a b] Ha].
    destruct (aggregate real_uid_differs self1 ∅ ∅ data) as [self2 r] eqn:Hagg.
    cbn [snd] in Ha. subst r.
    destruct (AggregatorFacts.aggregate_lists_pids _ _ _ _ _ _ _ Hagg
                ReconcilerFacts.lists_pids_empty
                ReconcilerFacts.lists_pids_empty) as [Hla Hlb].
    destruct (ReconcilerFacts.update_rows_returns self2 a b Hla Hlb)
      as (self3 & -> & _).
    cbn. eauto.
Qed.

(** X5 -- A process frame handed over by the reader always unpacks:
    `update_data` returns on it exactly when the numeric fields of every row
    convert (`int(pid)`, `float(cpu)`, `int(mem) / 1024`). *)
Theorem decoded_frame_aggregates (cancel_at : option nat)
    (stdout : list string) (data : list (list string)) (self : view) :
  Decoder.UpdateProcesses data ∈ Decoder._read_backend cancel_at stdout ->
  (is_Some (update self data).2 <-> Forall numeric data).
Proof.
  intros Hin.
  assert (Har : Forall arity_ok (Decoder._read_backend cancel_at stdout))
    by (apply DecoderMore.read_lines_arity; constructor).
  rewrite Forall_forall in Har. specialize (Har _ Hin). cbn in Har.
  rewrite update_returns_iff, parse_all_Some.
  rewrite !Forall_forall. rewrite Forall_forall in Har.
  split; intros Hall row Hrow; apply parse_row_numeric; auto.
Qed.

Lemma cleanup_frame (self : view) (data : list (list string)) :
  rows (cache_cleanup self data).1 = rows self
  /\ process_groups (cache_cleanup self data).1 = process_groups self
  /\ window_pids (cache_cleanup self data).1 = window_pids self
  /\ process_data (cache_cleanup self data).1 = data
  /\ cache_cleanup_counter (cache_cleanup self data).1
     = (if 30 <=? cache_cleanup_counter self + 1
        then 0 else cache_cleanup_counter self + 1).
Proof.
  unfold cache_cleanup. cbn [cache_cleanup_counter set_counter set_process_data].
  destruct (30 <=? cache_cleanup_counter self + 1);
    [destruct (current_pids data)|]; repeat split.
Qed.

Lemma update_rows_sets_rows (self self' : view)
    (apps background : gmap string group) (d : delta) :
  _update_rows self apps background = Some (self', d) ->
  self' = set_rows self (rows self').
Proof.
  unfold _update_rows. intros Hret.
  destruct (update_existing _ _ _ _) as [rs|]; [|discriminate].
  cbn in Hret. destruct (add_new _ _ _ _) as [rs'|]; [|discriminate].
  cbn in Hret. injection Hret as <- _. reflexivity.
Qed.

(** X6 -- A cycle that raises (a row does not convert) leaves the rows,
    the name-to-group table and `window_pids` as they were; it has stored
    the frame in `process_data`. *)
Theorem failed_cycle_keeps_rows (self : view) (data : list (list string)) :
  (update self data).2 = None ->
  rows (update self data).1 = rows self
  /\ process_groups (update self data).1 = process_groups self
  /\ window_pids (update self data).1 = window_pids self
  /\ process_data (update self data).1 = data.
Proof.
  unfold update_data. intros Hnone.
  destruct (cleanup_frame self data) as (Hr & Hg & Hw & Hd & _).
  destruct (cache_cleanup self data) as [self1 returned]. cbn [fst] in *.
  destruct returned; cbn [negb] in *; [|auto].
  pose proof (aggregate_sets_cache data self1 ∅ ∅) as Ha.
  destruct (aggregate real_uid_differs self1 ∅ ∅ data)
    as [self2 [[apps background]|]] eqn:Hagg; cbn [fst] in Ha.
  - destruct (AggregatorFacts.aggregate_lists_pids _ _ _ _ _ _ _ Hagg
                ReconcilerFacts.lists_pids_empty
                ReconcilerFacts.lists_pids_empty) as [Hla Hlb].
    destruct (ReconcilerFacts.update_rows_returns self2 apps background
                Hla Hlb) as (self3 & E & _).
    rewrite E in Hnone. discriminate.
  - cbn [fst snd]. rewrite Ha. cbn. auto.
Qed.

Lemma update_counter (self : view) (data : list (list string)) :
  cache_cleanup_counter (update self data).1
  = (if 30 <=? cache_cleanup_counter self + 1
     then 0 else cache_cleanup_counter self + 1).
Proof.
  unfold update_data.
  destruct (cleanup_frame self data) as (_ & _ & _ & _ & Hc).
  destruct (cache_cleanup self data) as [self1 returned]. cbn [fst] in *.
  destruct returned; cbn [negb]; [|exact Hc].
  pose proof (aggregate_sets_cache data self1 ∅ ∅) as Ha.
  destruct (aggregate real_uid_differs self1 ∅ ∅ data)
    as [self2 [[apps background]|]]; cbn [fst] in Ha.
  - destruct (_update_rows self2 apps background) as [[self3 d]|] eqn:E.
    + apply update_rows_sets_rows in E. cbn [fst]. rewrite E, Ha. exact Hc.
    + cbn [fst]. rewrite Ha. exact Hc.
  - cbn [fst]. rewrite Ha. exact Hc.
Qed.

(** X7 -- The cleanup counter counts the calls of `update_data` modulo 30,
    whether they return or raise. *)
Theorem cleanup_counter_cycles (self : view) (data : list (list string)) :
  0 <= cache_cleanup_counter self < 30 ->
  cache_cleanup_counter (update self data).1
  = (cache_cleanup_counter self + 1) mod 30.
Proof.
  intros Hc. rewrite update_counter.
  destruct (Z.leb_spec 30 (cache_cleanup_counter self + 1)).
  - replace (cache_cleanup_counter self + 1) with 30 by lia. reflexivity.
  - rewrite Z.mod_small by lia. reflexivity.
Qed.

Lemma classify_dom (self : view) (pid : Z) (name : string) :
  dom (classification_cache (classify self pid name).2)
  = dom (classification_cache self) ∪ {[pid]}.
Proof.
  assert (Hins : forall b,
             dom (<[pid := b]> (classification_cache self))
             = dom (classification_cache self) ∪ {[pid]}).
  { intros b. rewrite dom_insert_L. apply (comm_L (∪)). }
  unfold _classify_process, remember.
  destruct (classification_cache self !! pid) as [cached|] eqn:E.
  - apply elem_of_dom_2 in E.
    destruct (negb cached && bool_decide (pid ∈ window_pids self));
      cbn [snd classification_cache set_cache]; [apply Hins|].
    generalize dependent (dom (classification_cache self)).
    clear. intros X HX. set_solver.
  - repeat match goal with
           | |- context [match ?x with _ => _ end] => destruct x eqn:?
           end; cbn [snd classification_cache set_cache]; apply Hins.
Qed.

Lemma aggregate_dom (data : list (list string)) (ss : list sample)
    (self : view) (apps background : gmap string group) :
  parse_all data = Some ss ->
  dom (classification_cache
         (aggregate real_uid_differs self apps background data).1)
  = dom (classification_cache self) ∪ list_to_set (map s_pid ss).
Proof.
  revert ss self apps background.
  induction data as [|row data IH]; intros ss self apps background Hp.
  - cbn in *. injection Hp as <-. cbn. set_solver.
  - cbn in *. destruct (parse_row row) as [s|]; [|discriminate]. cbn in Hp.
    destruct (parse_all data) as [ss'|]; [|discriminate]. cbn in Hp.
    injection Hp as <-. unfold add_sample.
    pose proof (classify_dom self (s_pid s) (s_name s)) as Hd.
    destruct (classify self (s_pid s) (s_name s)) as [b self1].
    cbn [snd] in Hd.
    destruct b; rewrite (IH ss') by reflexivity; rewrite Hd; cbn;
      set_solver.
Qed.

(** X8 -- After a cycle that returns, the cache holds an entry for every
    pid of the frame; on a cycle that runs the cleanup it holds no others,
    and on any other cycle it still holds all it held before. *)
Theorem cache_after_cycle (self self' : view) (data : list (list string))
    (groups : gmap string group * gmap string group) :
  update self data = (self', Some groups) ->
  exists ps,
    frame_pids data = Some ps
    /\ dom (classification_cache self')
       = (if 30 <=? cache_cleanup_counter self + 1
          then ∅ else dom (classification_cache self))
         ∪ list_to_set ps.
Proof.
  intros Hup.
  destruct (AggregatorFacts.update_groups _ _ _ _ _ Hup) as (ss & Hp & _).
  exists (map s_pid ss). split; [apply parse_all_frame_pids, Hp|].
  unfold update_data in Hup.
  assert (Hc : dom (classification_cache (cache_cleanup self data).1)
               = (if 30 <=? cache_cleanup_counter self + 1
                  then dom (classification_cache self)
                       ∩ list_to_set (map s_pid ss)
                  else dom (classification_cache self))).
  { unfold cache_cleanup, current_pids.
    rewrite (parse_all_frame_pids _ _ Hp).
    cbn [cache_cleanup_counter set_counter set_process_data fmap option_fmap
         option_map].
    destruct (30 <=? cache_cleanup_counter self + 1); [|reflexivity].
    cbn [fst classification_cache set_cache set_counter set_process_data].
    apply dom_filter_L. intros pid. rewrite elem_of_intersection, elem_of_dom.
    unfold is_Some. cbn [fst]. naive_solver. }
  destruct (cache_cleanup self data) as [self1 returned]. cbn [fst] in Hc.
  destruct returned; [|discriminate]. cbn [negb] in Hup.
  pose proof (aggregate_dom data ss self1 ∅ ∅ Hp) as Hd.
  destruct (aggregate real_uid_differs self1 ∅ ∅ data)
    as [self2 [[apps background]|]]; [|discriminate]. cbn [fst] in Hd.
  destruct (_update_rows self2 apps background) as [[self3 d]|] eqn:E;
    [|discriminate].
  apply update_rows_sets_rows in E. injection Hup as <- _.
  rewrite E. cbn [classification_cache set_process_groups set_rows].
  rewrite Hd, Hc.
  destruct (30 <=? cache_cleanup_counter self + 1); set_solver.
Qed.

(** X9 -- The group of a key lists the pids of the samples that received
    the key, in frame order and with repetitions, so it is never empty; its
    state is the state of the first of them. *)
Theorem group_lists_its_samples (self self' : view)
    (data : list (list string))
    (groups : gmap string group * gmap string group) (is_app : bool)
    (name : string) (g : group) :
  update self data = (self', Some groups) ->
  target_of is_app groups !! name = Some g ->
  exists ss s0 ms,
    parse_all data = Some ss
    /\ members is_app name (labels (cache_cleanup self data).1 ss) = s0 :: ms
    /\ pids g = s_pid s0 :: map s_pid ms
    /\ state g = s_state s0.
Proof.
  intros Hup Hg.
  destruct (AggregatorFacts.update_groups _ _ _ _ _ Hup) as (ss & Hp & Hgroups).
  rewrite Hgroups in Hg.
  destruct (members is_app name (labels (cache_cleanup self data).1 ss))
    as [|s0 ms] eqn:Em; [discriminate|].
  cbn [group_of] in Hg. injection Hg as <-.
  exists ss, s0, ms. repeat split; assumption.
Qed.

(** X10 -- `process_groups` is keyed by name alone: for a name that has a
    group in both categories it keeps the background group and drops the
    application group. *)
Theorem process_groups_prefers_background (self self' : view)
    (data : list (list string))
    (groups : gmap string group * gmap string group) (name : string) :
  update self data = (self', Some groups) ->
  process_groups self' !! name
  = match groups.2 !! name with
    | Some g => Some g
    | None => groups.1 !! name
    end.
Proof.
  unfold update_data. intros Hup.
  destruct (cache_cleanup self data) as [self1 returned].
  destruct returned; [|discriminate]. cbn [negb] in Hup.
  destruct (aggregate real_uid_differs self1 ∅ ∅ data)
    as [self2 [[apps background]|]]; [|discriminate].
  destruct (_update_rows self2 apps background) as [[self3 d]|];
    [|discriminate].
  injection Hup as <- <-. cbn [process_groups set_process_groups fst snd].
  rewrite lookup_union.
  destruct (background !! name), (apps !! name); reflexivity.
Qed.

(** X11 -- An empty frame is a cycle that returns with no group: it removes
    every row and empties the name-to-group table. *)
Theorem empty_frame_clears_rows (self : view) :
  (update self []).2 = Some (∅, ∅)
  /\ rows (update self []).1 = ∅
  /\ process_groups (update self []).1 = ∅.
Proof.
  unfold update_data.
  assert (Hc : (cache_cleanup self []).2 = true)
    by (apply (cleanup_returns self [] []); reflexivity).
  destruct (cache_cleanup self []) as [self1 returned]. cbn [snd] in Hc.
  subst returned. cbn [negb aggregate].
  destruct (ReconcilerFacts.update_rows_returns self1 ∅ ∅
              ReconcilerFacts.lists_pids_empty
              ReconcilerFacts.lists_pids_empty) as (self2 & -> & Hd).
  cbn [fst snd rows process_groups set_process_groups].
  split; [reflexivity|]. split.
  - apply dom_empty_inv_L. rewrite Hd. unfold current_keys.
    rewrite !dom_empty_L. set_solver.
  - apply (left_id_L ∅ (∪)).
Qed.

(** X12 -- The owner lookup of step 6 decides nothing: with any two
    answers of `psutil`, a cycle ends in the same view with the same
    groups. *)
Theorem owner_lookup_is_irrelevant (other : Z -> option bool) (self : view)
    (data : list (list string)) :
  update self data = update_data other self data.
Proof.
  unfold update_data.
  assert (Ha : forall data' v a b,
             aggregate real_uid_differs v a b data'
             = aggregate other v a b data').
  { induction data' as [|row data' IH]; intros v a b; [reflexivity|].
    cbn [aggregate]. destruct (parse_row row) as [s|]; [|reflexivity].
    unfold add_sample.
    rewrite (ClassifierFacts.classify_any_owner real_uid_differs other).
    destruct (_classify_process other v (s_pid s) (s_name s)) as [[|] v'];
      apply IH. }
  destruct (cache_cleanup self data) as [self1 returned].
  destruct returned; [|reflexivity]. cbn [negb]. rewrite Ha. reflexivity.
Qed.

(** X13 -- From its second call on, the answer for a pid does not depend
    on the name: the second of two calls in a row returns what the first
    returned, or `True` if the pid owns a window. *)
Theorem second_call_ignores_name (self : view) (pid : Z)
    (name name' : string) :
  (classify (classify self pid name).2 pid name').1
  = (classify self pid name).1 || bool_decide (pid ∈ window_pids self).
Proof.
  pose proof (ClassifierFacts.classify_caches real_uid_differs self pid name)
    as Hc.
  pose proof (ClassifierFacts.classify_window_pids real_uid_differs self pid
                name) as Hw.
  destruct (classify self pid name) as [b self1]. cbn [fst snd] in *.
  unfold _classify_process. rewrite Hc, Hw.
  destruct b, (bool_decide (pid ∈ window_pids self)); reflexivity.
Qed.

End Facts.

#[local] Existing Instance Demo.builtins.
#[local] Existing Instance Demo.widgets.

Lemma decoded_frame_aggregates_witness :
  Decoder.UpdateProcesses [["123"; "bash"; "S"; "0.5"; "2048"; "1"]]
    ∈ Decoder._read_backend None
        [Demo.line "123|bash|S|0.5|2048|1"; Demo.line "END"]
  /\ (is_Some (Demo.update Demo.started
                 [["123"; "bash"; "S"; "0.5"; "2048"; "1"]]).2
      <-> Forall numeric [["123"; "bash"; "S"; "0.5"; "2048"; "1"]]).
Proof.
  assert (Hin : Decoder.UpdateProcesses
                  [["123"; "bash"; "S"; "0.5"; "2048"; "1"]]
                ∈ Decoder._read_backend None
                    [Demo.line "123|bash|S|0.5|2048|1"; Demo.line "END"]).
  { change (Decoder._read_backend None
              [Demo.line "123|bash|S|0.5|2048|1"; Demo.line "END"])
      with [Decoder.UpdateProcesses
              [["123"; "bash"; "S"; "0.5"; "2048"; "1"]]].
    apply list_elem_of_here. }
  split; [exact Hin|].
  apply (decoded_frame_aggregates Demo.same_user None _ _ Demo.started Hin).
Defined.

(** A frame whose pid field is no numeral. *)
Lemma failed_cycle_keeps_rows_witness :
  (Demo.update Demo.windowed [Demo.row "x" "bash" "0.5" "2048"]).2 = None
  /\ rows (Demo.update Demo.windowed [Demo.row "x" "bash" "0.5" "2048"]).1
     = rows Demo.windowed
  /\ process_groups
       (Demo.update Demo.windowed [Demo.row "x" "bash" "0.5" "2048"]).1
     = process_groups Demo.windowed
  /\ window_pids
       (Demo.update Demo.windowed [Demo.row "x" "bash" "0.5" "2048"]).1
     = window_pids Demo.windowed
  /\ process_data
       (Demo.update Demo.windowed [Demo.row "x" "bash" "0.5" "2048"]).1
     = [Demo.row "x" "bash" "0.5" "2048"].
Proof.
  assert (Hnone : (Demo.update Demo.windowed
                     [Demo.row "x" "bash" "0.5" "2048"]).2 = None)
    by (vm_compute; reflexivity).
  split; [exact Hnone|].
  apply (failed_cycle_keeps_rows Demo.same_user Demo.windowed _ Hnone).
Defined.

Lemma cleanup_counter_cycles_witness :
  0 <= cache_cleanup_counter Demo.windowed < 30
  /\ cache_cleanup_counter (Demo.update Demo.windowed Demo.pair_frame).1
     = (cache_cleanup_counter Demo.windowed + 1) mod 30.
Proof.
  assert (Hc : 0 <= cache_cleanup_counter Demo.windowed < 30)
    by (cbn; lia).
  split; [exact Hc|].
  apply (cleanup_counter_cycles Demo.same_user Demo.windowed Demo.pair_frame Hc).
Defined.

Lemma cache_after_cycle_witness :
  Demo.update Demo.windowed Demo.pair_frame
  = ((Demo.update Demo.windowed Demo.pair_frame).1,
     Some (default (∅, ∅) (Demo.update Demo.windowed Demo.pair_frame).2))
  /\ exists ps,
      frame_pids Demo.pair_frame = Some ps
      /\ dom (classification_cache
                (Demo.update Demo.windowed Demo.pair_frame).1)
         = (if 30 <=? cache_cleanup_counter Demo.windowed + 1
            then ∅ else dom (classification_cache Demo.windowed))
           ∪ list_to_set ps.
Proof.
  split; [exact AggregatorFacts.pair_frame_returns|].
  apply (cache_after_cycle Demo.same_user Demo.windowed _ Demo.pair_frame _
           AggregatorFacts.pair_frame_returns).
Defined.

Lemma pair_frame_background :
  target_of false
    (default (∅, ∅) (Demo.update Demo.windowed Demo.pair_frame).2)
    !! "xterm"
  = Some (Group [11] 1.5%float 1%float "S" [(11, Detail 1.5%float 1%float)]).
Proof. vm_compute. reflexivity. Defined.

Lemma group_lists_its_samples_witness :
  Demo.update Demo.windowed Demo.pair_frame
  = ((Demo.update Demo.windowed Demo.pair_frame).1,
     Some (default (∅, ∅) (Demo.update Demo.windowed Demo.pair_frame).2))
  /\ target_of false
       (default (∅, ∅) (Demo.update Demo.windowed Demo.pair_frame).2)
       !! "xterm"
     = Some (Group [11] 1.5%float 1%float "S" [(11, Detail 1.5%float 1%float)])
  /\ exists ss s0 ms,
      parse_all Demo.pair_frame = Some ss
      /\ members false "xterm"
           (labelled Demo.same_user
              (cache_cleanup Demo.windowed Demo.pair_frame).1 ss)
         = s0 :: ms
      /\ [11] = s_pid s0 :: map s_pid ms
      /\ "S" = s_state s0.
Proof.
  split; [exact AggregatorFacts.pair_frame_returns|].
  split; [exact pair_frame_background|].
  apply (group_lists_its_samples Demo.same_user Demo.windowed _
           Demo.pair_frame _ false "xterm" _
           AggregatorFacts.pair_frame_returns pair_frame_background).
Defined.

Lemma process_groups_prefers_background_witness :
  Demo.update Demo.windowed Demo.pair_frame
  = ((Demo.update Demo.windowed Demo.pair_frame).1,
     Some (default (∅, ∅) (Demo.update Demo.windowed Demo.pair_frame).2))
  /\ process_groups (Demo.update Demo.windowed Demo.pair_frame).1 !! "xterm"
     = match
         (default (∅, ∅) (Demo.update Demo.windowed Demo.pair_frame).2).2
           !! "xterm"
       with
       | Some g => Some g
       | None =>
           (default (∅, ∅) (Demo.update Demo.windowed Demo.pair_frame).2).1
             !! "xterm"
       end.
Proof.
  split; [exact AggregatorFacts.pair_frame_returns|].
  apply (process_groups_prefers_background Demo.same_user Demo.windowed _
           Demo.pair_frame _ "xterm" AggregatorFacts.pair_frame_returns).
Defined.

End CycleFacts.

(** * Further properties of the rows and of the groups *)

Module RowsFacts.
Import View.

Section Facts.
Context `{!Builtins} `{!Widgets}.
Variable real_uid_differs : Z -> option bool.

Abbreviation update := (update_data real_uid_differs).
Abbreviation labels := (labelled real_uid_differs).

Lemma remove_dead_lookup (keys : list (string * string))
    (rs : gmap (string * string) Row) (key : string * string) :
  remove_dead keys rs !! key
  = if decide (key ∈ keys) then None else rs !! key.
Proof.
  unfold remove_dead. revert rs.
  induction keys as [|a keys IH]; intros rs; cbn [foldl].
  - rewrite decide_False by apply not_elem_of_nil. reflexivity.
  - rewrite IH. destruct (decide (key ∈ keys)) as [Hin|Hnin].
    + rewrite decide_True by (right; exact Hin). reflexivity.
    + destruct (decide (a = key)) as [->|Hne].
      * rewrite decide_True by left. apply lookup_delete_eq.
      * rewrite decide_False
          by (intros Hin; apply elem_of_cons in Hin as [->|Hin];
              contradiction).
        apply lookup_delete_ne, Hne.
Qed.

Lemma update_existing_lookup (apps background : gmap string group)
    (keys : list (string * string)) (rs rs' : gmap (string * string) Row)
    (key : string * string) :
  NoDup keys ->
  update_existing apps background keys rs = Some rs' ->
  rs' !! key
  = if decide (key ∈ keys)
    then info ← info_for apps background key;
         row ← rs !! key;
         Some (row_update_data info row)
    else rs !! key.
Proof.
  revert rs. induction keys as [|a keys IH]; intros rs Hnd Hup.
  - cbn in Hup. injection Hup as <-.
    rewrite decide_False by apply not_elem_of_nil. reflexivity.
  - apply NoDup_cons in Hnd as [Ha Hnd]. cbn [update_existing] in Hup.
    destruct (info_for apps background a) as [info|] eqn:Ei; [|discriminate].
    destruct (rs !! a) as [row|] eqn:Er; [|discriminate]. cbn in Hup.
    destruct (row_update_raises info row); [discriminate|].
    rewrite (IH _ Hnd Hup).
    destruct (decide (key ∈ keys)) as [Hin|Hnin].
    + rewrite decide_True by (right; exact Hin).
      assert (Hne : a <> key) by (intros ->; contradiction).
      rewrite lookup_insert_ne by exact Hne. reflexivity.
    + destruct (decide (a = key)) as [->|Hne].
      * rewrite decide_True by left. rewrite lookup_insert_eq, Ei, Er.
        reflexivity.
      * rewrite decide_False
          by (intros Hin; apply elem_of_cons in Hin as [->|Hin];
              contradiction).
        apply lookup_insert_ne, Hne.
Qed.

Lemma add_new_lookup (apps background : gmap string group)
    (keys : list (string * string)) (rs rs' : gmap (string * string) Row)
    (key : string * string) :
  add_new apps background keys rs = Some rs' ->
  rs' !! key
  = if decide (key ∈ keys)
    then ProcessRow key.1 key.2 <$> info_for apps background key
    else rs !! key.
Proof.
  revert rs. induction keys as [|a keys IH]; intros rs Hadd.
  - cbn in Hadd. injection Hadd as <-.
    rewrite decide_False by apply not_elem_of_nil. reflexivity.
  - cbn [add_new] in Hadd.
    destruct (info_for apps background a) as [info|] eqn:Ei; [|discriminate].
    cbn in Hadd. rewrite (IH _ Hadd).
    destruct (decide (key ∈ keys)) as [Hin|Hnin].
    + rewrite decide_True by (right; exact Hin). reflexivity.
    + destruct (decide (a = key)) as [->|Hne].
      * rewrite decide_True by left. rewrite lookup_insert_eq, Ei.
        reflexivity.
      * rewrite decide_False
          by (intros Hin; apply elem_of_cons in Hin as [->|Hin];
              contradiction).
        apply lookup_insert_ne, Hne.
Qed.

(** The rows `_update_rows` leaves: none for a key that is not current; for
    a current key the old row updated with its group if there was one, a
    new row of its group otherwise. *)
Lemma update_rows_lookup (self self' : view)
    (apps background : gmap string group) (d : delta)
    (key : string * string) :
  _update_rows self apps background = Some (self', d) ->
  rows self' !! key
  = if decide (key ∈ current_keys apps background)
    then info ← info_for apps background key;
         Some (match rows self !! key with
               | Some old => row_update_data info old
               | None => ProcessRow key.1 key.2 info
               end)
    else None.
Proof.
  unfold _update_rows. cbn [to_add to_remove to_update]. intros Hret.
  set (K := current_keys apps background) in *.
  set (P := dom (rows self)) in *.
  destruct (update_existing apps background (elements (K ∩ P))
              (remove_dead (elements (P ∖ K)) (rows self)))
    as [rs1|] eqn:E1; [|discriminate].
  cbn [mbind option_bind] in Hret.
  destruct (add_new apps background (elements (K ∖ P)) rs1)
    as [rs2|] eqn:E2; [|discriminate].
  cbn [mbind option_bind] in Hret. injection Hret as <- _.
  cbn [rows set_rows].
  rewrite (add_new_lookup _ _ _ _ _ key E2).
  rewrite (update_existing_lookup _ _ _ _ _ key (NoDup_elements _) E1).
  rewrite remove_dead_lookup.
  assert (HP : key ∈ P <-> is_Some (rows self !! key))
    by (unfold P; apply elem_of_dom).
  destruct (decide (key ∈ K)) as [HK|HK];
    destruct (rows self !! key) as [old|] eqn:Eold.
  - assert (key ∈ P) by (apply HP; eauto).
    rewrite decide_False by (rewrite elem_of_elements; set_solver).
    rewrite decide_True by (rewrite elem_of_elements; set_solver).
    rewrite decide_False by (rewrite elem_of_elements; set_solver).
    destruct (info_for apps background key); reflexivity.
  - assert (key ∉ P) by (intros HinP; apply HP in HinP as [? ?]; discriminate).
    rewrite decide_True by (rewrite elem_of_elements; set_solver).
    destruct (info_for apps background key); reflexivity.
  - assert (key ∈ P) by (apply HP; eauto).
    rewrite decide_False by (rewrite elem_of_elements; set_solver).
    rewrite decide_False by (rewrite elem_of_elements; set_solver).
    rewrite decide_True by (rewrite elem_of_elements; set_solver).
    reflexivity.
  - assert (key ∉ P) by (intros HinP; apply HP in HinP as [? ?]; discriminate).
    rewrite decide_False by (rewrite elem_of_elements; set_solver).
    rewrite decide_False by (rewrite elem_of_elements; set_solver).
    rewrite decide_False by (rewrite elem_of_elements; set_solver).
    reflexivity.
Qed.

(** The cleanup and the loop leave the rows alone. *)
Lemma cycle_rows (self self' : view) (data : list (list string))
    (groups : gmap string group * gmap string group) :
  update self data = (self', Some groups) ->
  exists self2 d,
    rows self2 = rows self
    /\ _update_rows self2 groups.1 groups.2 = Some (set_rows self2 (rows self'), d).
Proof.
  unfold update_data. intros Hup.
  destruct (CycleFacts.cleanup_frame self data) as (Hr & _).
  destruct (cache_cleanup self data) as [self1 returned]. cbn [fst] in Hr.
  destruct returned; [|discriminate]. cbn [negb] in Hup.
  pose proof (CycleFacts.aggregate_sets_cache real_uid_differs data self1 ∅ ∅)
    as Ha.
  destruct (aggregate real_uid_differs self1 ∅ ∅ data)
    as [self2 [[apps background]|]]; [|discriminate]. cbn [fst] in Ha.
  destruct (_update_rows self2 apps background) as [[self3 d]|] eqn:E;
    [|discriminate].
  injection Hup as <- <-. exists self2, d. split.
  - rewrite Ha. exact Hr.
  - cbn [fst snd rows set_process_groups]. rewrite E.
    rewrite (CycleFacts.update_rows_sets_rows _ _ _ _ _ E) at 1. reflexivity.
Qed.

(** X14 -- After a cycle that returns, the rows are those of the new
    state: a row that was there and whose key is still current is the same
    row, updated with its group; a key that is new gets a new row made from
    its group; a row whose key is gone is removed. *)
Theorem rows_after_cycle (self self' : view) (data : list (list string))
    (groups : gmap string group * gmap string group)
    (key : string * string) :
  update self data = (self', Some groups) ->
  rows self' !! key
  = if decide (key ∈ current_keys groups.1 groups.2)
    then info ← info_for groups.1 groups.2 key;
         Some (match rows self !! key with
               | Some old => row_update_data info old
               | None => ProcessRow key.1 key.2 info
               end)
    else None.
Proof.
  intros Hup. destruct (cycle_rows _ _ _ _ Hup) as (self2 & d & Hr & E).
  rewrite <- Hr.
  change (rows self') with (rows (set_rows self2 (rows self'))).
  apply (update_rows_lookup _ _ _ _ d key E).
Qed.

Lemma dict_get_set {V : Type} (k k' : Z) (v : V) (d : list (Z * V)) :
  Widget.dict_get k' (dict_set k v d)
  = if decide (k = k') then Some v else Widget.dict_get k' d.
Proof.
  induction d as [|[k0 v0] d IH]; cbn [dict_set Widget.dict_get].
  - destruct (Z.eqb_spec k' k) as [->|Hne].
    + rewrite decide_True by reflexivity. reflexivity.
    + rewrite decide_False by congruence. reflexivity.
  - destruct (Z.eqb_spec k k0) as [->|Hne]; cbn [Widget.dict_get].
    + destruct (Z.eqb_spec k' k0) as [->|Hne'].
      * rewrite decide_True by reflexivity. reflexivity.
      * rewrite decide_False by congruence. reflexivity.
    + destruct (Z.eqb_spec k' k0) as [->|Hne'].
      * rewrite decide_False by exact Hne. reflexivity.
      * exact IH.
Qed.

Lemma dict_set_keys {V : Type} (k x : Z) (v : V) (d : list (Z * V)) :
  x ∈ map fst (dict_set k v d) <-> x = k \/ x ∈ map fst d.
Proof.
  induction d as [|[k0 v0] d IH]; cbn [dict_set map fst].
  - rewrite elem_of_cons. reflexivity.
  - destruct (Z.eqb_spec k k0) as [->|Hne]; cbn [map fst];
      rewrite !elem_of_cons; [tauto|]. rewrite IH. tauto.
Qed.

Lemma dict_set_NoDup {V : Type} (k : Z) (v : V) (d : list (Z * V)) :
  NoDup (map fst d) -> NoDup (map fst (dict_set k v d)).
Proof.
  induction d as [|[k0 v0] d IH]; intros Hnd; cbn [dict_set map fst] in *.
  - apply NoDup_singleton.
  - apply NoDup_cons in Hnd as [Hk0 Hnd].
    destruct (Z.eqb_spec k k0) as [->|Hne]; cbn [map fst].
    + apply NoDup_cons. split; assumption.
    + apply NoDup_cons. split; [|apply IH, Hnd].
      rewrite dict_set_keys. intros [E|Hin]; [congruence|contradiction].
Qed.

Lemma details_lookup (ms : list sample) (d0 : list (Z * detail)) (pid : Z) :
  Widget.dict_get pid
    (foldl (fun d s => dict_set (s_pid s) (Detail (s_cpu s) (s_mem_mb s)) d)
           d0 ms)
  = match last (filter (fun s => s_pid s = pid) ms) with
    | Some s => Some (Detail (s_cpu s) (s_mem_mb s))
    | None => Widget.dict_get pid d0
    end.
Proof.
  revert d0. induction ms as [|s ms IH]; intros d0; [reflexivity|].
  cbn [foldl]. rewrite IH, dict_get_set, filter_cons.
  destruct (decide (s_pid s = pid)) as [E|Hne].
  - rewrite last_cons.
    destruct (last (filter (fun s => s_pid s = pid) ms)); reflexivity.
  - reflexivity.
Qed.

Lemma details_NoDup (ms : list sample) (d0 : list (Z * detail)) :
  NoDup (map fst d0) ->
  NoDup (map fst
           (foldl (fun d s =>
                     dict_set (s_pid s) (Detail (s_cpu s) (s_mem_mb s)) d)
                  d0 ms)).
Proof.
  revert d0. induction ms as [|s ms IH]; intros d0 Hnd; [exact Hnd|].
  cbn [foldl]. apply IH, dict_set_NoDup, Hnd.
Qed.

(** X15 -- The detail map of a group has one entry for each pid of the
    group, and the entry of a pid holds the cpu and mem of the last sample
    of that pid in the group. *)
Theorem details_hold_last_sample (self self' : view)
    (data : list (list string))
    (groups : gmap string group * gmap string group) (is_app : bool)
    (name : string) (g : group) :
  update self data = (self', Some groups) ->
  target_of is_app groups !! name = Some g ->
  exists ss,
    parse_all data = Some ss
    /\ NoDup (map fst (details g))
    /\ forall pid,
        Widget.dict_get pid (details g)
        = (fun s => Detail (s_cpu s) (s_mem_mb s))
            <$> last (filter (fun s => s_pid s = pid)
                             (members is_app name
                                (labels (cache_cleanup self data).1 ss))).
Proof.
  intros Hup Hg.
  destruct (AggregatorFacts.update_groups _ _ _ _ _ Hup) as (ss & Hp & Hgroups).
  rewrite Hgroups in Hg. exists ss. split; [exact Hp|].
  destruct (members is_app name (labels (cache_cleanup self data).1 ss))
    as [|s0 ms]; [discriminate|].
  cbn [group_of] in Hg. injection Hg as <-. cbn [details]. split.
  - apply details_NoDup. cbn. apply NoDup_singleton.
  - intros pid. pose proof (details_lookup (s0 :: ms) [] pid) as Hl.
    destruct (last (filter (fun s => s_pid s = pid) (s0 :: ms))); exact Hl.
Qed.

End Facts.

#[local] Existing Instance Demo.builtins.
#[local] Existing Instance Demo.widgets.

Lemma rows_after_cycle_witness :
  Demo.update Demo.windowed Demo.pair_frame
  = ((Demo.update Demo.windowed Demo.pair_frame).1,
     Some (default (∅, ∅) (Demo.update Demo.windowed Demo.pair_frame).2))
  /\ rows (Demo.update Demo.windowed Demo.pair_frame).1 !! (BG, "xterm")
     = if decide
            ((BG, "xterm")
             ∈ current_keys
                 (default (∅, ∅)
                    (Demo.update Demo.windowed Demo.pair_frame).2).1
                 (default (∅, ∅)
                    (Demo.update Demo.windowed Demo.pair_frame).2).2)
       then info ← info_for
                     (default (∅, ∅)
                        (Demo.update Demo.windowed Demo.pair_frame).2).1
                     (default (∅, ∅)
                        (Demo.update Demo.windowed Demo.pair_frame).2).2
                     (BG, "xterm");
            Some (match rows Demo.windowed !! (BG, "xterm") with
                  | Some old => row_update_data info old
                  | None => ProcessRow BG "xterm" info
                  end)
       else None.
Proof.
  split; [exact AggregatorFacts.pair_frame_returns|].
  apply (rows_after_cycle Demo.same_user Demo.windowed _ Demo.pair_frame _
           (BG, "xterm") AggregatorFacts.pair_frame_returns).
Defined.

Lemma pair_frame_application :
  target_of true
    (default (∅, ∅) (Demo.update Demo.windowed Demo.pair_frame).2)
    !! "xterm"
  = Some (Group [10] 0.5%float 2%float "S" [(10, Detail 0.5%float 2%float)]).
Proof. vm_compute. reflexivity. Defined.

Lemma details_hold_last_sample_witness :
  Demo.update Demo.windowed Demo.pair_frame
  = ((Demo.update Demo.windowed Demo.pair_frame).1,
     Some (default (∅, ∅) (Demo.update Demo.windowed Demo.pair_frame).2))
  /\ target_of true
       (default (∅, ∅) (Demo.update Demo.windowed Demo.pair_frame).2)
       !! "xterm"
     = Some (Group [10] 0.5%float 2%float "S" [(10, Detail 0.5%float 2%float)])
  /\ exists ss,
      parse_all Demo.pair_frame = Some ss
      /\ NoDup [10]
      /\ forall pid,
          Widget.dict_get pid [(10, Detail 0.5%float 2%float)]
          = (fun s => Detail (s_cpu s) (s_mem_mb s))
              <$> last (filter (fun s => s_pid s = pid)
                               (members true "xterm"
                                  (labelled Demo.same_user
                                     (cache_cleanup Demo.windowed
                                        Demo.pair_frame).1 ss))).
Proof.
  split; [exact AggregatorFacts.pair_frame_returns|].
  split; [exact pair_frame_application|].
  apply (details_hold_last_sample Demo.same_user Demo.windowed _
           Demo.pair_frame _ true "xterm" _
           AggregatorFacts.pair_frame_returns pair_frame_application).
Defined.

End RowsFacts.

(** * Further properties of the resolver *)

Module ResolverMore.
Import View Resolver.

Section Facts.
Context `{!Builtins} `{!Widgets} `{!Regex}.
Variable subprocess_run : list string -> float -> result CompletedProcess.

Lemma wmctrl_line_elem (X : gset Z) (line : string) (pid : Z) :
  pid ∈ wmctrl_line X line
  <-> pid ∈ X
      \/ ((3 <= length (Py.split_ws line))%nat
          /\ py_int (nth 2 (Py.split_ws line) "") = Some pid
          /\ 0 < pid).
Proof.
  unfold wmctrl_line.
  destruct (Nat.leb_spec 3 (length (Py.split_ws line))) as [Hlen|Hlen].
  - destruct (py_int (nth 2 (Py.split_ws line) "")) as [p|].
    + destruct (Z.ltb_spec 0 p) as [Hpos|Hpos].
      * rewrite elem_of_union, elem_of_singleton. split.
        -- intros [Hin| ->]; [left; exact Hin|right; auto].
        -- intros [Hin|(_ & E & _)]; [left; exact Hin|right; congruence].
      * split; [auto|]. intros [Hin|(_ & E & Hp)]; [exact Hin|].
        injection E as ->. lia.
    + split; [auto|]. intros [Hin|(_ & E & _)]; [exact Hin|discriminate].
  - split; [auto|]. intros [Hin|(Hl & _)]; [exact Hin|lia].
Qed.

Lemma wmctrl_lines_elem (ls : list string) (X : gset Z) (pid : Z) :
  pid ∈ foldl wmctrl_line X ls
  <-> pid ∈ X
      \/ exists line,
           line ∈ ls
           /\ (3 <= length (Py.split_ws line))%nat
           /\ py_int (nth 2 (Py.split_ws line) "") = Some pid
           /\ 0 < pid.
Proof.
  revert X. induction ls as [|l ls IH]; intros X; cbn [foldl].
  - split; [auto|]. intros [Hin|(line & Hin & _)]; [exact Hin|].
    inversion Hin.
  - rewrite IH, wmctrl_line_elem. split.
    + intros [[Hin|Hl]|(line & Hin & Hl)]; [left; exact Hin| |].
      * right. exists l. split; [left|exact Hl].
      * right. exists line. split; [right; exact Hin|exact Hl].
    + intros [Hin|(line & Hin & Hl)]; [left; left; exact Hin|].
      apply elem_of_cons in Hin as [->|Hin].
      * left. right. exact Hl.
      * right. exists line. split; assumption.
Qed.

(** X16 -- When `wmctrl -lp` exits with status 0, its answer is final,
    empty or not, and the fallback is not consulted: the set published is
    the set of the third columns of its output lines that are numbers above
    zero; lines with fewer than three columns and lines whose third column
    is no number are passed over. *)
Theorem wmctrl_answer_is_final (self : view) (r : CompletedProcess)
    (pid : Z) :
  window_pid_thread_running self = false ->
  subprocess_run ["wmctrl"; "-lp"] 2%float = Ok r ->
  returncode r = 0 ->
  pid ∈ window_pids (update_window_pids subprocess_run self).1
  <-> exists line,
        line ∈ Py.split newline (Py.strip (stdout r))
        /\ (3 <= length (Py.split_ws line))%nat
        /\ py_int (nth 2 (Py.split_ws line) "") = Some pid
        /\ 0 < pid.
Proof.
  intros Hidle Hrun Hrc. unfold update_window_pids. rewrite Hidle.
  unfold _fetch_pids, try_wmctrl. rewrite Hrun, Hrc.
  cbn [Z.eqb fst window_pids set_window_pids set_thread_running].
  rewrite wmctrl_lines_elem. split.
  - intros [Hin|Hl]; [|exact Hl]. apply not_elem_of_empty in Hin.
    contradiction.
  - intros Hl. right. exact Hl.
Qed.

Lemma xprop_window_elem (X : gset Z) (wid : string) (pid : Z) :
  pid ∈ xprop_window subprocess_run X wid
  <-> pid ∈ X
      \/ exists r',
           subprocess_run ["xprop"; "-id"; wid; "_NET_WM_PID"] 0.2%float
           = Ok r'
           /\ Py.contains (stdout r') "_NET_WM_PID" = true
           /\ exists digits,
               re_search_group1 "=\s*(\d+)" (stdout r') = Some digits
               /\ py_int digits = Some pid.
Proof.
  unfold xprop_window.
  destruct (subprocess_run ["xprop"; "-id"; wid; "_NET_WM_PID"] 0.2%float)
    as [r'|e].
  - destruct (Py.contains (stdout r') "_NET_WM_PID") eqn:Ec.
    + destruct (re_search_group1 "=\s*(\d+)" (stdout r')) as [digits|] eqn:Es.
      * destruct (py_int digits) as [p|] eqn:Ep.
        -- rewrite elem_of_union, elem_of_singleton. split.
           ++ intros [Hin| ->]; [left; exact Hin|]. right. exists r'.
              repeat split; eauto.
           ++ intros [Hin|(r'' & E & _ & digits' & Es' & Ep')];
                [left; exact Hin|].
              injection E as <-. rewrite Es in Es'. injection Es' as <-.
              right. congruence.
        -- split; [auto|].
           intros [Hin|(r'' & E & _ & digits' & Es' & Ep')]; [exact Hin|].
           injection E as <-. rewrite Es in Es'. injection Es' as <-.
           congruence.
      * split; [auto|].
        intros [Hin|(r'' & E & _ & digits' & Es' & _)]; [exact Hin|].
        injection E as <-. congruence.
    + split; [auto|]. intros [Hin|(r'' & E & Hc & _)]; [exact Hin|].
      injection E as <-. congruence.
  - split; [auto|]. intros [Hin|(r'' & E & _)]; [exact Hin|discriminate].
Qed.

Lemma xprop_windows_elem (wids : list string) (X : gset Z) (pid : Z) :
  pid ∈ foldl (xprop_window subprocess_run) X wids
  <-> pid ∈ X
      \/ exists wid r',
           wid ∈ wids
           /\ subprocess_run ["xprop"; "-id"; wid; "_NET_WM_PID"] 0.2%float
              = Ok r'
           /\ Py.contains (stdout r') "_NET_WM_PID" = true
           /\ exists digits,
               re_search_group1 "=\s*(\d+)" (stdout r') = Some digits
               /\ py_int digits = Some pid.
Proof.
  revert X. induction wids as [|w wids IH]; intros X; cbn [foldl].
  - split; [auto|]. intros [Hin|(wid & r' & Hin & _)]; [exact Hin|].
    inversion Hin.
  - rewrite IH, xprop_window_elem. split.
    + intros [[Hin|(r' & Hw)]|(wid & r' & Hin & Hw)]; [left; exact Hin| |].
      * right. exists w, r'. split; [left|exact Hw].
      * right. exists wid, r'. split; [right; exact Hin|exact Hw].
    + intros [Hin|(wid & r' & Hin & Hw)]; [left; left; exact Hin|].
      apply elem_of_cons in Hin as [->|Hin].
      * left. right. exists r'. exact Hw.
      * right. exists wid, r'. split; assumption.
Qed.

(** X17 -- When `wmctrl` fails and `xprop -root` exits with status 0, the
    set published holds the pid of each of the first 50 window ids whose
    `xprop -id` query returns output with `_NET_WM_PID` and a number after a
    `=`; a query that raises is passed over, the status of a query is not
    looked at, and window ids after the 50th are never queried. *)
Theorem xprop_fallback_reads_first_fifty (self : view)
    (r : CompletedProcess) (pid : Z) :
  window_pid_thread_running self = false ->
  failed (subprocess_run ["wmctrl"; "-lp"] 2%float) = true ->
  subprocess_run ["xprop"; "-root"; "_NET_CLIENT_LIST"] 2%float = Ok r ->
  returncode r = 0 ->
  pid ∈ window_pids (update_window_pids subprocess_run self).1
  <-> exists wid r',
        wid ∈ take 50 (re_findall "0x[0-9a-fA-F]+" (stdout r))
        /\ subprocess_run ["xprop"; "-id"; wid; "_NET_WM_PID"] 0.2%float
           = Ok r'
        /\ Py.contains (stdout r') "_NET_WM_PID" = true
        /\ exists digits,
            re_search_group1 "=\s*(\d+)" (stdout r') = Some digits
            /\ py_int digits = Some pid.
Proof.
  intros Hidle Hw Hrun Hrc. unfold update_window_pids. rewrite Hidle.
  unfold _fetch_pids.
  assert (E : try_wmctrl subprocess_run ∅ = None).
  { unfold try_wmctrl.
    destruct (subprocess_run ["wmctrl"; "-lp"] 2%float) as [r0|e].
    - cbn [failed] in Hw. apply negb_true_iff in Hw. rewrite Hw. reflexivity.
    - destruct e; reflexivity. }
  rewrite E. unfold try_xprop. rewrite Hrun, Hrc.
  cbn [Z.eqb fst window_pids set_window_pids set_thread_running].
  rewrite xprop_windows_elem. split.
  - intros [Hin|Hl]; [|exact Hl]. apply not_elem_of_empty in Hin.
    contradiction.
  - intros Hl. right. exact Hl.
Qed.

End Facts.

#[local] Existing Instance Demo.builtins.
#[local] Existing Instance Demo.widgets.
#[local] Existing Instance DemoTools.regex.

Lemma wmctrl_answer_is_final_witness :
  window_pid_thread_running Demo.started = false
  /\ DemoTools.with_wmctrl ["wmctrl"; "-lp"] 2%float
     = Ok (Completed 0
             (Demo.line "0x03a00003  0 1234   host Terminal"
              ++ Demo.line "0x03c00007 -1 0      host Desktop"
              ++ Demo.line "broken line"
              ++ Demo.line "0x04000001  0 abc host x")%string)
  /\ elements (window_pids
                 (update_window_pids DemoTools.with_wmctrl Demo.started).1)
     = [1234]
  /\ (1234 ∈ window_pids
               (update_window_pids DemoTools.with_wmctrl Demo.started).1
      <-> exists line,
            line ∈ Py.split newline
                     (Py.strip
                        (Demo.line "0x03a00003  0 1234   host Terminal"
                         ++ Demo.line "0x03c00007 -1 0      host Desktop"
                         ++ Demo.line "broken line"
                         ++ Demo.line "0x04000001  0 abc host x")%string)
            /\ (3 <= length (Py.split_ws line))%nat
            /\ py_int (nth 2 (Py.split_ws line) "") = Some 1234
            /\ 0 < 1234).
Proof.
  split; [reflexivity|]. split; [reflexivity|].
  split; [vm_compute; reflexivity|].
  apply (wmctrl_answer_is_final DemoTools.with_wmctrl Demo.started
           (Completed 0 _) 1234); reflexivity.
Defined.

Lemma xprop_fallback_reads_first_fifty_witness :
  window_pid_thread_running Demo.started = false
  /\ failed (DemoTools.with_xprop ["wmctrl"; "-lp"] 2%float) = true
  /\ DemoTools.with_xprop ["xprop"; "-root"; "_NET_CLIENT_LIST"] 2%float
     = Ok (Completed 0
             "_NET_CLIENT_LIST(WINDOW): window id # 0x3a00003, 0x3c00007")
  /\ elements (window_pids
                 (update_window_pids DemoTools.with_xprop Demo.started).1)
     = [1234]
  /\ (1234 ∈ window_pids
               (update_window_pids DemoTools.with_xprop Demo.started).1
      <-> exists wid r',
            wid ∈ take 50
                    (re_findall "0x[0-9a-fA-F]+"
                       "_NET_CLIENT_LIST(WINDOW): window id # 0x3a00003, 0x3c00007")
            /\ DemoTools.with_xprop ["xprop"; "-id"; wid; "_NET_WM_PID"]
                 0.2%float = Ok r'
            /\ Py.contains (stdout r') "_NET_WM_PID" = true
            /\ exists digits,
                re_search_group1 "=\s*(\d+)" (stdout r') = Some digits
                /\ py_int digits = Some 1234).
Proof.
  split; [reflexivity|]. split; [reflexivity|]. split; [reflexivity|].
  split; [vm_compute; reflexivity|].
  apply (xprop_fallback_reads_first_fifty DemoTools.with_xprop Demo.started
           (Completed 0 _) 1234); reflexivity.
Defined.

End ResolverMore.

(** * Properties of the GPU consumer *)

Module GpuFacts.
Import Gpu.

Section Facts.
Context `{!Builtins}.

Lemma deque_append_drop {A : Type} (x : A) (l : list A) :
  deque_append x (drop (length l - 60) l)
  = drop (length (l ++ [x]) - 60) (l ++ [x]).
Proof.
  unfold deque_append.
  rewrite <- (drop_app_le l [x] (length l - 60)) by lia.
  rewrite drop_drop. f_equal.
  rewrite length_drop, !length_app. cbn [length]. lia.
Qed.

Lemma gpu_exec_history (self : gpu_view) (e : gpu_event) (l : list Z) :
  gpu_history self = drop (length l - 60) l ->
  gpu_history (gpu_exec self e)
  = drop (length (l ++ shown_by self [e]) - 60) (l ++ shown_by self [e]).
Proof.
  intros Hh. destruct e as [data|]; cbn [gpu_exec shown_by].
  - rewrite !app_nil_r. exact Hh.
  - unfold shown, _update_gpu_display.
    destruct (gpu_data self) as [|gpu rest].
    + rewrite !app_nil_r. exact Hh.
    + destruct (read_gpu gpu) as [v|]; cbn [fmap option_fmap option_map].
      * cbn [gpu_history]. rewrite Hh, app_nil_r. apply deque_append_drop.
      * rewrite !app_nil_r. exact Hh.
Qed.

Lemma gpu_run_history (es : list gpu_event) (self : gpu_view) (l : list Z) :
  gpu_history self = drop (length l - 60) l ->
  gpu_history (gpu_run self es)
  = drop (length (l ++ shown_by self es) - 60) (l ++ shown_by self es).
Proof.
  revert self l. induction es as [|e es IH]; intros self l Hh.
  - cbn [gpu_run foldl shown_by]. rewrite app_nil_r. exact Hh.
  - change (gpu_run self (e :: es)) with (gpu_run (gpu_exec self e) es).
    pose proof (gpu_exec_history self e l Hh) as He.
    rewrite (IH _ _ He).
    replace (shown_by self (e :: es))
      with (shown_by self [e] ++ shown_by (gpu_exec self e) es)
      by (cbn [shown_by]; rewrite app_nil_r; reflexivity).
    rewrite (assoc_L (++)). reflexivity.
Qed.

(** X18 -- The GPU history is a window of 60: after any sequence of GPU
    frames and ticks it holds the last 60 of its earlier values followed by
    the utilisations the ticks displayed, in order; a tick while no GPU frame
    has arrived, or on a frame whose first row does not convert, adds
    nothing. *)
Theorem gpu_history_is_last_sixty (self : gpu_view) (es : list gpu_event) :
  (length (gpu_history self) <= 60)%nat ->
  gpu_history (gpu_run self es)
  = drop (length (gpu_history self ++ shown_by self es) - 60)
         (gpu_history self ++ shown_by self es)
  /\ (length (gpu_history (gpu_run self es)) <= 60)%nat.
Proof.
  intros Hlen.
  assert (E : gpu_history (gpu_run self es)
              = drop (length (gpu_history self ++ shown_by self es) - 60)
                     (gpu_history self ++ shown_by self es)).
  { apply gpu_run_history.
    replace (length (gpu_history self) - 60)%nat with 0%nat by lia.
    reflexivity. }
  split; [exact E|]. rewrite E, length_drop. lia.
Qed.

(** X19 -- A GPU frame the reader hands over is never empty and its rows
    have eight fields, so reading the first row raises no `IndexError`:
    the view marks the GPU present, and the next tick displays the third
    field of the first row when the seven numeric fields convert, and
    nothing otherwise. *)
Theorem decoded_gpu_frame_is_read (cancel_at : option nat)
    (stdout : list string) (data : list (list string)) (self : gpu_view) :
  Decoder.UpdateGpu data ∈ Decoder._read_backend cancel_at stdout ->
  has_gpu (update_gpu_data self data) = true
  /\ exists gpu rest,
      data = gpu :: rest
      /\ (is_Some (shown (update_gpu_data self data))
          <-> Forall (fun i => is_Some (py_int (nth i gpu "")))
                     [0; 2; 3; 4; 5; 6; 7]%nat)
      /\ (forall u, shown (update_gpu_data self data) = Some u ->
                    py_int (nth 2 gpu "") = Some u).
Proof.
  intros Hin.
  assert (Har : Forall Pipeline.arity_ok
                       (Decoder._read_backend cancel_at stdout))
    by (apply DecoderMore.read_lines_arity; constructor).
  rewrite Forall_forall in Har. specialize (Har _ Hin). cbn in Har.
  pose proof (DecoderFacts.read_lines_nonempty Decoder.init
                (match cancel_at with
                 | Some n => take n stdout
                 | None => stdout
                 end)) as Hne.
  rewrite Forall_forall in Hne. specialize (Hne _ Hin). cbn in Hne.
  destruct data as [|gpu rest]; [contradiction|].
  split.
  { unfold update_gpu_data. cbn [has_gpu]. destruct (has_gpu self); reflexivity. }
  exists gpu, rest. split; [reflexivity|].
  apply Forall_cons in Har as [Hlen _].
  do 8 (destruct gpu as [|? gpu]; [discriminate|]).
  destruct gpu; [|discriminate].
  unfold shown, update_gpu_data, read_gpu. cbn [gpu_data lookup list_lookup nth].
  rewrite !Forall_cons, Forall_nil. cbn.
  repeat match goal with
         | |- context [py_int ?x] =>
             let E := fresh "E" in destruct (py_int x) eqn:E
         end;
    cbn; (split; [split|]).
  all: try (intros Hs; destruct Hs as [? Hs]; discriminate Hs).
  all: try (intros; repeat split; eauto; fail).
  all: try (intros; congruence).
  all: try (intros Hall;
            repeat match goal with
                   | H : _ /\ _ |- _ => destruct H
                   | H : is_Some None |- _ => destruct H; discriminate
                   end; fail).
Qed.

End Facts.

#[local] Existing Instance Demo.builtins.

Lemma gpu_history_is_last_sixty_witness :
  (length (gpu_history new_gpu_view) <= 60)%nat
  /\ gpu_history
       (gpu_run new_gpu_view
          (Tick
           :: GpuFrame [["0"; "RTX"; "7"; "100"; "8192"; "50"; "30"; "200"]]
           :: replicate 61 Tick
           ++ [GpuFrame [["0"; "RTX"; "n/a"; "100"; "8192"; "50"; "30"; "200"]];
               Tick;
               GpuFrame [["0"; "RTX"; "9"; "100"; "8192"; "50"; "30"; "200"]];
               Tick]))
     = replicate 59 7 ++ [9]
  /\ (gpu_history (gpu_run new_gpu_view [Tick; Tick])
      = drop (length (gpu_history new_gpu_view
                      ++ shown_by new_gpu_view [Tick; Tick]) - 60)
             (gpu_history new_gpu_view ++ shown_by new_gpu_view [Tick; Tick])
      /\ (length (gpu_history (gpu_run new_gpu_view [Tick; Tick])) <= 60)%nat).
Proof.
  split; [cbn; lia|]. split; [vm_compute; reflexivity|].
  apply (gpu_history_is_last_sixty new_gpu_view [Tick; Tick]). cbn. lia.
Defined.

Lemma decoded_gpu_frame_is_read_witness :
  Decoder.UpdateGpu [["0"; "RTX"; "7"; "100"; "8192"; "50"; "30"; "200"]]
  ∈ Decoder._read_backend None
      ["GPU_START"; "GPU|0|RTX|7|100|8192|50|30|200"; "GPU_END"]
  /\ has_gpu
       (update_gpu_data new_gpu_view
          [["0"; "RTX"; "7"; "100"; "8192"; "50"; "30"; "200"]])
     = true
  /\ shown
       (update_gpu_data new_gpu_view
          [["0"; "RTX"; "7"; "100"; "8192"; "50"; "30"; "200"]])
     = Some 7.
Proof.
  assert (Hin : Decoder.UpdateGpu
                  [["0"; "RTX"; "7"; "100"; "8192"; "50"; "30"; "200"]]
                ∈ Decoder._read_backend None
                    ["GPU_START"; "GPU|0|RTX|7|100|8192|50|30|200";
                     "GPU_END"])
    by (vm_compute; left).
  split; [exact Hin|].
  split; [|vm_compute; reflexivity].
  exact (proj1 (decoded_gpu_frame_is_read None _ _ new_gpu_view Hin)).
Defined.

End GpuFacts.

(** * Properties of the row widgets *)

Module WidgetFacts.
Import View Widget.

Section Facts.
Variable round1 : float -> float.

(** The sub-row of [pid] after the loop that ends `update_data` has met
    [pid] once: the one there before, refreshed, or a new one. *)
Abbreviation synced name d old pid :=
  (match old with
   | Some sub_row =>
       sub_update_data round1 sub_row (d_cpu (details_of pid d))
                       (d_mem (details_of pid d))
   | None =>
       new_sub_row pid name (d_cpu (details_of pid d))
                   (d_mem (details_of pid d))
   end).

Lemma sync_lookup (name : string) (d : list (Z * detail))
    (subs : gmap Z SubProcessRow) (pid q : Z) :
  sync_sub_row round1 name d subs pid !! q
  = if decide (q = pid) then Some (synced name d (subs !! pid) pid)
    else subs !! q.
Proof.
  unfold sync_sub_row. destruct (decide (q = pid)) as [->|Hne].
  - destruct (subs !! pid); apply lookup_insert_eq.
  - destruct (subs !! pid); apply lookup_insert_ne; congruence.
Qed.

Lemma sync_all_lookup (name : string) (d : list (Z * detail))
    (ps : list Z) (subs : gmap Z SubProcessRow) (q : Z) :
  NoDup ps ->
  foldl (sync_sub_row round1 name d) subs ps !! q
  = if decide (q ∈ ps) then Some (synced name d (subs !! q) q)
    else subs !! q.
Proof.
  intros Hnd. revert subs.
  induction Hnd as [|p ps Hp Hnd IH]; intros subs; cbn [foldl].
  - destruct (decide (q ∈ [])) as [Hin|_]; [inversion Hin|reflexivity].
  - rewrite IH, sync_lookup.
    destruct (decide (q ∈ ps)) as [Hin|Hout].
    + destruct (decide (q = p)) as [->|Hne]; [contradiction|].
      destruct (decide (q ∈ p :: ps)) as [_|Hn]; [reflexivity|].
      exfalso. apply Hn. right. exact Hin.
    + destruct (decide (q = p)) as [->|Hne].
      * destruct (decide (p ∈ p :: ps)) as [_|Hn]; [reflexivity|].
        exfalso. apply Hn. left.
      * destruct (decide (q ∈ p :: ps)) as [Hin|_]; [|reflexivity].
        apply elem_of_cons in Hin as [?|?]; contradiction.
Qed.

Lemma sync_all_dom (name : string) (d : list (Z * detail)) (ps : list Z)
    (subs : gmap Z SubProcessRow) :
  dom (foldl (sync_sub_row round1 name d) subs ps)
  = dom subs ∪ list_to_set ps.
Proof.
  revert subs. induction ps as [|p ps IH]; intros subs; cbn [foldl].
  - cbn. set_solver.
  - rewrite IH.
    assert (E : dom (sync_sub_row round1 name d subs p) = dom subs ∪ {[p]}).
    { unfold sync_sub_row.
      destruct (subs !! p); rewrite dom_insert_L; set_solver. }
    rewrite E. cbn [list_to_set]. set_solver.
Qed.

Lemma show_all_lookup (name : string) (d : list (Z * detail)) (ps : list Z)
    (subs : gmap Z SubProcessRow) (q : Z) :
  foldl (show_sub_row name d) subs ps !! q
  = match subs !! q with
    | Some sub_row => Some sub_row
    | None =>
        if decide (q ∈ ps)
        then Some (new_sub_row q name (d_cpu (details_of q d))
                               (d_mem (details_of q d)))
        else None
    end.
Proof.
  revert subs. induction ps as [|p ps IH]; intros subs; cbn [foldl].
  - destruct (subs !! q); [reflexivity|].
    destruct (decide (q ∈ [])) as [Hin|_]; [inversion Hin|reflexivity].
  - rewrite IH. unfold show_sub_row.
    destruct (subs !! p) eqn:Ep.
    + destruct (subs !! q) eqn:Eq; [reflexivity|].
      destruct (decide (q ∈ ps)) as [Hin|Hout].
      * destruct (decide (q ∈ p :: ps)) as [_|Hn]; [reflexivity|].
        exfalso. apply Hn. right. exact Hin.
      * destruct (decide (q ∈ p :: ps)) as [Hin|_]; [|reflexivity].
        apply elem_of_cons in Hin as [->|?]; [congruence|contradiction].
    + destruct (decide (q = p)) as [->|Hne].
      * rewrite lookup_insert_eq, Ep.
        destruct (decide (p ∈ p :: ps)) as [_|Hn]; [reflexivity|].
        exfalso. apply Hn. left.
      * rewrite lookup_insert_ne by congruence.
        destruct (subs !! q); [reflexivity|].
        destruct (decide (q ∈ ps)) as [Hin|Hout].
        -- destruct (decide (q ∈ p :: ps)) as [_|Hn]; [reflexivity|].
           exfalso. apply Hn. right. exact Hin.
        -- destruct (decide (q ∈ p :: ps)) as [Hin|_]; [|reflexivity].
           apply elem_of_cons in Hin as [?|?]; contradiction.
Qed.

Lemma nonempty_length {A : Type} (l : list A) :
  l <> [] -> (length l =? 0)%nat = false.
Proof. destruct l; [congruence|reflexivity]. Qed.

(** X20 -- While a row is expanded, an update with details and pids makes
    its sub-rows those of the pids given: sub-rows of other pids are
    destroyed, and each pid listed (once) keeps its sub-row, refreshed with
    the pid's detail, or gets a new one. *)
Theorem expanded_row_tracks_pids (self : process_row) (cpu' mem' : float)
    (state' : string) (pids' : list Z) (d : list (Z * detail)) :
  r_expanded self = true ->
  d <> [] ->
  pids' <> [] ->
  exists row',
    row_update round1 self cpu' mem' state' pids' d = (row', false)
    /\ dom (r_sub_rows row') = list_to_set pids'
    /\ (NoDup pids' ->
        forall pid,
          pid ∈ pids' ->
          r_sub_rows row' !! pid
          = Some (synced (r_name self) d (r_sub_rows self !! pid) pid)).
Proof.
  intros Hexp Hd Hp. unfold row_update.
  rewrite (nonempty_length _ Hp), andb_false_r, Hexp. cbn [negb andb].
  destruct d as [|kv d]; [congruence|]. eexists. split; [reflexivity|].
  cbn [r_sub_rows]. split.
  - rewrite sync_all_dom. apply set_eq. intros q.
    rewrite elem_of_union, elem_of_dom, elem_of_list_to_set. split.
    + intros [[sub Hsub]|Hin]; [|exact Hin].
      apply map_lookup_filter_Some in Hsub as [_ Hin]. exact Hin.
    + intros Hin. right. exact Hin.
  - intros Hnd pid Hin. rewrite sync_all_lookup by exact Hnd.
    destruct (decide (pid ∈ pids')) as [_|Hn]; [|contradiction].
    f_equal.
    assert (E : filter (fun kv0 : Z * SubProcessRow => kv0.1 ∈ pids')
                       (r_sub_rows self) !! pid
                = r_sub_rows self !! pid).
    { rewrite map_lookup_filter.
      destruct (r_sub_rows self !! pid) as [sub|]; [|reflexivity].
      cbn. rewrite option_guard_True by exact Hin. reflexivity. }
    rewrite E. reflexivity.
Qed.

(** X21 -- While a row is collapsed an update leaves its sub-rows alone,
    whatever the pids given.  A click on the arrow then shows them again as
    they were: the sub-rows of pids no longer listed are still there, those
    of pids still listed keep their old values, and only the pids without a
    sub-row get one. *)
Theorem collapsed_row_keeps_sub_rows (self : process_row) (cpu' mem' : float)
    (state' : string) (pids' : list Z) (d : list (Z * detail)) :
  r_expanded self = false ->
  (1 < length pids')%nat ->
  let updated := (row_update round1 self cpu' mem' state' pids' d).1 in
  let clicked := _on_arrow_click updated in
  r_sub_rows updated = r_sub_rows self
  /\ r_expanded clicked = true
  /\ dom (r_sub_rows clicked) = dom (r_sub_rows self) ∪ list_to_set pids'
  /\ forall pid sub_row,
      r_sub_rows self !! pid = Some sub_row ->
      r_sub_rows clicked !! pid = Some sub_row.
Proof.
  intros Hexp Hlen updated clicked.
  assert (Hsubs : r_sub_rows updated = r_sub_rows self).
  { unfold updated, row_update. cbn [fst r_sub_rows]. rewrite Hexp.
    rewrite andb_false_r. reflexivity. }
  assert (Hpids : r_pids updated = pids') by reflexivity.
  assert (Hupd : r_expanded updated = false) by exact Hexp.
  assert (Hclick : clicked = _toggle_expand updated).
  { unfold clicked, _on_arrow_click. rewrite Hpids.
    destruct (Nat.ltb_spec 1 (length pids')); [reflexivity|lia]. }
  split; [exact Hsubs|]. rewrite Hclick. unfold _toggle_expand.
  rewrite Hupd, Hsubs, Hpids. cbn [negb r_expanded r_sub_rows].
  split; [reflexivity|]. split.
  - apply set_eq. intros q.
    rewrite elem_of_union, !elem_of_dom, elem_of_list_to_set.
    rewrite show_all_lookup.
    destruct (r_sub_rows self !! q) as [sub|].
    + split; [intros _; left; eauto|intros _; eauto].
    + destruct (decide (q ∈ pids')) as [Hin|Hout].
      * split; [intros _; right; exact Hin|intros _; eauto].
      * split; [intros [? ?]; discriminate|].
        intros [[? ?]|?]; [discriminate|contradiction].
  - intros pid sub Hsub. rewrite show_all_lookup, Hsub. reflexivity.
Qed.

Section Cycle.
Context `{!Builtins} `{!Widgets}.
Variable real_uid_differs : Z -> option bool.

Lemma dict_set_nonempty {V : Type} (k : Z) (v : V) (d : list (Z * V)) :
  dict_set k v d <> [].
Proof.
  destruct d as [|[k' v'] d]; cbn; [discriminate|].
  destruct (k =? k'); discriminate.
Qed.

Lemma details_nonempty (ms : list sample) (d0 : list (Z * detail)) :
  d0 <> [] \/ ms <> [] ->
  foldl (fun d s => dict_set (s_pid s) (Detail (s_cpu s) (s_mem_mb s)) d)
        d0 ms <> [].
Proof.
  revert d0. induction ms as [|s ms IH]; intros d0 Hne; cbn [foldl].
  - destruct Hne; congruence.
  - apply IH. left. apply dict_set_nonempty.
Qed.

Lemma cycle_group_nonempty (self self' : view) (data : list (list string))
    (groups : gmap string group * gmap string group) (is_app : bool)
    (name : string) (g : group) :
  update_data real_uid_differs self data = (self', Some groups) ->
  target_of is_app groups !! name = Some g ->
  pids g <> [] /\ details g <> [].
Proof.
  intros Hup Hg.
  destruct (AggregatorFacts.update_groups _ _ _ _ _ Hup) as (ss & _ & Hgroups).
  rewrite Hgroups in Hg.
  destruct (members is_app name
              (labelled real_uid_differs (cache_cleanup self data).1 ss))
    as [|s0 ms]; [discriminate|].
  cbn [group_of] in Hg. injection Hg as <-. split.
  - intros E. cbn in E. discriminate E.
  - apply (details_nonempty (s0 :: ms) []). right. intros E. discriminate E.
Qed.

(** X22 -- `ProcessRow.update_data` reads `pids[0]`, which raises on an
    empty list.  The groups of a cycle that returns never have an empty pid
    list, nor empty details, so updating any row with the values of such a
    group does not raise. *)
Theorem cycle_groups_never_raise (self self' : view)
    (data : list (list string))
    (groups : gmap string group * gmap string group) (is_app : bool)
    (name : string) (g : group) (row : process_row) :
  update_data real_uid_differs self data = (self', Some groups) ->
  target_of is_app groups !! name = Some g ->
  pids g <> []
  /\ details g <> []
  /\ (row_update round1 row (cpu g) (mem g) (state g) (pids g) (details g)).2
     = false.
Proof.
  intros Hup Hg.
  destruct (cycle_group_nonempty _ _ _ _ _ _ _ Hup Hg) as [Hp Hd].
  split; [exact Hp|]. split; [exact Hd|].
  unfold row_update. cbn [snd]. rewrite (nonempty_length _ Hp).
  apply andb_false_r.
Qed.

End Cycle.

Section Mirror.
Context `{!Builtins}.
Variable real_uid_differs : Z -> option bool.

Abbreviation rview := (@view (widgets round1)).
Abbreviation update :=
  (@update_data _ (widgets round1) real_uid_differs).

(** X23 -- With the rows of Tk, after a cycle that returns every row holds
    the pids, the state and the details of its group.  A row that was there
    keeps its name, its section and its expanded flag: a cycle neither
    expands nor collapses a row.  A new row has the name and the section of
    its key and is collapsed. *)
Theorem row_mirrors_group (self self' : rview)
    (data : list (list string))
    (groups : gmap string group * gmap string group)
    (key : string * string) (row : process_row) :
  update self data = (self', Some groups) ->
  rows self' !! key = Some row ->
  exists info,
    info_for groups.1 groups.2 key = Some info
    /\ r_pids row = pids info
    /\ r_state row = state info
    /\ r_process_details row = details info
    /\ match rows self !! key with
       | Some old =>
           r_expanded row = r_expanded old
           /\ r_name row = r_name old
           /\ r_is_app row = r_is_app old
       | None =>
           r_expanded row = false
           /\ r_name row = key.2
           /\ r_is_app row = (key.1 =? APP)%string
       end.
Proof.
  intros Hup Hrow.
  destruct (RowsFacts.cycle_rows _ _ _ _ _ Hup) as (self2 & dl & Hr & E).
  pose proof (RowsFacts.update_rows_lookup _ _ _ _ dl key E) as Hl.
  change (rows (set_rows self2 (rows self'))) with (rows self') in Hl.
  pose proof (eq_trans (eq_sym Hrow) Hl) as Hk. clear Hl. rename Hk into Hl.
  rewrite Hr in Hl.
  destruct (decide (key ∈ current_keys groups.1 groups.2)); [|discriminate].
  destruct (info_for groups.1 groups.2 key) as [info|] eqn:Ei; [|discriminate].
  assert (Hd : details info <> []).
  { unfold info_for in Ei.
    refine (proj2 (cycle_group_nonempty real_uid_differs self self' data
                     groups (key.1 =? APP)%string key.2 info Hup _)).
    unfold target_of. destruct (key.1 =? APP)%string; exact Ei. }
  exists info. split; [reflexivity|]. cbn in Hl.
  destruct (rows self !! key) as [old|] eqn:Eo;
    match type of Hl with
    | context [match ?o with Some _ => _ | None => _ end] =>
        let Eo' := fresh in
        pose proof (Eo : o = _) as Eo'; rewrite Eo' in Hl
    end;
    injection Hl as Hl; subst row.
  - unfold row_update. cbn.
    destruct (details info); [congruence|]. repeat split; reflexivity.
  - cbn. repeat split; reflexivity.
Qed.

(** The value remembered for a column, if any, is the rounding of the
    value the column shows. *)
Abbreviation remembers row :=
  ((forall p, r_prev_cpu row = Some p -> p = round1 (r_cpu row))
   /\ (forall p, r_prev_mem row = Some p -> p = round1 (r_mem row))).

Lemma same_as_Some (x : float) (prev : option float) :
  same_as x prev = true ->
  exists p, prev = Some p /\ PrimFloat.eqb x p = true.
Proof.
  destruct prev as [p|]; [|discriminate]. intros E. exists p. auto.
Qed.

Lemma row_update_remembers (self : process_row) (cpu' mem' : float)
    (state' : string) (pids' : list Z) (d : list (Z * detail)) :
  remembers self ->
  let row := (row_update round1 self cpu' mem' state' pids' d).1 in
  r_prev_cpu row = Some (round1 (r_cpu row))
  /\ r_prev_mem row = Some (round1 (r_mem row))
  /\ (PrimFloat.eqb (round1 cpu') (round1 cpu') = true ->
      PrimFloat.eqb (round1 cpu') (round1 (r_cpu row)) = true)
  /\ (PrimFloat.eqb (round1 mem') (round1 mem') = true ->
      PrimFloat.eqb (round1 mem') (round1 (r_mem row)) = true).
Proof.
  intros [Hc Hm] row. unfold row, row_update.
  cbn [fst r_prev_cpu r_prev_mem r_cpu r_mem].
  destruct (same_as (round1 cpu') (r_prev_cpu self)) eqn:Ec;
    destruct (same_as (round1 mem') (r_prev_mem self)) eqn:Em;
    cbn [negb];
    repeat match goal with
           | E : same_as _ _ = true |- _ =>
               apply same_as_Some in E as (? & ? & ?)
           end;
    repeat split; auto;
    try (erewrite <- Hc by eassumption; assumption);
    try (erewrite <- Hm by eassumption; assumption);
    try (rewrite <- (Hc _ ltac:(eassumption)); assumption);
    try (rewrite <- (Hm _ ltac:(eassumption)); assumption).
  all: try (intros _; rewrite <- (Hc _ ltac:(eassumption)); assumption).
  all: try (intros _; rewrite <- (Hm _ ltac:(eassumption)); assumption).
Qed.

(** X24 -- A row skips the CPU or memory label when the value rounds to the
    one remembered.  Whatever the sequence of groups a row is made from and
    then updated with, after the last update the value each column shows
    has the rounding the row remembers, and with `==` on floats it rounds
    like the last value given, unless that rounding is a NaN. *)
Theorem row_shows_last_value_rounded (section name : string)
    (first last_info : group) (infos : list group) :
  let row :=
    foldl (fun r i => @row_update_data (widgets round1) i r)
          (@ProcessRow (widgets round1) section name first)
          (infos ++ [last_info]) in
  r_prev_cpu row = Some (round1 (r_cpu row))
  /\ r_prev_mem row = Some (round1 (r_mem row))
  /\ (PrimFloat.eqb (round1 (cpu last_info)) (round1 (cpu last_info)) = true ->
      PrimFloat.eqb (round1 (cpu last_info)) (round1 (r_cpu row)) = true)
  /\ (PrimFloat.eqb (round1 (mem last_info)) (round1 (mem last_info)) = true ->
      PrimFloat.eqb (round1 (mem last_info)) (round1 (r_mem row)) = true).
Proof.
  intros row. unfold row. rewrite foldl_app. cbn [foldl row_update_data widgets].
  apply row_update_remembers.
  assert (H0 : remembers (@ProcessRow (widgets round1) section name first))
    by (cbn; split; intros p E; discriminate E).
  revert H0.
  generalize (@ProcessRow (widgets round1) section name first).
  induction infos as [|i infos IH]; intros r Hr; cbn [foldl].
  - exact Hr.
  - apply IH. cbn [row_update_data widgets].
    destruct (row_update_remembers r (cpu i) (mem i) (state i) (pids i)
                (details i) Hr) as (Ec & Em & _).
    split; intros p E.
    + rewrite Ec in E. injection E as <-. reflexivity.
    + rewrite Em in E. injection E as <-. reflexivity.
Qed.

End Mirror.
End Facts.

#[local] Existing Instance Demo.builtins.

Lemma expanded_row_tracks_pids_witness :
  r_expanded DemoTools.expanded_row = true
  /\ [(11, Detail 2.5%float 1%float); (12, Detail 0.5%float 4%float)] <> []
  /\ [11; 12] <> []
  /\ exists row',
      row_update DemoTools.tenths DemoTools.expanded_row 3%float 5%float "S"
                 [11; 12]
                 [(11, Detail 2.5%float 1%float);
                  (12, Detail 0.5%float 4%float)]
      = (row', false)
      /\ dom (r_sub_rows row') = list_to_set [11; 12]
      /\ (NoDup [11; 12] ->
          forall pid,
            pid ∈ [11; 12] ->
            r_sub_rows row' !! pid
            = Some
                match r_sub_rows DemoTools.expanded_row !! pid with
                | Some sub_row =>
                    sub_update_data DemoTools.tenths sub_row
                      (d_cpu (details_of pid
                                [(11, Detail 2.5%float 1%float);
                                 (12, Detail 0.5%float 4%float)]))
                      (d_mem (details_of pid
                                [(11, Detail 2.5%float 1%float);
                                 (12, Detail 0.5%float 4%float)]))
                | None =>
                    new_sub_row pid (r_name DemoTools.expanded_row)
                      (d_cpu (details_of pid
                                [(11, Detail 2.5%float 1%float);
                                 (12, Detail 0.5%float 4%float)]))
                      (d_mem (details_of pid
                                [(11, Detail 2.5%float 1%float);
                                 (12, Detail 0.5%float 4%float)]))
                end).
Proof.
  split; [reflexivity|]. split; [discriminate|]. split; [discriminate|].
  apply (expanded_row_tracks_pids DemoTools.tenths DemoTools.expanded_row
           3%float 5%float "S" [11; 12]
           [(11, Detail 2.5%float 1%float); (12, Detail 0.5%float 4%float)]);
    [reflexivity|discriminate|discriminate].
Defined.

Lemma collapsed_row_keeps_sub_rows_witness :
  r_expanded (_toggle_expand DemoTools.expanded_row) = false
  /\ (1 < length [11; 12])%nat
  /\ r_sub_rows
       (row_update DemoTools.tenths (_toggle_expand DemoTools.expanded_row)
                   3%float 5%float "S" [11; 12]
                   [(11, Detail 2.5%float 1%float);
                    (12, Detail 0.5%float 4%float)]).1
     = r_sub_rows (_toggle_expand DemoTools.expanded_row)
  /\ dom (r_sub_rows
            (_on_arrow_click
               (row_update DemoTools.tenths
                  (_toggle_expand DemoTools.expanded_row)
                  3%float 5%float "S" [11; 12]
                  [(11, Detail 2.5%float 1%float);
                   (12, Detail 0.5%float 4%float)]).1))
     = list_to_set [10; 11; 12].
Proof.
  split; [reflexivity|]. split; [cbn; lia|].
  split; [|vm_compute; reflexivity].
  apply (collapsed_row_keeps_sub_rows DemoTools.tenths
           (_toggle_expand DemoTools.expanded_row) 3%float 5%float "S"
           [11; 12]
           [(11, Detail 2.5%float 1%float); (12, Detail 0.5%float 4%float)]);
    [reflexivity|cbn; lia].
Defined.

Lemma tk_pair_frame_returns :
  DemoTools.tk_update DemoTools.tk_windowed Demo.pair_frame
  = ((DemoTools.tk_update DemoTools.tk_windowed Demo.pair_frame).1,
     Some (default (∅, ∅)
             (DemoTools.tk_update DemoTools.tk_windowed Demo.pair_frame).2)).
Proof. vm_compute. reflexivity. Defined.

Lemma tk_pair_frame_background :
  target_of false
    (default (∅, ∅)
       (DemoTools.tk_update DemoTools.tk_windowed Demo.pair_frame).2)
    !! "xterm"
  = Some (Group [11] 1.5%float 1%float "S" [(11, Detail 1.5%float 1%float)]).
Proof. vm_compute. reflexivity. Defined.

Lemma tk_pair_frame_row :
  rows (DemoTools.tk_update DemoTools.tk_windowed Demo.pair_frame).1
    !! (BG, "xterm")
  = Some (new_row "xterm" [11] 1.5%float 1%float "S" false
                  [(11, Detail 1.5%float 1%float)]).
Proof. vm_compute. reflexivity. Defined.

Lemma cycle_groups_never_raise_witness :
  DemoTools.tk_update DemoTools.tk_windowed Demo.pair_frame
  = ((DemoTools.tk_update DemoTools.tk_windowed Demo.pair_frame).1,
     Some (default (∅, ∅)
             (DemoTools.tk_update DemoTools.tk_windowed Demo.pair_frame).2))
  /\ target_of false
       (default (∅, ∅)
          (DemoTools.tk_update DemoTools.tk_windowed Demo.pair_frame).2)
       !! "xterm"
     = Some (Group [11] 1.5%float 1%float "S" [(11, Detail 1.5%float 1%float)])
  /\ [11] <> []
  /\ [(11, Detail 1.5%float 1%float)] <> []
  /\ (row_update DemoTools.tenths DemoTools.expanded_row 1.5%float 1%float
                 "S" [11] [(11, Detail 1.5%float 1%float)]).2
     = false.
Proof.
  split; [exact tk_pair_frame_returns|].
  split; [exact tk_pair_frame_background|].
  apply (cycle_groups_never_raise DemoTools.tenths Demo.same_user _ _
           Demo.pair_frame _ false "xterm"
           (Group [11] 1.5%float 1%float "S"
                  [(11, Detail 1.5%float 1%float)])
           DemoTools.expanded_row
           tk_pair_frame_returns tk_pair_frame_background).
Defined.

Lemma row_mirrors_group_witness :
  DemoTools.tk_update DemoTools.tk_windowed Demo.pair_frame
  = ((DemoTools.tk_update DemoTools.tk_windowed Demo.pair_frame).1,
     Some (default (∅, ∅)
             (DemoTools.tk_update DemoTools.tk_windowed Demo.pair_frame).2))
  /\ rows (DemoTools.tk_update DemoTools.tk_windowed Demo.pair_frame).1
       !! (BG, "xterm")
     = Some (new_row "xterm" [11] 1.5%float 1%float "S" false
                     [(11, Detail 1.5%float 1%float)])
  /\ exists info,
      info_for
        (default (∅, ∅)
           (DemoTools.tk_update DemoTools.tk_windowed Demo.pair_frame).2).1
        (default (∅, ∅)
           (DemoTools.tk_update DemoTools.tk_windowed Demo.pair_frame).2).2
        (BG, "xterm")
      = Some info
      /\ [11] = pids info
      /\ "S" = state info
      /\ [(11, Detail 1.5%float 1%float)] = details info.
Proof.
  split; [exact tk_pair_frame_returns|].
  split; [exact tk_pair_frame_row|].
  destruct (row_mirrors_group DemoTools.tenths Demo.same_user _ _
              Demo.pair_frame _ (BG, "xterm") _
              tk_pair_frame_returns tk_pair_frame_row)
    as (info & Hi & Hp & Hs & Hd & _).
  exists info. repeat split; assumption.
Defined.

End WidgetFacts.
